(** * GeocodingServiceAdvanced: a shallow embedding and its properties

    The development follows [src/geocoding-service-advanced.js]: the cache
    key normalisation, the retrying lookup client, the in-memory cache, the
    checkpointed batch loop, the rate adjustment and the report. *)

From Stdlib Require Import ZArith Lia Bool Ascii String List Sorted.
From Stdlib Require SpecFloat.
From stdpp Require Import base option list gmap strings pretty.
From Equations Require Import Equations.

Local Open Scope Z_scope.

(** ** Strings

    A JavaScript string is a sequence of UTF-16 code units.  The model keeps
    the code units below 256 (ASCII and the Latin-1 block, which covers the
    accented letters of Brazilian addresses): one [ascii] per code unit. *)

Module Str.

(** [\s] of a JavaScript regular expression, which is also the set that
    [String.prototype.trim] strips, restricted to code units below 256:
    TAB, LF, VT, FF, CR, SPACE and NBSP. *)
Definition is_space (c : ascii) : bool :=
  let n := nat_of_ascii c in
  ((9 <=? n) && (n <=? 13) || (n =? 32) || (n =? 160))%nat.

(** [toLowerCase] on one code unit: A-Z, and the Latin-1 capitals
    U+00C0-U+00DE except the multiplication sign U+00D7. *)
Definition lower (c : ascii) : ascii :=
  let n := nat_of_ascii c in
  if ((65 <=? n) && (n <=? 90)
      || (192 <=? n) && (n <=? 222) && negb (n =? 215))%nat
  then ascii_of_nat (n + 32) else c.

Fixpoint toLowerCase (s : string) : string :=
  match s with
  | EmptyString => EmptyString
  | String c r => String (lower c) (toLowerCase r)
  end.

Fixpoint trimStart (s : string) : string :=
  match s with
  | EmptyString => EmptyString
  | String c r => if is_space c then trimStart r else s
  end.

Fixpoint trimEnd (s : string) : string :=
  match s with
  | EmptyString => EmptyString
  | String c r =>
      match trimEnd r with
      | EmptyString => if is_space c then EmptyString else String c EmptyString
      | r' => String c r'
      end
  end.

Definition trim (s : string) : string := trimEnd (trimStart s).

(** [s.replace(/\s+/g, ' ')]: every maximal run of white space becomes one
    SPACE.  [in_run] tells that the previous code unit was white space, so
    the current run has already been replaced. *)
Fixpoint replace_spaces_from (in_run : bool) (s : string) : string :=
  match s with
  | EmptyString => EmptyString
  | String c r =>
      if is_space c
      then (if in_run then replace_spaces_from true r
            else String " " (replace_spaces_from true r))
      else String c (replace_spaces_from false r)
  end.

Definition replace_spaces (s : string) : string := replace_spaces_from false s.

End Str.

(** [getCacheKey(endereco)]:
    [endereco.toLowerCase().trim().replace(/\s+/g, ' ')]. *)
Definition getCacheKey (endereco : string) : string :=
  Str.replace_spaces (Str.trim (Str.toLowerCase endereco)).

(** ** Data model *)

(** A JavaScript number as far as the service observes it: [parseFloat] gives
    NaN, an infinity or a finite value, and the code only tests truthiness
    and copies the value.  A finite coordinate is kept as its decimal text
    scaled by [10^7] (the provider prints seven decimals). *)
Inductive number : Type :=
| NaN
| Infinity (negative : bool)
| Num (z : Z).

Definition number_truthy (x : number) : bool :=
  match x with
  | NaN => false
  | Infinity _ => true
  | Num z => negb (z =? 0)
  end.

(** Truthiness of a field that may hold [null] or [undefined]. *)
Definition truthy (x : option number) : bool :=
  match x with
  | None => false
  | Some n => number_truthy n
  end.

(** One element of [response.data], with [lat] and [lon] already read by
    [parseFloat]. *)
Record candidato : Type := mkCandidato {
  cand_lat : number;
  cand_lon : number;
  cand_display_name : string;
  cand_importance : number
}.

(** The outcome of [axios.get]: the promise rejects (transport error,
    timeout, HTTP error status) or resolves with the list of candidates,
    each of them an object, as the provider's interface has it. *)
Inductive resposta : Type :=
| ErroTransporte
| Dados (cands : list candidato).

(** The object returned by [buscarCoordenadas] on success, which is also the
    value kept in the cache and in the cache file.  A numeric field holds a
    number or, once the object has gone through the file, [null]. *)
Record resultado : Type := mkResultado {
  res_latitude : option number;
  res_longitude : option number;
  res_endereco_formatado : string;
  res_confianca : option number;
  res_cached : bool
}.

(** A value of the cache map: an object, or [null] (a cache file is free to
    hold one). *)
Abbreviation valor := (option resultado).

(** A record of the caller's store. *)
Record cliente : Type := mkCliente {
  cli_id : Z;
  cli_nome : string;
  cli_endereco : string;
  cli_latitude : option number;
  cli_longitude : option number;
  cli_endereco_formatado : option string;
  cli_confianca : option number;
  cli_geocoded : bool;
  cli_data_geocodificacao : option Z;
  cli_cached : bool
}.

(** [this.stats]. *)
Record Stats : Type := mkStats {
  total : nat;
  processed : nat;
  success : nat;
  errors : nat;
  cached : nat;
  startTime : option Z;
  endTime : option Z
}.

(** The content of the progress file written by [saveProgress]. *)
Record Progress : Type := mkProgress {
  prog_processedIds : list Z;
  prog_currentBatch : nat;
  prog_timestamp : Z;
  prog_stats : Stats
}.

(** The argument of the [onProgress] callback. *)
Record Progresso : Type := mkProgresso {
  processados : nat;
  pg_total : nat;
  atual : string;
  status_sucesso : bool;
  coordenadas : valor;
  lote : nat;
  totalLotes : nat;
  pg_stats : Stats
}.

(** What the service does to the outside, most recent first. *)
Inductive evento : Type :=
| EvPedido (endereco : string) (tentativa : Z)
| EvEspera (ms : Z)
| EvProgresso (p : Progresso).

(** The service instance ([this]) together with the part of the environment
    it touches: the clock, the two files (each as [JSON.parse] reads it),
    the trace of its effects and the time zone of the host ([fuso t] is the
    offset of local time from UTC at the instant [t], in milliseconds).
    [batchSize] is a positive count: the constructor replaces 0 by 100 and
    the configuration endpoint accepts 10 to 1000. *)
Record estado : Type := mkEstado {
  rateLimitDelay : Z;
  batchSize : positive;
  maxRetries : Z;
  retryDelay : Z;
  cacheEnabled : bool;
  memoryCache : gmap string valor;
  stats : Stats;
  clock : Z;
  requests : nat;
  cacheFile : option (gmap string valor);
  progressFile : option Progress;
  trace : list evento;
  fuso : Z -> Z
}.

Definition set_rateLimitDelay (d : Z) (s : estado) : estado :=
  mkEstado d (batchSize s) (maxRetries s) (retryDelay s) (cacheEnabled s)
    (memoryCache s) (stats s) (clock s) (requests s) (cacheFile s)
    (progressFile s) (trace s) (fuso s).

Definition set_memoryCache (m : gmap string valor) (s : estado) : estado :=
  mkEstado (rateLimitDelay s) (batchSize s) (maxRetries s) (retryDelay s)
    (cacheEnabled s) m (stats s) (clock s) (requests s) (cacheFile s)
    (progressFile s) (trace s) (fuso s).

Definition set_stats (st : Stats) (s : estado) : estado :=
  mkEstado (rateLimitDelay s) (batchSize s) (maxRetries s) (retryDelay s)
    (cacheEnabled s) (memoryCache s) st (clock s) (requests s) (cacheFile s)
    (progressFile s) (trace s) (fuso s).

Definition set_clock (t : Z) (s : estado) : estado :=
  mkEstado (rateLimitDelay s) (batchSize s) (maxRetries s) (retryDelay s)
    (cacheEnabled s) (memoryCache s) (stats s) t (requests s) (cacheFile s)
    (progressFile s) (trace s) (fuso s).

Definition set_requests (n : nat) (s : estado) : estado :=
  mkEstado (rateLimitDelay s) (batchSize s) (maxRetries s) (retryDelay s)
    (cacheEnabled s) (memoryCache s) (stats s) (clock s) n (cacheFile s)
    (progressFile s) (trace s) (fuso s).

Definition set_cacheFile (f : option (gmap string valor)) (s : estado) : estado :=
  mkEstado (rateLimitDelay s) (batchSize s) (maxRetries s) (retryDelay s)
    (cacheEnabled s) (memoryCache s) (stats s) (clock s) (requests s) f
    (progressFile s) (trace s) (fuso s).

Definition set_progressFile (f : option Progress) (s : estado) : estado :=
  mkEstado (rateLimitDelay s) (batchSize s) (maxRetries s) (retryDelay s)
    (cacheEnabled s) (memoryCache s) (stats s) (clock s) (requests s)
    (cacheFile s) f (trace s) (fuso s).

Definition emit (e : evento) (s : estado) : estado :=
  mkEstado (rateLimitDelay s) (batchSize s) (maxRetries s) (retryDelay s)
    (cacheEnabled s) (memoryCache s) (stats s) (clock s) (requests s)
    (cacheFile s) (progressFile s) (e :: trace s) (fuso s).

Definition inc_success (st : Stats) : Stats :=
  mkStats (total st) (processed st) (S (success st)) (errors st) (cached st)
    (startTime st) (endTime st).

Definition inc_errors (st : Stats) : Stats :=
  mkStats (total st) (processed st) (success st) (S (errors st)) (cached st)
    (startTime st) (endTime st).

Definition inc_cached (st : Stats) : Stats :=
  mkStats (total st) (processed st) (success st) (errors st) (S (cached st))
    (startTime st) (endTime st).

Definition inc_processed (st : Stats) : Stats :=
  mkStats (total st) (S (processed st)) (success st) (errors st) (cached st)
    (startTime st) (endTime st).

Definition set_endTime (t : Z) (st : Stats) : Stats :=
  mkStats (total st) (processed st) (success st) (errors st) (cached st)
    (startTime st) (Some t).

(** [options.x || d] on a numeric option. *)
Definition or_default (x : option Z) (d : Z) : Z :=
  match x with
  | Some v => if v =? 0 then d else v
  | None => d
  end.

Record options : Type := mkOptions {
  opt_rateLimitDelay : option Z;
  opt_batchSize : option positive;
  opt_maxRetries : option Z;
  opt_retryDelay : option Z;
  opt_cacheEnabled : option bool
}.

Definition stats0 : Stats := mkStats 0 0 0 0 0 None None.

(** The constructor, started in an environment with the given clock, time
    zone and files. *)
Definition constructor (o : options) (now : Z) (tz : Z -> Z)
    (cfile : option (gmap string valor)) (pfile : option Progress) : estado :=
  {| rateLimitDelay := or_default (opt_rateLimitDelay o) 1000;
     batchSize := default 100%positive (opt_batchSize o);
     maxRetries := or_default (opt_maxRetries o) 3;
     retryDelay := or_default (opt_retryDelay o) 5000;
     cacheEnabled := default true (opt_cacheEnabled o);
     memoryCache := ∅;
     stats := stats0;
     clock := now;
     requests := 0;
     cacheFile := cfile;
     progressFile := pfile;
     trace := [];
     fuso := tz |}.

(** [sleep(ms)]: the clock advances, the wait is recorded. *)
Definition sleep (ms : Z) (s : estado) : estado :=
  emit (EvEspera ms) (set_clock (clock s + ms) s).

(** ** The lookup client *)

Section Servico.

(** The external provider: what the [n]-th request of the process, sent
    with query [q], comes back with. *)
Variable provedor : nat -> string -> resposta.

(** [result.importance || 0]. *)
Definition importance_or_0 (x : number) : number :=
  if number_truthy x then x else Num 0.

(** One attempt sends one request ([axios.get]): it is counted and
    recorded, and the provider answers it. *)
Definition resposta_de (endereco : string) (s : estado) : resposta :=
  provedor (requests s) (endereco +:+ ", Brasil").

Definition pedido (endereco : string) (tentativa : Z) (s : estado) : estado :=
  emit (EvPedido endereco tentativa) (set_requests (S (requests s)) s).

Definition tally_success (s : estado) : estado :=
  set_stats (inc_success (stats s)) s.

Definition tally_error (s : estado) : estado :=
  set_stats (inc_errors (stats s)) s.

(** [buscarCoordenadas(endereco, tentativa)].  The recursion of the
    [catch] branch is guarded by [tentativa < this.maxRetries], so
    [maxRetries - tentativa] decreases. *)
Equations? buscarCoordenadas (endereco : string) (tentativa : Z) (s : estado)
    : valor * estado by wf (Z.to_nat (maxRetries s - tentativa)) lt :=
  buscarCoordenadas endereco tentativa s with resposta_de endereco s := {
    | Dados (result :: _) =>
        (Some {| res_latitude := Some (cand_lat result);
                 res_longitude := Some (cand_lon result);
                 res_endereco_formatado := cand_display_name result;
                 res_confianca :=
                   Some (importance_or_0 (cand_importance result));
                 res_cached := false |},
         tally_success (pedido endereco tentativa s))
    | Dados [] => (None, tally_error (pedido endereco tentativa s))
    | ErroTransporte with Z_lt_dec tentativa (maxRetries s) := {
        | left _ => buscarCoordenadas endereco (tentativa + 1)
                      (sleep (retryDelay s) (pedido endereco tentativa s))
        | right _ => (None, tally_error (pedido endereco tentativa s))
      }
  }.
Proof.
  cbn; lia.
Qed.

(** ** The cache *)

(** [buscarCoordenadasComCache(endereco)]. *)
Definition buscarCoordenadasComCache (endereco : string) (s : estado)
    : valor * estado :=
  let cacheKey := getCacheKey endereco in
  match memoryCache s !! cacheKey with
  | Some v => (v, set_stats (inc_cached (stats s)) s)
  | None =>
      let '(resultado, s1) := buscarCoordenadas endereco 1 s in
      match resultado with
      | Some _ =>
          if cacheEnabled s1
          then (resultado,
                set_memoryCache (<[cacheKey := resultado]> (memoryCache s1)) s1)
          else (resultado, s1)
      | None => (resultado, s1)
      end
  end.

(** [loadCache()]: every entry of the file is [set] in the map, so an
    entry of the file replaces an entry of the map under the same key.  A
    missing file leaves the map as it is. *)
Definition loadCache (s : estado) : estado :=
  if cacheEnabled s then
    match cacheFile s with
    | Some cache => set_memoryCache (cache ∪ memoryCache s) s
    | None => s
    end
  else s.

(** What [JSON.parse] reads back for a numeric field that [JSON.stringify]
    wrote: a NaN or an infinity is written as [null]; a finite number and
    [null] come back as they were. *)
Definition json_numero (x : option number) : option number :=
  match x with
  | Some (Num z) => Some (Num z)
  | _ => None
  end.

Definition json_resultado (r : resultado) : resultado :=
  {| res_latitude := json_numero (res_latitude r);
     res_longitude := json_numero (res_longitude r);
     res_endereco_formatado := res_endereco_formatado r;
     res_confianca := json_numero (res_confianca r);
     res_cached := res_cached r |}.

Definition json_valor (v : valor) : valor := json_resultado <$> v.

(** [saveCache()], the write taken to succeed:
    [JSON.stringify(Object.fromEntries(this.memoryCache))], kept as what
    [JSON.parse] reads back from it. *)
Definition saveCache (s : estado) : estado :=
  if negb (cacheEnabled s) || (size (memoryCache s) =? 0)%nat then s
  else set_cacheFile (Some (json_valor <$> memoryCache s)) s.

(** ** The checkpoint *)

(** A JavaScript [Set] of ids: distinct elements in insertion order. *)
Definition set_has (ids : list Z) (x : Z) : bool := bool_decide (x ∈ ids).

Definition set_add (ids : list Z) (x : Z) : list Z :=
  if set_has ids x then ids else ids ++ [x].

(** [new Set(array)]. *)
Definition new_Set (l : list Z) : list Z := foldl set_add [] l.

(** [saveProgress(processedIds, currentBatch)], the write taken to
    succeed. *)
Definition saveProgress (processedIds : list Z) (currentBatch : nat)
    (s : estado) : estado :=
  set_progressFile
    (Some {| prog_processedIds := processedIds;
             prog_currentBatch := currentBatch;
             prog_timestamp := clock s;
             prog_stats := stats s |}) s.

Definition loadProgress (s : estado) : option Progress := progressFile s.

(** ** The batch pipeline *)

(** The variables of [processarClientesOtimizado] that its loops change:
    the caller's array of records (the objects the batches alias), the set
    of processed ids and the service. *)
Record execucao : Type := mkExecucao {
  ex_clientes : list cliente;
  ex_processedIds : list Z;
  ex_estado : estado
}.

(** The assignments to the record after the lookup. *)
Definition atualizar (c : cliente) (coordenadas : valor) (agora : Z) : cliente :=
  match coordenadas with
  | Some r =>
      {| cli_id := cli_id c;
         cli_nome := cli_nome c;
         cli_endereco := cli_endereco c;
         cli_latitude := res_latitude r;
         cli_longitude := res_longitude r;
         cli_endereco_formatado := Some (res_endereco_formatado r);
         cli_confianca := res_confianca r;
         cli_geocoded := true;
         cli_data_geocodificacao := Some agora;
         cli_cached := res_cached r |}
  | None =>
      {| cli_id := cli_id c;
         cli_nome := cli_nome c;
         cli_endereco := cli_endereco c;
         cli_latitude := cli_latitude c;
         cli_longitude := cli_longitude c;
         cli_endereco_formatado := cli_endereco_formatado c;
         cli_confianca := cli_confianca c;
         cli_geocoded := false;
         cli_data_geocodificacao := Some agora;
         cli_cached := cli_cached c |}
  end.

(** The body of [for (const cliente of lote)].  A batch holds references
    to the objects of [clientes]: [i] is the position of the record in
    that array. *)
Definition processarCliente (batchIndex totalBatches : nat)
    (e : execucao) (i : nat) : execucao :=
  match ex_clientes e !! i with
  | None => e
  | Some c =>
      if set_has (ex_processedIds e) (cli_id c) then e
      else
        let '(coords, s1) :=
          buscarCoordenadasComCache (cli_endereco c) (ex_estado e) in
        let c' := atualizar c coords (clock s1) in
        let s2 := set_stats (inc_processed (stats s1)) s1 in
        let s3 :=
          emit (EvProgresso
                  {| processados := processed (stats s2);
                     pg_total := total (stats s2);
                     atual := cli_nome c;
                     status_sucesso := bool_decide (is_Some coords);
                     coordenadas := coords;
                     lote := batchIndex + 1;
                     totalLotes := totalBatches;
                     pg_stats := stats s2 |}) s2 in
        {| ex_clientes := <[i := c']> (ex_clientes e);
           ex_processedIds := set_add (ex_processedIds e) (cli_id c);
           ex_estado := sleep (rateLimitDelay s3) s3 |}
  end.

(** [clientesPendentes.slice(start, end)] of batch [batchIndex]. *)
Definition lote_de (pendentes : list nat) (batchSize : nat) (batchIndex : nat)
    : list nat :=
  take batchSize (drop (batchIndex * batchSize) pendentes).

(** One iteration of the loop over batches. *)
Definition processarLote (pendentes : list nat) (totalBatches : nat)
    (e : execucao) (batchIndex : nat) : execucao :=
  let tam := Pos.to_nat (batchSize (ex_estado e)) in
  let e1 :=
    foldl (processarCliente batchIndex totalBatches) e
      (lote_de pendentes tam batchIndex) in
  let s1 := saveProgress (ex_processedIds e1) (batchIndex + 1) (ex_estado e1) in
  let s2 := saveCache s1 in
  let s3 := if (batchIndex <? totalBatches - 1)%nat then sleep 2000 s2 else s2 in
  {| ex_clientes := ex_clientes e1;
     ex_processedIds := ex_processedIds e1;
     ex_estado := s3 |}.

(** The filter that computes [clientesPendentes], as positions in
    [clientes]. *)
Definition pendente (processedIds : list Z) (c : cliente) : bool :=
  negb (set_has processedIds (cli_id c))
  && (negb (cli_geocoded c) || negb (truthy (cli_latitude c))
      || negb (truthy (cli_longitude c))).

Fixpoint posicoes_pendentes (processedIds : list Z) (i : nat)
    (clientes : list cliente) : list nat :=
  match clientes with
  | [] => []
  | c :: r =>
      if pendente processedIds c
      then i :: posicoes_pendentes processedIds (S i) r
      else posicoes_pendentes processedIds (S i) r
  end.

(** [Math.ceil(n / d)] for a positive [d]. *)
Definition ceil_div (n d : nat) : nat := ((n + d - 1) / d)%nat.

(** What [processarClientesOtimizado] has set up when it reaches the loop
    over batches. *)
Record preparo : Type := mkPreparo {
  pr_execucao : execucao;
  pr_pendentes : list nat;
  pr_startBatch : nat;
  pr_totalBatches : nat
}.

(** The first six assignments of [processarClientesOtimizado]: the counters
    and the start time are reset, [endTime] keeps its value until the end of
    the run. *)
Definition reset_stats (st : Stats) (n : nat) (agora : Z) : Stats :=
  mkStats n 0 0 0 0 (Some agora) (endTime st).

Definition preparar (clientes : list cliente) (resumeFromProgress : bool)
    (s : estado) : preparo :=
  let s1 := set_stats (reset_stats (stats s) (length clientes) (clock s)) s in
  let s2 := loadCache s1 in
  let '(processedIds, startBatch) :=
    if resumeFromProgress then
      match loadProgress s2 with
      | Some progress =>
          (new_Set (prog_processedIds progress), prog_currentBatch progress)
      | None => ([], 0%nat)
      end
    else ([], 0%nat) in
  let pendentes := posicoes_pendentes processedIds 0 clientes in
  {| pr_execucao := mkExecucao clientes processedIds s2;
     pr_pendentes := pendentes;
     pr_startBatch := startBatch;
     pr_totalBatches :=
       ceil_div (length pendentes) (Pos.to_nat (batchSize s2)) |}.

(** The batch indices the [for] loop goes through. *)
Definition indices_de_lote (p : preparo) : list nat :=
  seq (pr_startBatch p) (pr_totalBatches p - pr_startBatch p).

Definition processarLotes (p : preparo) (indices : list nat) : execucao :=
  foldl (processarLote (pr_pendentes p) (pr_totalBatches p))
    (pr_execucao p) indices.

(** [processarClientesOtimizado(clientes, onProgress, resumeFromProgress)]:
    the returned array and the service after the run.  The callback
    receives the snapshots recorded as [EvProgresso]. *)
Definition processarClientesOtimizado (clientes : list cliente)
    (resumeFromProgress : bool) (s : estado) : list cliente * estado :=
  let p := preparar clientes resumeFromProgress s in
  let e := processarLotes p (indices_de_lote p) in
  let s1 := ex_estado e in
  let s2 := set_stats (set_endTime (clock s1) (stats s1)) s1 in
  (ex_clientes e, saveCache s2).

(** A run whose process is killed right after its [k]-th batch has been
    checkpointed: the records as the run left them, and the service with
    the two files. *)
Definition interrompido (k : nat) (clientes : list cliente)
    (resumeFromProgress : bool) (s : estado) : list cliente * estado :=
  let p := preparar clientes resumeFromProgress s in
  let e := processarLotes p (take k (indices_de_lote p)) in
  (ex_clientes e, ex_estado e).

End Servico.

(** ** The rate adjustment *)

(** [ajustarRateLimit()].  [taxaErro] is [errors / processed] (0 when nothing
    was processed); the comparisons with 0.1 and 0.02 are made on the exact
    quotient, which is what binary64 decides for counters below [2^50]. *)
Definition taxaErro_gt_10pct (st : Stats) : bool :=
  ((0 <? processed st) && (processed st <? 10 * errors st))%nat.

Definition taxaErro_lt_2pct (st : Stats) : bool :=
  (negb (0 <? processed st) || (50 * errors st <? processed st))%nat.

Definition ajustarRateLimit (s : estado) : estado :=
  if taxaErro_gt_10pct (stats s) then
    set_rateLimitDelay (Z.min (rateLimitDelay s + 200) 3000) s
  else if taxaErro_lt_2pct (stats s) && (800 <? rateLimitDelay s) then
    set_rateLimitDelay (Z.max (rateLimitDelay s - 100) 800) s
  else s.

(** ** The report *)

Record Resumo : Type := mkResumo {
  rs_total : nat;
  geocodificados : nat;
  naoGeocodificados : nat;
  taxaSucesso : string;
  cacheHits : nat;
  tempoProcessamento : string
}.

Record Detalhes : Type := mkDetalhes {
  com_coordenadas : list cliente;
  sem_coordenadas : list cliente;
  com_cache : list cliente;
  processados_hoje : list cliente
}.

Record Relatorio : Type := mkRelatorio {
  resumo : Resumo;
  estatisticas : Stats;
  detalhes : Detalhes
}.

(** Binary64 arithmetic, as JavaScript numbers have it: the operations of
    the standard library's specification of IEEE 754 at precision 53. *)
Definition b64_of_nat (n : nat) : SpecFloat.spec_float :=
  SpecFloat.binary_normalize 53 1024 (Z.of_nat n) 0 false.

Definition b64_div : SpecFloat.spec_float -> SpecFloat.spec_float
    -> SpecFloat.spec_float := SpecFloat.SFdiv 53 1024.

Definition b64_mul : SpecFloat.spec_float -> SpecFloat.spec_float
    -> SpecFloat.spec_float := SpecFloat.SFmul 53 1024.

(** [x.toFixed(1)] for [|x| < 10^21]: the digits of the integer [n] for
    which [n / 10] is nearest to the exact value of [x], the larger [n] on
    a tie, with one digit after the point. *)
Definition toFixed1 (x : SpecFloat.spec_float) : string :=
  match x with
  | SpecFloat.S754_nan => "NaN"
  | SpecFloat.S754_infinity s => if s then "-Infinity" else "Infinity"
  | SpecFloat.S754_zero _ => "0.0"
  | SpecFloat.S754_finite s m e =>
      let n :=
        match e with
        | Zneg k => (20 * Zpos m + 2 ^ Zpos k) / 2 ^ (Zpos k + 1)
        | _ => 10 * Zpos m * 2 ^ e
        end in
      (if s then "-" else "") +:+ pretty (n / 10) +:+ "." +:+ pretty (n mod 10)
  end.

(** [((g / total) * 100).toFixed(1)] on two counts. *)
Definition pct_toFixed1 (g t : nat) : string :=
  toFixed1 (b64_mul (b64_div (b64_of_nat g) (b64_of_nat t)) (b64_of_nat 100)).

(** [Math.round((endTime - startTime) / 1000)]. *)
Definition segundos (inicio fim : Z) : Z := (fim - inicio + 500) / 1000.

(** [new Date(t).toDateString()]: the text names the local calendar day of
    the instant [t] (milliseconds since the epoch), and is identified with
    the number of that day, [floor((t + offset) / msPerDay)]. *)
Definition toDateString (tz : Z -> Z) (t : Z) : Z := (t + tz t) / 86400000.

Definition tem_coordenadas (c : cliente) : bool :=
  truthy (cli_latitude c) && truthy (cli_longitude c).

(** [gerarRelatorioDetalhado(clientes)]; [s] gives [this.stats], the
    clock that [new Date()] reads and the time zone. *)
Definition gerarRelatorioDetalhado (s : estado) (clientes : list cliente)
    : Relatorio :=
  let total := length clientes in
  let geocodificados :=
    length (List.filter (fun c => cli_geocoded c && tem_coordenadas c) clientes) in
  let naoGeocodificados := (total - geocodificados)%nat in
  let cacheHits := length (List.filter cli_cached clientes) in
  {| resumo :=
       {| rs_total := total;
          geocodificados := geocodificados;
          naoGeocodificados := naoGeocodificados;
          taxaSucesso := pct_toFixed1 geocodificados total +:+ "%";
          cacheHits := cacheHits;
          tempoProcessamento :=
            match endTime (stats s), startTime (stats s) with
            | Some fim, Some inicio => pretty (segundos inicio fim) +:+ " segundos"
            | _, _ => "N/A"
            end |};
     estatisticas := stats s;
     detalhes :=
       {| com_coordenadas := List.filter tem_coordenadas clientes;
          sem_coordenadas := List.filter (fun c => negb (tem_coordenadas c)) clientes;
          com_cache := List.filter cli_cached clientes;
          processados_hoje :=
            List.filter
              (fun c =>
                 match cli_data_geocodificacao c with
                 | None => false
                 | Some t =>
                     toDateString (fuso s) (clock s)
                     =? toDateString (fuso s) t
                 end) clientes |} |}.

(** ** Definitions used to state the properties *)

(** *** Traces *)

(** The events of a lookup whose attempts [tentativa], ..., [tentativa + n]
    all fail in transport: [n + 1] requests with a wait of [espera] between
    consecutive ones (most recent first). *)
Fixpoint trace_de_falhas (endereco : string) (espera : Z) (tentativa : Z)
    (n : nat) : list evento :=
  match n with
  | O => [EvPedido endereco tentativa]
  | S m =>
      trace_de_falhas endereco espera (tentativa + 1) m
        ++ [EvEspera espera; EvPedido endereco tentativa]
  end.

(** The requests and the waits of a trace. *)
Definition conta_pedidos (l : list evento) : nat :=
  length (List.filter (fun e => match e with EvPedido _ _ => true | _ => false end) l).

Definition conta_esperas (l : list evento) : nat :=
  length (List.filter (fun e => match e with EvEspera _ => true | _ => false end) l).

(** The addresses sent to the provider, oldest first. *)
Definition enderecos_pedidos (tr : list evento) : list string :=
  reverse (omap (fun e => match e with
                          | EvPedido endereco _ => Some endereco
                          | _ => None
                          end) tr).

(** The statistics handed to [onProgress] by an event of the trace. *)
Definition foto (e : evento) : option Stats :=
  match e with
  | EvProgresso p => Some (pg_stats p)
  | _ => None
  end.

(** The statistics handed to [onProgress], oldest first. *)
Definition fotografias (novos : list evento) : list Stats :=
  reverse (omap foto novos).

(** *** The statistics along a run *)

(** The counters balance. *)
Definition equilibrado (st : Stats) : Prop :=
  processed st = (success st + errors st + cached st)%nat.

(** From [a] to [b] one record was processed: [processed] and exactly one
    of [success], [errors] and [cached] grew by one, nothing else moved. *)
Definition um_registro (a b : Stats) : Prop :=
  total b = total a
  /\ processed b = S (processed a)
  /\ startTime b = startTime a
  /\ endTime b = endTime a
  /\ ((success b = S (success a) /\ errors b = errors a /\ cached b = cached a)
      \/ (success b = success a /\ errors b = S (errors a) /\ cached b = cached a)
      \/ (success b = success a /\ errors b = errors a /\ cached b = S (cached a))).

(** The statistics go from [a] to [b] through the states [l], one processed
    record at a time. *)
Fixpoint cadeia (a : Stats) (l : list Stats) (b : Stats) : Prop :=
  match l with
  | [] => a = b
  | x :: r => um_registro a x /\ cadeia x r b
  end.

(** What the operations of a run do to the trace and the statistics between
    two points of the run: events are added to the trace, and the
    statistics advance by processed records, each reported to
    [onProgress]. *)
Definition evolui (s s' : estado) : Prop :=
  exists novos,
    trace s' = novos ++ trace s
    /\ cadeia (stats s) (fotografias novos) (stats s').

(** No counter of [a] exceeds the one of [b]. *)
Definition contadores_le (a b : Stats) : Prop :=
  (total a <= total b /\ processed a <= processed b /\ success a <= success b
   /\ errors a <= errors b /\ cached a <= cached b)%nat.

(** *** The cache along a run *)


(** What the operations of a run do to the cache between two points of the
    run: the map keeps every entry, gains only results of lookups ([cached]
    false) and only when the cache is enabled, and the cache file, when
    rewritten, holds what JSON keeps of the map at some point in between. *)
Definition cache_cresce (s s' : estado) : Prop :=
  cacheEnabled s' = cacheEnabled s
  /\ (cacheEnabled s = false -> memoryCache s' = memoryCache s)
  /\ (forall k v, memoryCache s !! k = Some v -> memoryCache s' !! k = Some v)
  /\ (forall k v, memoryCache s' !! k = Some v -> memoryCache s !! k = None ->
                  exists x, v = Some x /\ res_cached x = false)
  /\ (forall f, cacheFile s' = Some f ->
                cacheFile s = Some f
                \/ exists m,
                     f = json_valor <$> m
                     /\ (forall k v, memoryCache s !! k = Some v ->
                                     m !! k = Some v)
                     /\ (forall k v, m !! k = Some v ->
                                     memoryCache s' !! k = Some v)).



(** The cache file is the one that the service last wrote: with the cache
    enabled and something in the map, it holds what JSON keeps of the
    map. *)
Definition cache_gravado (s : estado) : Prop :=
  cacheEnabled s = true -> memoryCache s <> ∅ ->
  cacheFile s = Some (json_valor <$> memoryCache s).


(** *** The [cached] mark *)

(** No object of the map carries [cached: true]. *)
Definition cache_sem_marca (m : gmap string valor) : Prop :=
  forall k x, m !! k = Some (Some x) -> res_cached x = false.

(** No record carries [cached: true]. *)
Definition sem_marca (clientes : list cliente) : Prop :=
  Forall (fun c => cli_cached c = false) clientes.

(** Neither the records nor the cache of a run in progress carry the
    mark. *)
Definition execucao_sem_marca (e : execucao) : Prop :=
  sem_marca (ex_clientes e) /\ cache_sem_marca (memoryCache (ex_estado e)).

(** *** Sequences of rate adjustments *)

(** A sequence of adjustments, each made on the statistics observed at that
    time. *)
Definition ajustes (observados : list Stats) (s : estado) : estado :=
  foldl (fun s st => ajustarRateLimit (set_stats st s)) s observados.

(** The interval of [ajustarRateLimit]. *)
Definition delay_in_bounds (s : estado) : Prop :=
  800 <= rateLimitDelay s <= 3000.

(** *** Reports and assignments *)

(** The fields of the report that the records alone decide. *)
Definition campos_dos_registros (r : Relatorio)
    : nat * nat * nat * string * nat
      * (list cliente * list cliente * list cliente) :=
  (rs_total (resumo r), geocodificados (resumo r), naoGeocodificados (resumo r),
   taxaSucesso (resumo r), cacheHits (resumo r),
   (com_coordenadas (detalhes r), sem_coordenadas (detalhes r),
    com_cache (detalhes r))).

(** The instant [t] falls on the current day of the service: the test that
    [processados_hoje] makes on the date of a record. *)
Definition hoje (s : estado) (t : Z) : bool :=
  toDateString (fuso s) (clock s) =? toDateString (fuso s) t.

(** The resolved/failed assignment of a record set: for each record, its id
    and whether it ended with [geocoded] set and coordinates. *)
Definition atribuicao (clientes : list cliente) : list (Z * bool) :=
  List.map (fun c => (cli_id c, cli_geocoded c && tem_coordenadas c)) clientes.

(** *** Services, providers and record sets of the examples *)

(** The time zone of the examples: Brasilia, three hours behind UTC all
    year. *)
Definition hora_de_brasilia : Z -> Z := fun _ => -10800000.

(** [new GeocodingServiceAdvanced()]: every option left out. *)
Definition opcoes_padrao : options := mkOptions None None None None None.

(** The options of [testeGrandeVolume] in [teste.js]. *)
Definition opcoes_teste : options :=
  {| opt_rateLimitDelay := Some 500;
     opt_batchSize := Some 50%positive;
     opt_maxRetries := Some 2;
     opt_retryDelay := None;
     opt_cacheEnabled := Some true |}.

(** The service of [teste.js], started one second later. *)
Definition servico_de_teste : estado :=
  constructor opcoes_teste 1000 hora_de_brasilia None None.

(** A record that a run has resolved at instant 0. *)
Definition cliente_resolvido : cliente :=
  mkCliente 1 "Cliente 1" "Rua A" (Some (Num 5)) (Some (Num 7))
    (Some "Rua A, Brasil"%string) (Some (Num 1)) true (Some 0) false.

(** Batches of two records. *)
Definition opcoes_lote_2 : options :=
  mkOptions None (Some 2%positive) None None None.

(** A fresh service with the default options, no cache file and no progress
    file. *)
Definition servico_novo : estado :=
  constructor opcoes_padrao 0 hora_de_brasilia None None.

(** A record as [teste.js] builds them: not geocoded yet. *)
Definition cliente_novo (id : Z) (endereco : string) : cliente :=
  {| cli_id := id;
     cli_nome := "Cliente " +:+ pretty id;
     cli_endereco := endereco;
     cli_latitude := None;
     cli_longitude := None;
     cli_endereco_formatado := None;
     cli_confianca := None;
     cli_geocoded := false;
     cli_data_geocodificacao := None;
     cli_cached := false |}.

(** A provider that finds candidates for every query: [cand n q] is the
    best-ranked one, [outros n q] the rest of the list. *)
Definition provedor_que_resolve (cand : nat -> string -> candidato)
    (outros : nat -> string -> list candidato) : nat -> string -> resposta :=
  fun n q => Dados (cand n q :: outros n q).

(** A provider that is out of reach. *)
Definition provedor_fora_do_ar : nat -> string -> resposta :=
  fun _ _ => ErroTransporte.

(** A provider that finds nothing. *)
Definition provedor_sem_resultados : nat -> string -> resposta :=
  fun _ _ => Dados [].

(** A provider that places every address in the centre of Sao Paulo. *)
Definition cand_sp (n : nat) (q : string) : candidato :=
  mkCandidato (Num (-235505199)) (Num (-466333094)) q (Num 1).

Definition outros_sp (n : nat) (q : string) : list candidato := [].

Definition provedor_sp : nat -> string -> resposta :=
  provedor_que_resolve cand_sp outros_sp.


(** Five records; the second and the fourth carry the same address up to
    case and the length of a run of spaces. *)
Definition cinco_clientes : list cliente :=
  [ cliente_novo 1 "Avenida Paulista, Sao Paulo";
    cliente_novo 2 "Main St, City";
    cliente_novo 3 "Rua Oscar Freire, Sao Paulo";
    cliente_novo 4 "main   st, city";
    cliente_novo 5 "Copacabana, Rio de Janeiro" ].

(** Six records with six addresses. *)
Definition seis_clientes : list cliente :=
  [ cliente_novo 1 "Rua A"; cliente_novo 2 "Rua B"; cliente_novo 3 "Rua C";
    cliente_novo 4 "Rua D"; cliente_novo 5 "Rua E"; cliente_novo 6 "Rua F" ].

(** The run of the five records on a fresh service, and its report. *)
Definition execucao_cinco : list cliente * estado :=
  processarClientesOtimizado provedor_sp cinco_clientes true servico_novo.

Definition resumo_cinco : Resumo :=
  resumo (gerarRelatorioDetalhado (snd execucao_cinco) (fst execucao_cinco)).

(** Kill a run after its [k]-th batch and start the process again with
    [resume] on: a new service instance finds the two files as the killed
    run left them, and the caller's store holds the records as that run
    left them. *)
Definition interromper_e_retomar (provedor : nat -> string -> resposta)
    (o : options) (k : nat) (clientes : list cliente) : list cliente * estado :=
  let '(cs, s) :=
    interrompido provedor k clientes true
      (constructor o 0 hora_de_brasilia None None) in
  processarClientesOtimizado
    (fun n => provedor (requests s + n)%nat) cs true
    (constructor o (clock s) (fuso s) (cacheFile s) (progressFile s)).

(** *** The cache key as words *)

(** The words of a string: its maximal runs of code units that are not white
    space, in order. *)
Fixpoint palavras (s : string) : list string :=
  match s with
  | EmptyString => []
  | String c r =>
      if Str.is_space c then palavras r
      else
        match r with
        | EmptyString => [String c EmptyString]
        | String d _ =>
            if Str.is_space d then String c EmptyString :: palavras r
            else
              match palavras r with
              | w :: ws => String c w :: ws
              | [] => [String c EmptyString]
              end
        end
  end.

(** The words put back together, one SPACE between consecutive words. *)
Fixpoint juntar (ws : list string) : string :=
  match ws with
  | [] => EmptyString
  | w :: r =>
      match r with
      | [] => w
      | _ => w +:+ String " " (juntar r)
      end
  end.

(** The key as words: the words of the lower-cased address, one SPACE
    between them. *)
Definition normalize (address : string) : string :=
  juntar (palavras (Str.toLowerCase address)).

(** Every code unit of the string satisfies [P]. *)
Fixpoint todos (P : ascii -> Prop) (s : string) : Prop :=
  match s with
  | EmptyString => True
  | String c r => P c /\ todos P r
  end.

(** A word of a key: not empty, no white space, no capital letter. *)
Definition palavra_de_chave (w : string) : Prop :=
  w <> EmptyString
  /\ todos (fun c => Str.is_space c = false /\ Str.lower c = c) w.

(** *** The cache key of the specification

    The specification asks for the address in lower case, without the
    white space around it and with one SPACE for each run of white space
    inside.  It is written here from the alphabet and the white space of
    the code units below 256, without the functions of the embedding. *)

Module Espec.

(** White space: TAB, LF, VT, FF, CR, SPACE and NBSP. *)
Definition brancos : list ascii :=
  ["009"; "010"; "011"; "012"; "013"; " "; "160"]%char.

Definition branco (c : ascii) : bool := existsb (Ascii.eqb c) brancos.

(** The letters that have two cases, the capital first: A to Z, and the
    accented capitals U+00C0 to U+00DE (U+00D7, the multiplication sign, is
    no letter) with the small letters U+00E0 to U+00FE. *)
Definition letras : list (ascii * ascii) :=
  combine (list_ascii_of_string "ABCDEFGHIJKLMNOPQRSTUVWXYZ")
          (list_ascii_of_string "abcdefghijklmnopqrstuvwxyz")
  ++ [("192", "224"); ("193", "225"); ("194", "226"); ("195", "227");
      ("196", "228"); ("197", "229"); ("198", "230"); ("199", "231");
      ("200", "232"); ("201", "233"); ("202", "234"); ("203", "235");
      ("204", "236"); ("205", "237"); ("206", "238"); ("207", "239");
      ("208", "240"); ("209", "241"); ("210", "242"); ("211", "243");
      ("212", "244"); ("213", "245"); ("214", "246"); ("216", "248");
      ("217", "249"); ("218", "250"); ("219", "251"); ("220", "252");
      ("221", "253"); ("222", "254")]%char.


(** The small letter of a capital; any other code unit is itself. *)
Definition minuscula (c : ascii) : ascii :=
  match List.find (fun p => Ascii.eqb c (fst p)) letras with
  | Some p => snd p
  | None => c
  end.

Fixpoint minusculas (s : string) : string :=
  match s with
  | EmptyString => EmptyString
  | String c r => String (minuscula c) (minusculas r)
  end.


(** The pieces of a string between its white space, each white space a
    separator: a run of white space leaves empty pieces. *)
Fixpoint separar (s : string) : list string :=
  match s with
  | EmptyString => [EmptyString]
  | String c r =>
      if branco c then EmptyString :: separar r
      else
        match separar r with
        | w :: ws => String c w :: ws
        | [] => [String c EmptyString]
        end
  end.

Definition nao_vazia (w : string) : bool :=
  match w with
  | EmptyString => false
  | String _ _ => true
  end.

(** The words: the pieces that are not empty. *)
Definition palavras (s : string) : list string :=
  List.filter nao_vazia (separar s).

(** The normalized key: the words of the address in lower case, one SPACE
    between consecutive words, nothing before the first and after the
    last. *)
Definition normalize (address : string) : string :=
  juntar (palavras (minusculas address)).




End Espec.

(** The string starts with a code unit that is not white space. *)
Definition comeca_palavra (r : string) : bool :=
  match r with
  | EmptyString => false
  | String d _ => negb (Str.is_space d)
  end.

(** ** Clearing the files *)

(** [limparCache()].  [fs.unlink] throws on a missing file and the [catch]
    ends the call there: the checkpoint is removed only once the cache file
    was, and the map is cleared only once both were. *)
Definition limparCache (s : estado) : estado :=
  match cacheFile s with
  | None => s
  | Some _ =>
      let s1 := set_cacheFile None s in
      match progressFile s1 with
      | None => s1
      | Some _ => set_memoryCache ∅ (set_progressFile None s1)
      end
  end.

(** ** The configuration endpoint of the server *)

(** [geocodingConfig] of [server-advanced.js], from which the server
    constructs its service. *)
Definition geocodingConfig : options :=
  mkOptions (Some 1000) (Some 100%positive) (Some 3) (Some 5000) (Some true).

(** The body of a [PUT /api/configuracao] whose three fields are absent or
    integers. *)
Record corpo : Type := mkCorpo {
  body_rateLimitDelay : option Z;
  body_batchSize : option Z;
  body_maxRetries : option Z
}.

Definition set_batchSize (n : positive) (s : estado) : estado :=
  mkEstado (rateLimitDelay s) n (maxRetries s) (retryDelay s)
    (cacheEnabled s) (memoryCache s) (stats s) (clock s) (requests s)
    (cacheFile s) (progressFile s) (trace s) (fuso s).

Definition set_maxRetries (n : Z) (s : estado) : estado :=
  mkEstado (rateLimitDelay s) (batchSize s) n (retryDelay s)
    (cacheEnabled s) (memoryCache s) (stats s) (clock s) (requests s)
    (cacheFile s) (progressFile s) (trace s) (fuso s).

(** [x && lo <= x && x <= hi] on a field of the body. *)
Definition aceito (x : option Z) (lo : Z) (hi : option Z) : option Z :=
  match x with
  | Some v =>
      if negb (v =? 0) && (lo <=? v)
         && match hi with Some h => v <=? h | None => true end
      then Some v else None
  | None => None
  end.

(** The handler of [PUT /api/configuracao], as it assigns to
    [geocodingService]. *)
Definition put_configuracao (b : corpo) (s : estado) : estado :=
  let s1 :=
    match aceito (body_rateLimitDelay b) 500 None with
    | Some v => set_rateLimitDelay v s
    | None => s
    end in
  let s2 :=
    match aceito (body_batchSize b) 10 (Some 1000) with
    | Some v => set_batchSize (Z.to_pos v) s1
    | None => s1
    end in
  match aceito (body_maxRetries b) 1 (Some 10) with
  | Some v => set_maxRetries v s2
  | None => s2
  end.

(** ** Definitions used to state the further properties *)

(** Every code unit of the string is white space. *)
Definition em_branco (s : string) : Prop :=
  todos (fun c => Str.is_space c = true) s.

(** The object that [buscarCoordenadas] builds from the best-ranked
    candidate. *)
Definition resultado_de (result : candidato) : resultado :=
  {| res_latitude := Some (cand_lat result);
     res_longitude := Some (cand_lon result);
     res_endereco_formatado := cand_display_name result;
     res_confianca := Some (importance_or_0 (cand_importance result));
     res_cached := false |}.

(** Scan of a trace from its most recent event: [true] when no two requests
    follow each other without a wait in between; [pedido_depois] tells that
    the nearest more recent request or wait is a request. *)
Fixpoint varredura (pedido_depois : bool) (l : list evento) : bool :=
  match l with
  | [] => true
  | EvPedido _ _ :: r => negb pedido_depois && varredura true r
  | EvEspera _ :: r => varredura false r
  | EvProgresso _ :: r => varredura pedido_depois r
  end.

(** Between two requests of the trace there is always a wait. *)
Definition espacado (l : list evento) : Prop := varredura false l = true.

(** As [espacado], and a request may follow: the service has waited since
    its last request. *)
Definition livre (l : list evento) : Prop := varredura true l = true.

(** The records that went to the provider: successes and errors. *)
Definition consultados (st : Stats) : nat := (success st + errors st)%nat.

(** [max(1, maxRetries)] as a count. *)
Definition max_tentativas (s : estado) : nat := Z.to_nat (Z.max 1 (maxRetries s)).

(** Between [s] and [s'] the service looked up [b] records with [a]
    requests, between one and [max_tentativas] for each, under the same
    [maxRetries]. *)
Definition dentro_do_limite (s s' : estado) : Prop :=
  maxRetries s' = maxRetries s
  /\ exists a b : nat,
       requests s' = (requests s + a)%nat
       /\ consultados (stats s') = (consultados (stats s) + b)%nat
       /\ (b <= a <= max_tentativas s * b)%nat.

(** A service that runs without its cache: disabled, and nothing in the
    map. *)
Definition sem_cache (s : estado) : Prop :=
  cacheEnabled s = false /\ memoryCache s = ∅.

(** Between [s] and [s'] a service without cache stays so, counts no hit
    and leaves the cache file alone. *)
Definition continua_sem_cache (s s' : estado) : Prop :=
  sem_cache s ->
  sem_cache s' /\ cacheFile s' = cacheFile s
  /\ cached (stats s') = cached (stats s).

(** What identifies a record to its owner: id, name and address. *)
Definition ident (c : cliente) : Z * string * string :=
  (cli_id c, cli_nome c, cli_endereco c).

(** The ids of the records at the positions [pos] of the array. *)
Definition ids_de (cs : list cliente) (pos : list nat) : list Z :=
  omap (fun i => cli_id <$> cs !! i) pos.

(** The record already has what the pipeline would give it: [geocoded] and
    both coordinates truthy. *)
Definition ja_geocodificado (c : cliente) : Prop :=
  cli_geocoded c = true
  /\ truthy (cli_latitude c) = true
  /\ truthy (cli_longitude c) = true.

(** The loops went from [e] to [e'] through the positions [pos]: the
    records keep their identity, only records at those positions changed,
    the ids at those positions joined the set of processed ids, each new id
    counted once in [stats.processed], and [batchSize] stayed. *)
Definition avanca (pos : list nat) (e e' : execucao) : Prop :=
  ident <$> ex_clientes e' = ident <$> ex_clientes e
  /\ (forall i, i ∉ pos -> ex_clientes e' !! i = ex_clientes e !! i)
  /\ ex_processedIds e' =
     foldl set_add (ex_processedIds e) (ids_de (ex_clientes e) pos)
  /\ (processed (stats (ex_estado e')) + length (ex_processedIds e)
      = processed (stats (ex_estado e)) + length (ex_processedIds e'))%nat
  /\ batchSize (ex_estado e') = batchSize (ex_estado e).

(** The configuration that a run reads. *)
Definition mesma_config (s s' : estado) : Prop :=
  rateLimitDelay s' = rateLimitDelay s
  /\ batchSize s' = batchSize s
  /\ maxRetries s' = maxRetries s
  /\ retryDelay s' = retryDelay s
  /\ cacheEnabled s' = cacheEnabled s.

(** The limits that [PUT /api/configuracao] checks. *)
Definition config_valida (s : estado) : Prop :=
  500 <= rateLimitDelay s
  /\ (10 <= Pos.to_nat (batchSize s) <= 1000)%nat
  /\ 1 <= maxRetries s <= 10.

(** Statistics with an error rate above 10%, and below 2% (or of a service
    that processed nothing). *)
Definition taxa_alta (st : Stats) : Prop := taxaErro_gt_10pct st = true.

Definition taxa_baixa (st : Stats) : Prop :=
  taxaErro_gt_10pct st = false /\ taxaErro_lt_2pct st = true.

(** One operation of the server on its service: a configuration update,
    a rate adjustment (the progress callback makes one every 50 records)
    or a complete run. *)
Inductive operacao : Type :=
  | OpConfigurar (b : corpo)
  | OpAjustar
  | OpProcessar (clientes : list cliente) (resumir : bool).

Section Servidor.

Variable provedor : nat -> string -> resposta.

Definition aplicar (s : estado) (op : operacao) : estado :=
  match op with
  | OpConfigurar b => put_configuracao b s
  | OpAjustar => ajustarRateLimit s
  | OpProcessar clientes resumir =>
      snd (processarClientesOtimizado provedor clientes resumir s)
  end.

(** The service of the server after a sequence of operations, started with
    the given clock, time zone and files. *)
Definition servidor (now : Z) (tz : Z -> Z)
    (cfile : option (gmap string valor)) (pfile : option Progress)
    (ops : list operacao) : estado :=
  foldl aplicar (constructor geocodingConfig now tz cfile pfile) ops.

End Servidor.

(** *** Services, providers and checkpoints of the further examples *)

(** A provider out of reach for its first [k] requests, which then places
    every address in the centre of Sao Paulo. *)
Definition provedor_instavel (k : nat) : nat -> string -> resposta :=
  fun n q => if (n <? k)%nat then ErroTransporte else provedor_sp n q.

(** A service constructed with [cacheEnabled: false]. *)
Definition servico_sem_cache : estado :=
  constructor (mkOptions None None None None (Some false)) 0
    hora_de_brasilia None None.

(** A checkpoint that lists the given ids. *)
Definition checkpoint (ids : list Z) (currentBatch : nat) : Progress :=
  mkProgress ids currentBatch 0 stats0.

(** A service with batches of two records that finds a checkpoint. *)
Definition servico_com_checkpoint (ids : list Z) (currentBatch : nat) : estado :=
  constructor opcoes_lote_2 0 hora_de_brasilia None
    (Some (checkpoint ids currentBatch)).

(** What the provider of Sao Paulo answers for an address. *)
Definition resultado_sp (endereco : string) : resultado :=
  resultado_de (cand_sp 0 (endereco +:+ ", Brasil")).

(** A service that finds a cache file with one entry, and a checkpoint or
    none. *)
Definition servico_com_cache (pfile : option Progress) : estado :=
  loadCache
    (constructor opcoes_padrao 0 hora_de_brasilia
       (Some {[ "rua a"%string := Some (resultado_sp "Rua A") ]}) pfile).



(** A service that has loaded a cache file which holds [null] under a
    key. *)
Definition servico_com_nulo : estado :=
  loadCache
    (constructor opcoes_padrao 0 hora_de_brasilia
       (Some {[ "rua x"%string := None ]}) None).

(** Statistics with 10 errors in 50 records. *)
Definition stats_com_erros : Stats := mkStats 100 50 40 10 0 None None.

(** * Properties *)

(** ** The cache key *)

Example getCacheKey_main_st :
  getCacheKey "Main St, City" = "main st, city"%string
  /\ getCacheKey "main   st, city" = "main st, city"%string
  /\ getCacheKey "  RUA  Oscar Freire " = "rua oscar freire"%string
  /\ getCacheKey (String (ascii_of_nat 9) "Rua A" +:+ String (ascii_of_nat 160) "")
     = "rua a"%string.
Proof. repeat split; reflexivity. Qed.

(** U+00C3 (A with tilde) becomes U+00E3; the multiplication sign stays. *)
Example lower_latin1 :
  Str.lower (ascii_of_nat 195) = ascii_of_nat 227
  /\ Str.lower (ascii_of_nat 215) = ascii_of_nat 215.
Proof. split; reflexivity. Qed.

Lemma lower_idem (c : ascii) : Str.lower (Str.lower c) = Str.lower c.
Proof. destruct c as [[] [] [] [] [] [] [] []]; reflexivity. Qed.

Lemma is_space_lower (c : ascii) : Str.is_space (Str.lower c) = Str.is_space c.
Proof. destruct c as [[] [] [] [] [] [] [] []]; reflexivity. Qed.

Lemma append_cons (c : ascii) (s t : string) :
  String c s +:+ t = String c (s +:+ t).
Proof. reflexivity. Qed.

Lemma append_nil_l (s : string) : EmptyString +:+ s = s.
Proof. reflexivity. Qed.


(** A string that [trimEnd] empties has no word, and conversely. *)
Lemma trimEnd_vazio (s : string) :
  Str.trimEnd s = EmptyString <-> palavras s = [].
Proof.
  induction s as [|c r IH]; cbn; [tauto|].
  destruct (Str.is_space c) eqn:Hc.
  - destruct (Str.trimEnd r) eqn:Hr.
    + split; intros _; [now apply IH|reflexivity].
    + split; intros H; [discriminate H|].
      apply IH in H. discriminate H.
  - split; intros H.
    + destruct (Str.trimEnd r); discriminate H.
    + destruct r as [|d r']; [discriminate H|].
      destruct (Str.is_space d); [discriminate H|].
      destruct (palavras (String d r')); discriminate H.
Qed.

Lemma trimEnd_cons (c : ascii) (r : string) :
  Str.trimEnd (String c r) =
  if Str.is_space c && bool_decide (Str.trimEnd r = EmptyString)
  then EmptyString else String c (Str.trimEnd r).
Proof.
  cbn. destruct (Str.trimEnd r) eqn:Hr; cbn.
  - destruct (Str.is_space c); reflexivity.
  - rewrite andb_false_r. reflexivity.
Qed.

Lemma juntar_cons_letra (c : ascii) (w : string) (ws : list string) :
  juntar (String c w :: ws) = String c (juntar (w :: ws)).
Proof. cbn. destruct ws; reflexivity. Qed.

(** [replace_spaces] after [trimEnd], in both states of the scan, in terms
    of the words. *)
Lemma replace_trimEnd (s : string) :
  Str.replace_spaces_from true (Str.trimEnd s) = juntar (palavras s)
  /\ Str.replace_spaces_from false (Str.trimEnd s) =
     match s with
     | EmptyString => EmptyString
     | String c _ =>
         if Str.is_space c then
           match palavras s with
           | [] => EmptyString
           | ws => String " " (juntar ws)
           end
         else juntar (palavras s)
     end.
Proof.
  induction s as [|c r [IHt IHf]]; [split; reflexivity|].
  rewrite trimEnd_cons.
  destruct (Str.is_space c) eqn:Hc; cbn [andb].
  - cbn [palavras]. rewrite Hc.
    destruct (bool_decide (Str.trimEnd r = EmptyString)) eqn:Hr.
    + apply bool_decide_eq_true in Hr. apply trimEnd_vazio in Hr.
      rewrite Hr. split; reflexivity.
    + apply bool_decide_eq_false in Hr.
      assert (Hw : palavras r <> []) by (intros H; apply Hr, trimEnd_vazio, H).
      cbn [Str.replace_spaces_from]. rewrite Hc, IHt.
      split; [reflexivity|].
      destruct (palavras r); [contradiction|reflexivity].
  - assert (Hboth : forall b,
               Str.replace_spaces_from b (String c (Str.trimEnd r))
               = juntar (palavras (String c r))).
    { intros b. cbn [Str.replace_spaces_from]. rewrite Hc, IHf.
      cbn [palavras]. rewrite Hc.
      destruct r as [|d r']; [reflexivity|].
      destruct (Str.is_space d) eqn:Hd.
      - cbn [juntar]. destruct (palavras (String d r')); reflexivity.
      - destruct (palavras (String d r')) as [|w ws] eqn:Hp.
        + reflexivity.
        + now rewrite juntar_cons_letra. }
    split; apply Hboth.
Qed.

Lemma palavras_trimStart (s : string) :
  palavras (Str.trimStart s) = palavras s.
Proof.
  induction s as [|c r IH]; [reflexivity|].
  cbn [Str.trimStart]. destruct (Str.is_space c) eqn:Hc.
  - rewrite IH. cbn [palavras]. now rewrite Hc.
  - reflexivity.
Qed.

Lemma trimStart_inicio (s : string) :
  match Str.trimStart s with
  | EmptyString => True
  | String c _ => Str.is_space c = false
  end.
Proof.
  induction s as [|c r IH]; [exact I|].
  cbn [Str.trimStart]. destruct (Str.is_space c) eqn:Hc; [exact IH|exact Hc].
Qed.

(** The code and the words of the specification agree. *)
Lemma getCacheKey_normalize (endereco : string) :
  getCacheKey endereco = normalize endereco.
Proof.
  unfold getCacheKey, normalize, Str.replace_spaces, Str.trim.
  rewrite <- (palavras_trimStart (Str.toLowerCase endereco)).
  pose proof (trimStart_inicio (Str.toLowerCase endereco)) as Hi.
  destruct (replace_trimEnd (Str.trimStart (Str.toLowerCase endereco)))
    as [_ Hf].
  rewrite Hf.
  destruct (Str.trimStart (Str.toLowerCase endereco)) as [|c r];
    [reflexivity|].
  now rewrite Hi.
Qed.

Lemma palavras_cons (a : ascii) (r : string) :
  palavras (String a r) =
  if Str.is_space a then palavras r
  else if comeca_palavra r then
         match palavras r with
         | w :: ws => String a w :: ws
         | [] => [String a EmptyString]
         end
       else String a EmptyString :: palavras r.
Proof.
  cbn [palavras]. destruct (Str.is_space a); [reflexivity|].
  destruct r as [|d r']; [reflexivity|].
  cbn [comeca_palavra]. destruct (Str.is_space d); reflexivity.
Qed.





(** The words of a string: none is empty, none holds white space, and they
    keep what holds of every code unit of the string. *)
Lemma palavras_todos (P : ascii -> Prop) (s : string) :
  todos P s ->
  Forall (fun w => w <> EmptyString
                   /\ todos (fun c => Str.is_space c = false /\ P c) w)
    (palavras s).
Proof.
  induction s as [|a r IH]; intros H; [constructor|].
  destruct H as [Ha Hr]. specialize (IH Hr).
  rewrite palavras_cons.
  destruct (Str.is_space a) eqn:Hsp; [exact IH|].
  assert (Hum : String a EmptyString <> EmptyString
                /\ todos (fun c => Str.is_space c = false /\ P c)
                     (String a EmptyString))
    by (split; [discriminate|cbn; auto]).
  destruct (comeca_palavra r).
  - destruct (palavras r) as [|w ws]; [constructor; [exact Hum|constructor]|].
    inversion IH as [|? ? [Hw1 Hw2] Hws]; subst.
    constructor; [|exact Hws].
    split; [discriminate|]. cbn. auto.
  - constructor; assumption.
Qed.

Lemma toLowerCase_todos (s : string) :
  todos (fun c => Str.lower c = c) (Str.toLowerCase s).
Proof.
  induction s as [|c r IH]; cbn; [exact I|].
  split; [apply lower_idem|exact IH].
Qed.









Lemma todos_impl (P Q : ascii -> Prop) (s : string) :
  (forall c, P c -> Q c) -> todos P s -> todos Q s.
Proof.
  intros H. induction s as [|a r IH]; [exact id|].
  intros [Ha Hr]. split; auto.
Qed.



(** ** The lookup client: retries and terminal outcomes *)

Section Cliente_props.

Variable provedor : nat -> string -> resposta.

(** The body of [buscarCoordenadas], as one equation. *)
Lemma buscarCoordenadas_eq (endereco : string) (tentativa : Z) (s : estado) :
  buscarCoordenadas provedor endereco tentativa s =
  match resposta_de provedor endereco s with
  | Dados (result :: _) =>
      (Some {| res_latitude := Some (cand_lat result);
               res_longitude := Some (cand_lon result);
               res_endereco_formatado := cand_display_name result;
               res_confianca :=
                 Some (importance_or_0 (cand_importance result));
               res_cached := false |},
       tally_success (pedido endereco tentativa s))
  | Dados [] => (None, tally_error (pedido endereco tentativa s))
  | ErroTransporte =>
      if tentativa <? maxRetries s
      then buscarCoordenadas provedor endereco (tentativa + 1)
             (sleep (retryDelay s) (pedido endereco tentativa s))
      else (None, tally_error (pedido endereco tentativa s))
  end.
Proof.
  simp buscarCoordenadas.
  destruct (resposta_de provedor endereco s) as [|[|c l]]; simpl; try reflexivity.
  destruct (Z_lt_dec tentativa (maxRetries s)) as [H|H]; simpl.
  - apply Z.ltb_lt in H. rewrite H.
    now rewrite (buscarCoordenadas_equation_1 provedor endereco (tentativa + 1)).
  - apply Z.ltb_nlt in H. rewrite H. reflexivity.
Qed.

(** A lookup whose attempts all fail in transport, started at attempt
    [tentativa] with [n] attempts left after it. *)
Lemma buscarCoordenadas_falhas (endereco : string) (n : nat) :
  forall (tentativa : Z) (s : estado),
    (forall k, (requests s <= k)%nat ->
               provedor k (endereco +:+ ", Brasil") = ErroTransporte) ->
    maxRetries s - tentativa = Z.of_nat n ->
    exists s',
      buscarCoordenadas provedor endereco tentativa s = (None, s')
      /\ trace s' = trace_de_falhas endereco (retryDelay s) tentativa n ++ trace s
      /\ requests s' = (requests s + S n)%nat
      /\ clock s' = clock s + Z.of_nat n * retryDelay s
      /\ stats s' = inc_errors (stats s)
      /\ memoryCache s' = memoryCache s.
Proof.
  induction n as [|n IH]; intros tentativa s Hfail Hm;
    rewrite buscarCoordenadas_eq; unfold resposta_de;
    rewrite (Hfail (requests s)) by lia.
  - replace (tentativa <? maxRetries s) with false
      by (symmetry; apply Z.ltb_nlt; lia).
    eexists; split; [reflexivity|]. cbn.
    repeat split; try reflexivity; lia.
  - replace (tentativa <? maxRetries s) with true
      by (symmetry; apply Z.ltb_lt; lia).
    destruct (IH (tentativa + 1)
                (sleep (retryDelay s) (pedido endereco tentativa s)))
      as (s' & Hrun & Htr & Hreq & Hclk & Hst & Hmc).
    + cbn. intros k Hk. apply Hfail. lia.
    + cbn. lia.
    + exists s'. split; [exact Hrun|]. cbn in *.
      rewrite Htr, Hreq, Hclk, Hst, Hmc.
      repeat split; try reflexivity; try lia.
      now rewrite <- app_assoc.
Qed.

Lemma conta_pedidos_falhas (endereco : string) (espera : Z) (n : nat) :
  forall tentativa,
    conta_pedidos (trace_de_falhas endereco espera tentativa n) = S n
    /\ conta_esperas (trace_de_falhas endereco espera tentativa n) = n.
Proof.
  unfold conta_pedidos, conta_esperas.
  induction n as [|n IH]; intros tentativa; cbn; [split; reflexivity|].
  rewrite !List.filter_app, !length_app. cbn.
  destruct (IH (tentativa + 1)) as [-> ->]. lia.
Qed.

(** C4.  An address whose every attempt fails with a transport error:
    [buscarCoordenadas] (called, as the pipeline does, at attempt 1) makes
    exactly [maxRetries] requests, sleeps [retryDelay] between consecutive
    ones and nowhere else, returns [null] and adds one to [stats.errors]. *)
Theorem buscarCoordenadas_retry_bound (endereco : string) (s : estado) :
  1 <= maxRetries s ->
  (forall k, (requests s <= k)%nat ->
             provedor k (endereco +:+ ", Brasil") = ErroTransporte) ->
  exists s' novos,
    buscarCoordenadas provedor endereco 1 s = (None, s')
    /\ trace s' = novos ++ trace s
    /\ novos = trace_de_falhas endereco (retryDelay s) 1
                 (Z.to_nat (maxRetries s - 1))
    /\ Z.of_nat (conta_pedidos novos) = maxRetries s
    /\ Z.of_nat (conta_esperas novos) = maxRetries s - 1
    /\ Z.of_nat (requests s') = Z.of_nat (requests s) + maxRetries s
    /\ clock s' = clock s + (maxRetries s - 1) * retryDelay s
    /\ errors (stats s') = S (errors (stats s))
    /\ success (stats s') = success (stats s).
Proof.
  intros Hm Hfail.
  destruct (buscarCoordenadas_falhas endereco (Z.to_nat (maxRetries s - 1)) 1 s
              Hfail ltac:(lia))
    as (s' & Hrun & Htr & Hreq & Hclk & Hst & _).
  rewrite Z2Nat.id in Hclk by lia.
  exists s', (trace_de_falhas endereco (retryDelay s) 1
                (Z.to_nat (maxRetries s - 1))).
  destruct (conta_pedidos_falhas endereco (retryDelay s)
              (Z.to_nat (maxRetries s - 1)) 1) as [Hp He].
  rewrite Hp, He, Hreq, Hclk, Hst. cbn [errors success inc_errors].
  repeat split; try reflexivity; try assumption; try lia.
Qed.

(** C7.  When the provider answers an attempt with no candidate,
    [buscarCoordenadas] returns [null] on that attempt: that request is
    its only effect besides the tally (no wait, no further request), and
    [stats.errors], which [ajustarRateLimit] reads, grows by one. *)
Theorem buscarCoordenadas_sem_candidatos
    (endereco : string) (tentativa : Z) (s : estado) :
  resposta_de provedor endereco s = Dados [] ->
  exists s',
    buscarCoordenadas provedor endereco tentativa s = (None, s')
    /\ trace s' = EvPedido endereco tentativa :: trace s
    /\ requests s' = S (requests s)
    /\ clock s' = clock s
    /\ errors (stats s') = S (errors (stats s))
    /\ success (stats s') = success (stats s)
    /\ memoryCache s' = memoryCache s.
Proof.
  intros H. rewrite buscarCoordenadas_eq, H.
  eexists; split; [reflexivity|]. cbn. repeat split; reflexivity.
Qed.

End Cliente_props.

(** ** The rate adjustment stays within its bounds *)

Lemma ajustarRateLimit_in_bounds (s : estado) :
  delay_in_bounds s -> delay_in_bounds (ajustarRateLimit s).
Proof.
  unfold delay_in_bounds, ajustarRateLimit. intros H.
  destruct (taxaErro_gt_10pct (stats s)); [cbn; lia|].
  destruct (taxaErro_lt_2pct (stats s) && (800 <? rateLimitDelay s)); cbn; lia.
Qed.

(** Whatever the starting delay, one adjustment keeps the delay between the
    smaller of the old delay and 800 and the larger of the old delay and
    3000. *)
Lemma ajustarRateLimit_range (s : estado) :
  Z.min (rateLimitDelay s) 800 <= rateLimitDelay (ajustarRateLimit s)
    <= Z.max (rateLimitDelay s) 3000.
Proof.
  unfold ajustarRateLimit.
  destruct (taxaErro_gt_10pct (stats s)); [cbn; lia|].
  destruct (taxaErro_lt_2pct (stats s) && (800 <? rateLimitDelay s)) eqn:E;
    cbn; lia.
Qed.

(** C5, as the code has it.  From a delay within [800, 3000], every
    sequence of adjustments, on any observed statistics, leaves the delay
    within [800, 3000]. *)
Theorem ajustes_in_bounds (observados : list Stats) (s : estado) :
  delay_in_bounds s -> delay_in_bounds (ajustes observados s).
Proof.
  unfold ajustes. revert s.
  induction observados as [|st obs IH]; intros s H; cbn; [exact H|].
  apply IH, ajustarRateLimit_in_bounds. exact H.
Qed.

Lemma ajustes_in_bounds_witness :
  delay_in_bounds (constructor opcoes_padrao 0 hora_de_brasilia None None)
  /\ delay_in_bounds
       (ajustes [mkStats 100 50 40 10 0 None None; stats0]
          (constructor opcoes_padrao 0 hora_de_brasilia None None)).
Proof.
  assert (H : delay_in_bounds (constructor opcoes_padrao 0 hora_de_brasilia None None))
    by (unfold delay_in_bounds; cbn; lia).
  split; [exact H|].
  apply (ajustes_in_bounds
           [mkStats 100 50 40 10 0 None None; stats0]
           (constructor opcoes_padrao 0 hora_de_brasilia None None) H).
Defined.

(** C5 as stated fails: a service configured with a delay of 500 ms, which
    the constructor and the configuration endpoint accept, keeps a delay
    of 500 ms, below 800, after an adjustment on a run without errors. *)
Lemma ajustes_out_of_bounds :
  ~ (forall (observados : list Stats) (s : estado),
       delay_in_bounds (ajustes observados s)).
Proof.
  intros H.
  specialize (H [stats0] (constructor opcoes_teste 0 hora_de_brasilia None None)).
  unfold delay_in_bounds in H. cbn in H. lia.
Qed.

(** ** The report *)

(** C6, as the code has it.  The report is a function of the records, of
    [this.stats] and of the current day: the counts, the success rate and
    the buckets by coordinates and by cache come from the records alone,
    whatever the service, the clock and the time zone are;
    [tempoProcessamento] and [estatisticas] come from [this.stats],
    [processados_hoje] from the instants that fall on the current day, so
    that two services with the same statistics, in the same time zone and
    on the same day give the same report.  The function returns the report
    and nothing else: it leaves the service and the records as they are. *)
Theorem gerarRelatorioDetalhado_dependencias
    (s1 s2 : estado) (clientes : list cliente) :
  campos_dos_registros (gerarRelatorioDetalhado s1 clientes)
  = campos_dos_registros (gerarRelatorioDetalhado s2 clientes)
  /\ (stats s1 = stats s2 ->
      (forall t, hoje s1 t = hoje s2 t) ->
      gerarRelatorioDetalhado s1 clientes = gerarRelatorioDetalhado s2 clientes)
  /\ (stats s1 = stats s2 ->
      (forall t, fuso s1 t = fuso s2 t) ->
      toDateString (fuso s1) (clock s1) = toDateString (fuso s2) (clock s2) ->
      gerarRelatorioDetalhado s1 clientes = gerarRelatorioDetalhado s2 clientes).
Proof.
  assert (Hgeral : stats s1 = stats s2 ->
                   (forall t, hoje s1 t = hoje s2 t) ->
                   gerarRelatorioDetalhado s1 clientes
                   = gerarRelatorioDetalhado s2 clientes).
  { intros Hst Hd. unfold gerarRelatorioDetalhado. rewrite Hst.
    f_equal. f_equal. apply filter_ext. intros c.
    destruct (cli_data_geocodificacao c) as [t|]; [apply Hd|reflexivity]. }
  split; [reflexivity|]. split; [exact Hgeral|].
  intros Hst Hz Hday. apply Hgeral; [exact Hst|].
  intros t. unfold hoje, toDateString in *. rewrite Hday, (Hz t). reflexivity.
Qed.

Lemma gerarRelatorioDetalhado_dependencias_witness :
  stats servico_novo = stats servico_de_teste
  /\ (forall t, fuso servico_novo t = fuso servico_de_teste t)
  /\ toDateString (fuso servico_novo) (clock servico_novo)
     = toDateString (fuso servico_de_teste) (clock servico_de_teste)
  /\ campos_dos_registros (gerarRelatorioDetalhado servico_novo cinco_clientes)
     = campos_dos_registros
         (gerarRelatorioDetalhado servico_de_teste cinco_clientes)
  /\ gerarRelatorioDetalhado servico_novo cinco_clientes
     = gerarRelatorioDetalhado servico_de_teste cinco_clientes.
Proof.
  destruct (gerarRelatorioDetalhado_dependencias servico_novo servico_de_teste
              cinco_clientes) as (H1 & _ & H3).
  split; [reflexivity|]. split; [reflexivity|]. split; [reflexivity|].
  split; [exact H1|].
  apply H3; reflexivity.
Defined.

(** C6 as stated fails: on the same records, the report changes with
    [this.stats] and with the clock. *)
Lemma gerarRelatorioDetalhado_nao_puro :
  gerarRelatorioDetalhado servico_novo [cliente_resolvido]
    <> gerarRelatorioDetalhado
         (set_stats (mkStats 1 1 1 0 0 (Some 0) (Some 3000)) servico_novo)
         [cliente_resolvido]
  /\ gerarRelatorioDetalhado servico_novo [cliente_resolvido]
     <> gerarRelatorioDetalhado (set_clock 86400000 servico_novo)
          [cliente_resolvido].
Proof.
  split; intros H.
  - apply (f_equal estatisticas) in H. cbn in H. discriminate H.
  - apply (f_equal (fun r => length (processados_hoje (detalhes r)))) in H.
    vm_compute in H. discriminate H.
Qed.

(** ** Composing the steps of a run *)

Lemma cadeia_app (a b c : Stats) (l1 l2 : list Stats) :
  cadeia a l1 b -> cadeia b l2 c -> cadeia a (l1 ++ l2) c.
Proof.
  revert a. induction l1 as [|x l1 IH]; intros a H1 H2; cbn in *.
  - subst. exact H2.
  - destruct H1 as [Hx H1]. split; [exact Hx|]. now apply IH.
Qed.

Lemma fotografias_app (n2 n1 : list evento) :
  fotografias (n2 ++ n1) = fotografias n1 ++ fotografias n2.
Proof. unfold fotografias. now rewrite omap_app, reverse_app. Qed.

Lemma evolui_refl (s : estado) : evolui s s.
Proof. exists []. cbn. split; reflexivity. Qed.

Lemma evolui_trans (s1 s2 s3 : estado) :
  evolui s1 s2 -> evolui s2 s3 -> evolui s1 s3.
Proof.
  intros (n1 & Ht1 & Hc1) (n2 & Ht2 & Hc2).
  exists (n2 ++ n1). rewrite Ht2, Ht1, fotografias_app, <- app_assoc.
  split; [reflexivity|]. eapply cadeia_app; eassumption.
Qed.

(** An operation that touches neither the statistics nor the progress
    events of the trace. *)
Lemma evolui_neutro (s s' : estado) (novos : list evento) :
  trace s' = novos ++ trace s ->
  omap foto novos = [] ->
  stats s' = stats s ->
  evolui s s'.
Proof.
  intros Ht Hf Hst. exists novos. unfold fotografias.
  rewrite Ht, Hf, Hst. cbn. split; reflexivity.
Qed.

Lemma cache_cresce_refl (s : estado) : cache_cresce s s.
Proof.
  unfold cache_cresce. repeat split; auto.
  intros k v H1 H2. congruence.
Qed.

Lemma cache_cresce_trans (s1 s2 s3 : estado) :
  cache_cresce s1 s2 -> cache_cresce s2 s3 -> cache_cresce s1 s3.
Proof.
  intros (He1 & Hd1 & Hk1 & Hn1 & Hf1) (He2 & Hd2 & Hk2 & Hn2 & Hf2).
  unfold cache_cresce. repeat split.
  - congruence.
  - intros Hoff. rewrite Hd2 by congruence. auto.
  - auto.
  - intros k v Hv Hnone.
    destruct (memoryCache s2 !! k) as [w|] eqn:E.
    + rewrite (Hk2 _ _ E) in Hv. inversion Hv; subst. eauto.
    + eauto.
  - intros f Hf. destruct (Hf2 f Hf) as [Hsame|(m & Hm & Hlo & Hhi)].
    + destruct (Hf1 f Hsame) as [Hsame1|(m & Hm & Hlo1 & Hhi1)];
        [left; exact Hsame1|].
      right. exists m. split; [exact Hm|]. split; auto.
    + right. exists m. split; [exact Hm|]. split; auto.
Qed.

(** An operation that touches neither the cache nor the cache file. *)
Lemma cache_cresce_neutro (s s' : estado) :
  cacheEnabled s' = cacheEnabled s ->
  memoryCache s' = memoryCache s ->
  cacheFile s' = cacheFile s ->
  cache_cresce s s'.
Proof.
  intros He Hmc Hcf. unfold cache_cresce. rewrite He, Hmc, Hcf.
  repeat split; auto.
  intros k v H1 H2. congruence.
Qed.

(** ** The statistics of a run *)

Lemma um_registro_le (a b : Stats) : um_registro a b -> contadores_le a b.
Proof. unfold um_registro, contadores_le. intuition lia. Qed.

Lemma contadores_le_trans (a b c : Stats) :
  contadores_le a b -> contadores_le b c -> contadores_le a c.
Proof. unfold contadores_le. intuition lia. Qed.

Lemma um_registro_equilibrado (a b : Stats) :
  equilibrado a -> um_registro a b -> equilibrado b.
Proof. unfold equilibrado, um_registro. intuition lia. Qed.

Lemma cadeia_equilibrado (l : list Stats) :
  forall a b, equilibrado a -> cadeia a l b ->
              Forall equilibrado l /\ equilibrado b.
Proof.
  induction l as [|x l IH]; intros a b Ha Hc; cbn in Hc.
  - subst. split; [constructor|exact Ha].
  - destruct Hc as [Hx Hc].
    pose proof (um_registro_equilibrado _ _ Ha Hx) as Hbx.
    destruct (IH x b Hbx Hc) as [Hl Hb]. split; [constructor|]; assumption.
Qed.

Lemma cadeia_le (l : list Stats) :
  forall a b, cadeia a l b ->
              Forall (contadores_le a) l /\ contadores_le a b
              /\ StronglySorted contadores_le (a :: l)
              /\ Forall (fun x => contadores_le x b) (a :: l).
Proof.
  induction l as [|x l IH]; intros a b Hc; cbn in Hc.
  - subst. assert (Hr : contadores_le b b) by (unfold contadores_le; lia).
    split; [constructor|]. split; [exact Hr|].
    split; repeat constructor; exact Hr.
  - destruct Hc as [Hx Hc]. apply um_registro_le in Hx.
    destruct (IH x b Hc) as (Hall & Hxb & Hs & Hend).
    assert (Hal : Forall (contadores_le a) (x :: l)).
    { constructor; [exact Hx|].
      eapply Forall_impl; [exact Hall|].
      intros y Hy. eapply contadores_le_trans; eassumption. }
    split; [|split; [|split]].
    + exact Hal.
    + eapply contadores_le_trans; eassumption.
    + constructor; assumption.
    + constructor; [eapply contadores_le_trans; eassumption|exact Hend].
Qed.

Lemma cadeia_processed (l : list Stats) :
  forall a b, cadeia a l b -> processed b = (processed a + length l)%nat.
Proof.
  induction l as [|x l IH]; intros a b Hc; cbn in Hc.
  - subst. cbn. lia.
  - destruct Hc as [Hx Hc]. rewrite (IH _ _ Hc). cbn.
    unfold um_registro in Hx. lia.
Qed.

(** ** The cache only grows *)










(** The loops of the pipeline, for any reflexive and transitive relation
    that the body of the record loop and the checkpoint operations
    respect. *)
Section Lacos.

Variable provedor : nat -> string -> resposta.
Variable R : estado -> estado -> Prop.
Hypothesis R_refl : forall s, R s s.
Hypothesis R_trans : forall s1 s2 s3, R s1 s2 -> R s2 s3 -> R s1 s3.
Hypothesis R_cliente :
  forall batchIndex totalBatches e i,
    R (ex_estado e)
      (ex_estado (processarCliente provedor batchIndex totalBatches e i)).
Hypothesis R_saveProgress :
  forall ids n s, R s (saveProgress ids n s).
Hypothesis R_saveCache : forall s, R s (saveCache s).
Hypothesis R_sleep : forall ms s, R s (sleep ms s).

Lemma lote_R (batchIndex totalBatches : nat) (l : list nat) :
  forall e : execucao,
    R (ex_estado e)
      (ex_estado (foldl (processarCliente provedor batchIndex totalBatches) e l)).
Proof.
  induction l as [|i l IH]; intros e; cbn; [apply R_refl|].
  eapply R_trans; [apply R_cliente|apply IH].
Qed.

Lemma processarLote_R (pendentes : list nat) (totalBatches : nat)
    (e : execucao) (batchIndex : nat) :
  R (ex_estado e)
    (ex_estado (processarLote provedor pendentes totalBatches e batchIndex)).
Proof.
  unfold processarLote. cbn [ex_estado].
  pose proof (lote_R batchIndex totalBatches
                (lote_de pendentes (Pos.to_nat (batchSize (ex_estado e)))
                   batchIndex) e) as H1.
  set (e1 := foldl _ e _) in *.
  eapply R_trans; [exact H1|].
  eapply R_trans; [apply R_saveProgress|].
  eapply R_trans; [apply R_saveCache|].
  destruct (batchIndex <? totalBatches - 1)%nat; [apply R_sleep|apply R_refl].
Qed.

Lemma lotes_R (pendentes : list nat) (totalBatches : nat) (indices : list nat) :
  forall e : execucao,
    R (ex_estado e)
      (ex_estado (foldl (processarLote provedor pendentes totalBatches) e indices)).
Proof.
  induction indices as [|b l IH]; intros e; cbn; [apply R_refl|].
  eapply R_trans; [apply processarLote_R|apply IH].
Qed.

Lemma processarLotes_R (p : preparo) (indices : list nat) :
  R (ex_estado (pr_execucao p))
    (ex_estado (processarLotes provedor p indices)).
Proof. apply lotes_R. Qed.

End Lacos.

(** ** The pipeline, step by step *)

Section Pipeline_props.

Variable provedor : nat -> string -> resposta.

(** A lookup adds requests and waits to the trace, leaves the cache, the
    configuration and the files alone, and tallies one success or one
    error, whatever the number of attempts. *)
Lemma buscarCoordenadas_efeito (endereco : string) (n : nat) :
  forall (tentativa : Z) (s : estado),
    Z.to_nat (maxRetries s - tentativa) = n ->
    exists r s' novos,
      buscarCoordenadas provedor endereco tentativa s = (r, s')
      /\ trace s' = novos ++ trace s
      /\ omap foto novos = []
      /\ memoryCache s' = memoryCache s
      /\ cacheEnabled s' = cacheEnabled s
      /\ cacheFile s' = cacheFile s
      /\ ((exists x, r = Some x /\ res_cached x = false
                     /\ stats s' = inc_success (stats s))
          \/ (r = None /\ stats s' = inc_errors (stats s))).
Proof.
  induction n as [n IH] using lt_wf_ind. intros tentativa s Hn.
  rewrite buscarCoordenadas_eq.
  destruct (resposta_de provedor endereco s) as [|[|c l]].
  - destruct (tentativa <? maxRetries s) eqn:Hlt.
    + apply Z.ltb_lt in Hlt.
      destruct (IH (Z.to_nat (maxRetries s - (tentativa + 1))) ltac:(lia)
                  (tentativa + 1)
                  (sleep (retryDelay s) (pedido endereco tentativa s))
                  eq_refl)
        as (r & s' & novos & Hrun & Htr & Hfoto & Hmc & Hce & Hcf & Hst).
      exists r, s', (novos ++ [EvEspera (retryDelay s); EvPedido endereco tentativa]).
      split; [exact Hrun|]. cbn in *.
      rewrite Htr, Hmc, Hce, Hcf, omap_app, Hfoto, <- app_assoc.
      repeat split; try reflexivity. exact Hst.
    + exists None, (tally_error (pedido endereco tentativa s)),
        [EvPedido endereco tentativa].
      cbn. repeat split; try reflexivity. right. split; reflexivity.
  - exists None, (tally_error (pedido endereco tentativa s)),
      [EvPedido endereco tentativa].
    cbn. repeat split; try reflexivity. right. split; reflexivity.
  - eexists (Some _), (tally_success (pedido endereco tentativa s)),
      [EvPedido endereco tentativa].
    cbn. repeat split; try reflexivity. left. eexists. repeat split; reflexivity.
Qed.

(** The three ways [buscarCoordenadasComCache] ends: a hit, a lookup that
    succeeds (stored when the cache is enabled), a lookup that fails (not
    stored). *)
Lemma buscarCoordenadasComCache_efeito (endereco : string) (s : estado) :
  exists r s' novos,
    buscarCoordenadasComCache provedor endereco s = (r, s')
    /\ trace s' = novos ++ trace s
    /\ omap foto novos = []
    /\ cacheEnabled s' = cacheEnabled s
    /\ cacheFile s' = cacheFile s
    /\ ((memoryCache s !! getCacheKey endereco = Some r
         /\ stats s' = inc_cached (stats s)
         /\ memoryCache s' = memoryCache s
         /\ novos = [])
        \/ (memoryCache s !! getCacheKey endereco = None
            /\ (exists x, r = Some x /\ res_cached x = false
                          /\ memoryCache s' =
                             if cacheEnabled s
                             then <[getCacheKey endereco := Some x]> (memoryCache s)
                             else memoryCache s)
            /\ stats s' = inc_success (stats s))
        \/ (memoryCache s !! getCacheKey endereco = None
            /\ r = None
            /\ stats s' = inc_errors (stats s)
            /\ memoryCache s' = memoryCache s)).
Proof.
  unfold buscarCoordenadasComCache.
  destruct (memoryCache s !! getCacheKey endereco) as [v|] eqn:Hk.
  - exists v, (set_stats (inc_cached (stats s)) s), [].
    cbn. repeat split; try reflexivity. left. repeat split; reflexivity.
  - destruct (buscarCoordenadas_efeito endereco _ 1 s eq_refl)
      as (r & s' & novos & Hrun & Htr & Hfoto & Hmc & Hce & Hcf & Hst).
    rewrite Hrun.
    destruct Hst as [(x & -> & Hx & Hst)|[-> Hst]].
    + rewrite Hce. destruct (cacheEnabled s) eqn:Hen.
      * eexists _, _, novos. split; [reflexivity|]. cbn.
        repeat split; try assumption. right; left.
        split; [reflexivity|]. split; [|exact Hst].
        exists x. rewrite Hmc. repeat split; assumption.
      * eexists _, _, novos. split; [reflexivity|].
        repeat split; try assumption; try congruence. right; left.
        split; [reflexivity|]. split; [|exact Hst].
        exists x. repeat split; assumption.
    + eexists _, _, novos. split; [reflexivity|].
      repeat split; try assumption. right; right.
      repeat split; assumption.
Qed.

Lemma um_registro_inc_success (st : Stats) :
  um_registro st (inc_processed (inc_success st)).
Proof. unfold um_registro. cbn. intuition. Qed.

Lemma um_registro_inc_errors (st : Stats) :
  um_registro st (inc_processed (inc_errors st)).
Proof. unfold um_registro. cbn. intuition. Qed.

Lemma um_registro_inc_cached (st : Stats) :
  um_registro st (inc_processed (inc_cached st)).
Proof. unfold um_registro. cbn. intuition. Qed.

(** One iteration of the loop over the records of a batch, on the trace and
    the statistics. *)
Lemma processarCliente_evolui (batchIndex totalBatches : nat)
    (e : execucao) (i : nat) :
  evolui (ex_estado e)
    (ex_estado (processarCliente provedor batchIndex totalBatches e i)).
Proof.
  unfold processarCliente.
  destruct (ex_clientes e !! i) as [c|]; [|apply evolui_refl].
  destruct (set_has (ex_processedIds e) (cli_id c)); [apply evolui_refl|].
  destruct (buscarCoordenadasComCache_efeito (cli_endereco c) (ex_estado e))
    as (r & s' & novos & Hrun & Htr & Hfoto & _ & _ & Hcases).
  rewrite Hrun. cbn.
  eexists (EvEspera _ :: EvProgresso _ :: novos). cbn.
  rewrite Htr. split; [reflexivity|].
  unfold fotografias. cbn. rewrite Hfoto. cbn.
  destruct Hcases as [(_ & Hst & _)|[(_ & _ & Hst)|(_ & _ & Hst & _)]];
    rewrite Hst; split;
    auto using um_registro_inc_cached, um_registro_inc_success,
      um_registro_inc_errors.
Qed.

(** One iteration of the loop over the records of a batch, on the cache. *)
Lemma processarCliente_cache (batchIndex totalBatches : nat)
    (e : execucao) (i : nat) :
  cache_cresce (ex_estado e)
    (ex_estado (processarCliente provedor batchIndex totalBatches e i)).
Proof.
  unfold processarCliente.
  destruct (ex_clientes e !! i) as [c|]; [|apply cache_cresce_refl].
  destruct (set_has (ex_processedIds e) (cli_id c)); [apply cache_cresce_refl|].
  destruct (buscarCoordenadasComCache_efeito (cli_endereco c) (ex_estado e))
    as (r & s' & novos & Hrun & _ & _ & Hce & Hcf & Hcases).
  rewrite Hrun. cbn.
  destruct Hcases as [(_ & _ & Hmc & _)
                     |[(Hk & (x & -> & Hx & Hmc) & _)|(_ & _ & _ & Hmc)]];
    try (apply cache_cresce_neutro; assumption).
  unfold cache_cresce. cbn. rewrite Hce, Hmc, Hcf.
  destruct (cacheEnabled (ex_estado e)).
  - repeat split; auto; try discriminate.
    + intros k v Hv. rewrite lookup_insert_ne; [exact Hv|congruence].
    + intros k v Hv Hnone.
      destruct (decide (getCacheKey (cli_endereco c) = k)) as [<-|Hne].
      * rewrite lookup_insert_eq in Hv. inversion Hv; subst. eauto.
      * rewrite lookup_insert_ne in Hv by exact Hne. congruence.
  - repeat split; auto. intros k v H1 H2. congruence.
Qed.

Lemma saveCache_cache (s : estado) : cache_cresce s (saveCache s).
Proof.
  unfold saveCache.
  destruct (negb (cacheEnabled s) || (size (memoryCache s) =? 0)%nat);
    [apply cache_cresce_refl|].
  unfold cache_cresce. cbn. repeat split; auto.
  - intros k v H1 H2. congruence.
  - intros f Hf. inversion Hf; subst. right.
    exists (memoryCache s). split; [reflexivity|]. split; auto.
Qed.

Lemma saveCache_evolui (s : estado) : evolui s (saveCache s).
Proof.
  unfold saveCache.
  destruct (negb (cacheEnabled s) || (size (memoryCache s) =? 0)%nat);
    [apply evolui_refl|].
  now apply (evolui_neutro _ _ []).
Qed.

Lemma processarLotes_evolui (p : preparo) (indices : list nat) :
  evolui (ex_estado (pr_execucao p))
    (ex_estado (processarLotes provedor p indices)).
Proof.
  apply processarLotes_R.
  - apply evolui_refl.
  - apply evolui_trans.
  - apply processarCliente_evolui.
  - intros ids n s. now apply (evolui_neutro _ _ []).
  - apply saveCache_evolui.
  - intros ms s. now apply (evolui_neutro _ _ [EvEspera ms]).
Qed.

Lemma saveProgress_cache (ids : list Z) (n : nat) (s : estado) :
  cache_cresce s (saveProgress ids n s).
Proof. now apply cache_cresce_neutro. Qed.

Lemma sleep_cache (ms : Z) (s : estado) : cache_cresce s (sleep ms s).
Proof. now apply cache_cresce_neutro. Qed.

Lemma processarLotes_cache (p : preparo) (indices : list nat) :
  cache_cresce (ex_estado (pr_execucao p))
    (ex_estado (processarLotes provedor p indices)).
Proof.
  apply (processarLotes_R provedor cache_cresce cache_cresce_refl
           cache_cresce_trans processarCliente_cache saveProgress_cache
           saveCache_cache sleep_cache).
Qed.

(** The statistics when the loop over batches starts. *)
Lemma preparar_stats (clientes : list cliente) (resume : bool) (s : estado) :
  stats (ex_estado (pr_execucao (preparar clientes resume s)))
  = reset_stats (stats s) (length clientes) (clock s)
  /\ trace (ex_estado (pr_execucao (preparar clientes resume s))) = trace s.
Proof.
  unfold preparar, loadCache. cbn.
  destruct (cacheEnabled s), (cacheFile s), resume; cbn;
    try destruct (progressFile s); cbn; split; reflexivity.
Qed.

(** C10.  In one run of [processarClientesOtimizado] the statistics start
    from the reset counters and advance one processed record at a time:
    between the statistics handed to [onProgress] after one record and
    after the next, [processed] and exactly one of [success], [errors] and
    [cached] grow by one (a lookup that was retried tallies its one
    terminal error).  So after each record
    [processed = success + errors + cached], the counters never decrease,
    and the final statistics are those after the last record with the end
    time set. *)
Theorem stats_de_uma_execucao
    (clientes : list cliente) (resume : bool) (s : estado) :
  let s' := snd (processarClientesOtimizado provedor clientes resume s) in
  let st0 := reset_stats (stats s) (length clientes) (clock s) in
  exists novos fim,
    trace s' = novos ++ trace s
    /\ cadeia st0 (fotografias novos) fim
    /\ stats s' = set_endTime (clock s') fim
    /\ Forall equilibrado (st0 :: fotografias novos)
    /\ equilibrado (stats s')
    /\ StronglySorted contadores_le (st0 :: fotografias novos)
    /\ Forall (fun x => contadores_le x (stats s')) (st0 :: fotografias novos)
    /\ processed (stats s') = length (fotografias novos).
Proof.
  intros s' st0. subst s'. unfold processarClientesOtimizado. cbn [snd].
  set (p := preparar clientes resume s).
  destruct (processarLotes_evolui p (indices_de_lote p)) as (novos & Htr & Hc).
  destruct (preparar_stats clientes resume s) as [Hst0 Htr0].
  fold p in Hst0, Htr0. rewrite Hst0 in Hc. rewrite Htr0 in Htr.
  set (s1 := ex_estado (processarLotes provedor p (indices_de_lote p))) in *.
  fold st0 in Hc.
  assert (Heq0 : equilibrado st0) by reflexivity.
  destruct (cadeia_equilibrado _ _ _ Heq0 Hc) as [Hall Hfim].
  destruct (cadeia_le _ _ _ Hc) as (_ & _ & Hsorted & Hend).
  pose proof (cadeia_processed _ _ _ Hc) as Hproc.
  exists novos, (stats s1).
  assert (Hsave : forall s2, trace (saveCache s2) = trace s2
                             /\ stats (saveCache s2) = stats s2
                             /\ clock (saveCache s2) = clock s2).
  { intros s2. unfold saveCache.
    destruct (negb (cacheEnabled s2) || (size (memoryCache s2) =? 0)%nat);
      repeat split; reflexivity. }
  destruct (Hsave (set_stats (set_endTime (clock s1) (stats s1)) s1))
    as (-> & -> & ->).
  cbn [trace stats clock set_stats].
  split; [exact Htr|]. split; [exact Hc|]. split; [reflexivity|].
  split; [constructor; assumption|]. split; [exact Hfim|].
  split; [exact Hsorted|]. split; [exact Hend|]. exact Hproc.
Qed.

Lemma preparar_estado (clientes : list cliente) (resume : bool) (s : estado) :
  ex_estado (pr_execucao (preparar clientes resume s))
  = loadCache (set_stats (reset_stats (stats s) (length clientes) (clock s)) s).
Proof.
  unfold preparar. cbn.
  destruct resume; [|reflexivity].
  destruct (loadProgress _); reflexivity.
Qed.

(** A lookup through the cache that returns [null] leaves the map as it
    was. *)
Lemma buscarCoordenadasComCache_null (endereco : string) (s : estado) :
  fst (buscarCoordenadasComCache provedor endereco s) = None ->
  memoryCache (snd (buscarCoordenadasComCache provedor endereco s))
  = memoryCache s.
Proof.
  destruct (buscarCoordenadasComCache_efeito endereco s)
    as (r & s' & novos & Hrun & _ & _ & _ & _ & Hcases).
  rewrite Hrun. cbn. intros ->.
  destruct Hcases as [(_ & _ & Hmc & _)
                     |[(_ & (x & Hx & _) & _)|(_ & _ & _ & Hmc)]];
    [exact Hmc|discriminate Hx|exact Hmc].
Qed.


(** A run ends with the cache file that it wrote. *)
Lemma execucao_gravada (clientes : list cliente) (resume : bool) (s : estado) :
  cache_gravado (snd (processarClientesOtimizado provedor clientes resume s)).
Proof.
  unfold processarClientesOtimizado. cbn [snd].
  set (s1 := set_stats _ _). unfold cache_gravado, saveCache.
  destruct (cacheEnabled s1) eqn:Hon; cbn [negb orb].
  - destruct (size (memoryCache s1) =? 0)%nat eqn:Hsz.
    + intros _ Hne. exfalso. apply Hne.
      apply Nat.eqb_eq in Hsz. now apply map_size_empty_iff.
    + intros _ _. reflexivity.
  - intros H. rewrite Hon in H. discriminate H.
Qed.







End Pipeline_props.

(** ** The scenario of five records with one repeated address *)

Lemma taxaSucesso_eq (s : estado) (cs : list cliente) :
  taxaSucesso (resumo (gerarRelatorioDetalhado s cs))
  = pct_toFixed1 (geocodificados (resumo (gerarRelatorioDetalhado s cs)))
      (length cs) +:+ "%".
Proof. reflexivity. Qed.

(** C2, as the code has it.  Five records whose second and fourth addresses
    are ["Main St, City"] and ["main   st, city"], a fresh service, a
    provider that finds candidates with usable coordinates for every
    query: the run sends exactly four requests, one per distinct key, counts
    one cache hit in [stats.cached], and the report gives five geocoded
    records and the success rate ["100.0%"]. *)
Theorem cenario_cinco_clientes
    (cand : nat -> string -> candidato)
    (outros : nat -> string -> list candidato) :
  (forall n q, number_truthy (cand_lat (cand n q)) = true
               /\ number_truthy (cand_lon (cand n q)) = true) ->
  let run := processarClientesOtimizado (provedor_que_resolve cand outros)
               cinco_clientes true servico_novo in
  let r := resumo (gerarRelatorioDetalhado (snd run) (fst run)) in
  requests (snd run) = 4%nat
  /\ enderecos_pedidos (trace (snd run))
     = [ "Avenida Paulista, Sao Paulo"; "Main St, City";
         "Rua Oscar Freire, Sao Paulo"; "Copacabana, Rio de Janeiro" ]%string
  /\ cached (stats (snd run)) = 1%nat
  /\ success (stats (snd run)) = 4%nat
  /\ errors (stats (snd run)) = 0%nat
  /\ rs_total r = 5%nat
  /\ geocodificados r = 5%nat
  /\ taxaSucesso r = "100.0%"%string.
Proof.
  intros H run r.
  assert (Hlat : forall n q, number_truthy (cand_lat (cand n q)) = true)
    by apply H.
  assert (Hlon : forall n q, number_truthy (cand_lon (cand n q)) = true)
    by apply H.
  split; [vm_compute; reflexivity|].
  split; [vm_compute; reflexivity|].
  split; [vm_compute; reflexivity|].
  split; [vm_compute; reflexivity|].
  split; [vm_compute; reflexivity|].
  split; [vm_compute; reflexivity|].
  assert (Hgeo : geocodificados r = 5%nat).
  { subst r run. vm_compute in Hlat, Hlon. vm_compute.
    rewrite !Hlat, !Hlon. reflexivity. }
  split; [exact Hgeo|].
  subst r. rewrite taxaSucesso_eq, Hgeo. vm_compute. reflexivity.
Qed.

Lemma cenario_cinco_clientes_witness :
  (forall n q, number_truthy (cand_lat (cand_sp n q)) = true
               /\ number_truthy (cand_lon (cand_sp n q)) = true)
  /\ requests (snd execucao_cinco) = 4%nat
  /\ cached (stats (snd execucao_cinco)) = 1%nat
  /\ geocodificados resumo_cinco = 5%nat
  /\ taxaSucesso resumo_cinco = "100.0%"%string.
Proof.
  assert (H : forall n q, number_truthy (cand_lat (cand_sp n q)) = true
                          /\ number_truthy (cand_lon (cand_sp n q)) = true)
    by (intros n q; split; reflexivity).
  split; [exact H|].
  destruct (cenario_cinco_clientes cand_sp outros_sp H)
    as (Hreq & _ & Hc & _ & _ & _ & Hgeo & Htaxa).
  split; [exact Hreq|]. split; [exact Hc|]. split; [exact Hgeo|exact Htaxa].
Defined.

(** C2 as stated fails on the report: the rate is printed with its percent
    sign, and no record carries the [cached] mark that [cacheHits]
    counts. *)
Lemma cenario_relatorio_diverge :
  (taxaSucesso resumo_cinco = "100.0%"%string
   /\ cacheHits resumo_cinco = 0%nat)
  /\ ~ (requests (snd execucao_cinco) = 4%nat
        /\ cached (stats (snd execucao_cinco)) = 1%nat
        /\ taxaSucesso resumo_cinco = "100.0"%string
        /\ cacheHits resumo_cinco = 1%nat).
Proof.
  split.
  - split; vm_compute; reflexivity.
  - intros (_ & _ & _ & Hhits). vm_compute in Hhits. discriminate Hhits.
Qed.

(** ** The mark of a cache hit *)

Section Marca.

Variable provedor : nat -> string -> resposta.

Lemma processarCliente_sem_marca (batchIndex totalBatches : nat)
    (e : execucao) (i : nat) :
  execucao_sem_marca e ->
  execucao_sem_marca (processarCliente provedor batchIndex totalBatches e i).
Proof.
  intros [Hcs Hm]. unfold processarCliente.
  destruct (ex_clientes e !! i) as [c|] eqn:Hi; [|split; assumption].
  destruct (set_has (ex_processedIds e) (cli_id c)); [split; assumption|].
  destruct (buscarCoordenadasComCache_efeito provedor (cli_endereco c)
              (ex_estado e))
    as (r & s' & novos & Hrun & _ & _ & _ & _ & Hcases).
  rewrite Hrun.
  assert (Hc : cli_cached c = false).
  { unfold sem_marca in Hcs. rewrite Forall_lookup in Hcs. exact (Hcs i c Hi). }
  assert (Hr : forall x, r = Some x -> res_cached x = false).
  { intros x ->.
    destruct Hcases as [(Hk & _)|[(_ & (y & Hy & Hfalse & _) & _)|(_ & Hn & _)]].
    - exact (Hm _ _ Hk).
    - inversion Hy; subst. exact Hfalse.
    - discriminate Hn. }
  split; cbn.
  - apply Forall_insert; [exact Hcs|].
    destruct r as [x|]; cbn; [apply Hr; reflexivity|exact Hc].
  - destruct Hcases as [(_ & _ & -> & _)
                       |[(_ & (y & -> & Hfalse & ->) & _)|(_ & _ & _ & ->)]];
      try exact Hm.
    destruct (cacheEnabled (ex_estado e)); [|exact Hm].
    intros k x Hkx.
    destruct (decide (getCacheKey (cli_endereco c) = k)) as [<-|Hne].
    + rewrite lookup_insert_eq in Hkx. inversion Hkx; subst. exact Hfalse.
    + rewrite lookup_insert_ne in Hkx by exact Hne. exact (Hm _ _ Hkx).
Qed.

Lemma processarLote_sem_marca (pendentes : list nat) (totalBatches : nat)
    (e : execucao) (batchIndex : nat) :
  execucao_sem_marca e ->
  execucao_sem_marca (processarLote provedor pendentes totalBatches e batchIndex).
Proof.
  intros He. unfold processarLote.
  assert (H1 : forall l e0, execucao_sem_marca e0 ->
             execucao_sem_marca
               (foldl (processarCliente provedor batchIndex totalBatches) e0 l)).
  { induction l as [|i l IH]; intros e0 H0; cbn; [exact H0|].
    apply IH, processarCliente_sem_marca, H0. }
  specialize (H1 (lote_de pendentes (Pos.to_nat (batchSize (ex_estado e)))
                    batchIndex) e He).
  destruct H1 as [Hcs Hm]. split; cbn [ex_clientes ex_estado]; [exact Hcs|].
  set (e1 := foldl _ e _) in *.
  assert (Hsave : memoryCache
                    (saveCache (saveProgress (ex_processedIds e1)
                                  (batchIndex + 1) (ex_estado e1)))
                  = memoryCache (ex_estado e1)).
  { unfold saveCache. destruct (_ || _); reflexivity. }
  destruct (batchIndex <? totalBatches - 1)%nat; cbn; rewrite Hsave; exact Hm.
Qed.

(** No run sets the mark: on records without it, with a cache and a cache
    file whose objects are without it (as the service writes them), every
    record ends without the mark, however many were served from the cache,
    and the report counts no cache hit. *)
Lemma execucao_nunca_marca
    (clientes : list cliente) (resume : bool) (s : estado) :
  sem_marca clientes ->
  cache_sem_marca (memoryCache s) ->
  (forall f, cacheFile s = Some f -> cache_sem_marca f) ->
  let run := processarClientesOtimizado provedor clientes resume s in
  sem_marca (fst run)
  /\ cacheHits (resumo (gerarRelatorioDetalhado (snd run) (fst run))) = 0%nat
  /\ com_cache (detalhes (gerarRelatorioDetalhado (snd run) (fst run))) = [].
Proof.
  intros Hcs Hm Hf run.
  assert (Hfinal : sem_marca (fst run)).
  { subst run. unfold processarClientesOtimizado. cbn [fst].
    set (p := preparar clientes resume s).
    assert (H0 : execucao_sem_marca (pr_execucao p)).
    { subst p. unfold preparar. cbn.
      assert (Hload : cache_sem_marca
                        (memoryCache
                           (loadCache
                              (set_stats (reset_stats (stats s) (length clientes)
                                            (clock s)) s)))).
      { unfold loadCache. cbn. destruct (cacheEnabled s); [|exact Hm].
        destruct (cacheFile s) as [f|] eqn:Hfile; [|exact Hm].
        cbn. intros k x Hkx. apply lookup_union_Some_raw in Hkx.
        destruct Hkx as [Hkx|[_ Hkx]]; [exact (Hf f eq_refl _ _ Hkx)|].
        exact (Hm _ _ Hkx). }
      destruct resume; [destruct (loadProgress _)|]; split; assumption. }
    unfold processarLotes. revert H0. generalize (pr_execucao p).
    induction (indices_de_lote p) as [|b l IH]; intros e H0; cbn.
    - apply H0.
    - apply IH, processarLote_sem_marca, H0. }
  assert (Hnil : List.filter cli_cached (fst run) = []).
  { induction Hfinal as [|c l Hc _ IH]; [reflexivity|].
    cbn. rewrite Hc. exact IH. }
  split; [exact Hfinal|].
  unfold gerarRelatorioDetalhado. cbn [resumo cacheHits detalhes com_cache].
  rewrite Hnil. split; reflexivity.
Qed.

End Marca.

(** C3 at the five records: the fourth record is served from the cache
    (four requests, none for its address, and [stats.cached] is 1), yet it
    ends with [cached] false like the records that were looked up, so the
    report counts no cache hit. *)
Theorem cache_hit_sem_marca
    (cand : nat -> string -> candidato)
    (outros : nat -> string -> list candidato) :
  let run := processarClientesOtimizado (provedor_que_resolve cand outros)
               cinco_clientes true servico_novo in
  let r := gerarRelatorioDetalhado (snd run) (fst run) in
  cached (stats (snd run)) = 1%nat
  /\ enderecos_pedidos (trace (snd run))
     = [ "Avenida Paulista, Sao Paulo"; "Main St, City";
         "Rua Oscar Freire, Sao Paulo"; "Copacabana, Rio de Janeiro" ]%string
  /\ List.map cli_geocoded (fst run) = [true; true; true; true; true]
  /\ List.map cli_cached (fst run) = [false; false; false; false; false]
  /\ cacheHits (resumo r) = 0%nat
  /\ com_cache (detalhes r) = [].
Proof.
  intros run r.
  split; [vm_compute; reflexivity|].
  split; [vm_compute; reflexivity|].
  split; [vm_compute; reflexivity|].
  split; [vm_compute; reflexivity|].
  split; vm_compute; reflexivity.
Qed.

(** ** Resuming after a kill *)

(** C1 at six records in batches of two, every address resolved: the
    uninterrupted run resolves the six records; killed after its first
    batch and resumed, the pipeline drops the two processed records from
    the pending list and still starts at batch index 1 of the shorter
    list, so records 3 and 4 are never looked up.  Killed after the second
    batch, it leaves records 5 and 6. *)
Theorem retomada_pula_registros :
  atribuicao (fst (processarClientesOtimizado provedor_sp seis_clientes true
                     (constructor opcoes_lote_2 0 hora_de_brasilia None None)))
  = [(1, true); (2, true); (3, true); (4, true); (5, true); (6, true)]
  /\ atribuicao (fst (interromper_e_retomar provedor_sp opcoes_lote_2 1
                        seis_clientes))
     = [(1, true); (2, true); (3, false); (4, false); (5, true); (6, true)]
  /\ atribuicao (fst (interromper_e_retomar provedor_sp opcoes_lote_2 2
                        seis_clientes))
     = [(1, true); (2, true); (3, true); (4, true); (5, false); (6, false)].
Proof.
  split; [vm_compute; reflexivity|].
  split; vm_compute; reflexivity.
Qed.

(** ** The properties at concrete services *)

Lemma buscarCoordenadas_retry_bound_witness :
  1 <= maxRetries servico_novo
  /\ (forall k, (requests servico_novo <= k)%nat ->
                provedor_fora_do_ar k ("Rua Sem Resposta, 1" +:+ ", Brasil")
                = ErroTransporte)
  /\ exists s' novos,
       buscarCoordenadas provedor_fora_do_ar "Rua Sem Resposta, 1" 1
         servico_novo = (None, s')
       /\ trace s' = novos ++ trace servico_novo
       /\ Z.of_nat (conta_pedidos novos) = 3
       /\ Z.of_nat (conta_esperas novos) = 2
       /\ clock s' = 10000
       /\ errors (stats s') = 1%nat.
Proof.
  assert (H1 : 1 <= maxRetries servico_novo) by (cbn; lia).
  assert (H2 : forall k, (requests servico_novo <= k)%nat ->
                         provedor_fora_do_ar k
                           ("Rua Sem Resposta, 1" +:+ ", Brasil")
                         = ErroTransporte) by reflexivity.
  split; [exact H1|]. split; [exact H2|].
  destruct (buscarCoordenadas_retry_bound provedor_fora_do_ar
              "Rua Sem Resposta, 1" servico_novo H1 H2)
    as (s' & novos & Hrun & Htr & _ & Hp & He & _ & Hclk & Herr & _).
  exists s', novos.
  split; [exact Hrun|]. split; [exact Htr|]. split; [exact Hp|].
  split; [exact He|]. split; [exact Hclk|exact Herr].
Defined.

Lemma buscarCoordenadas_sem_candidatos_witness :
  resposta_de provedor_sem_resultados "Rua Inexistente, 0" servico_novo
  = Dados []
  /\ exists s',
       buscarCoordenadas provedor_sem_resultados "Rua Inexistente, 0" 1
         servico_novo = (None, s')
       /\ trace s' = [EvPedido "Rua Inexistente, 0" 1]
       /\ requests s' = 1%nat
       /\ errors (stats s') = 1%nat.
Proof.
  assert (H : resposta_de provedor_sem_resultados "Rua Inexistente, 0"
                servico_novo = Dados [])
    by reflexivity.
  split; [exact H|].
  destruct (buscarCoordenadas_sem_candidatos provedor_sem_resultados
              "Rua Inexistente, 0" 1 servico_novo H)
    as (s' & Hrun & Htr & Hreq & _ & Herr & _).
  exists s'. split; [exact Hrun|]. split; [exact Htr|].
  split; [exact Hreq|exact Herr].
Defined.



(** * Further properties of the service *)

(** ** The cache key: fixed points and blank addresses *)

Lemma palavras_vazio (s : string) : palavras s = [] <-> em_branco s.
Proof.
  unfold em_branco. induction s as [|a r IH]; [cbn; tauto|].
  rewrite palavras_cons. cbn [todos].
  destruct (Str.is_space a) eqn:Ha.
  - rewrite IH. tauto.
  - split; [|intros [H _]; discriminate H].
    destruct (comeca_palavra r); [destruct (palavras r)|]; discriminate.
Qed.

Lemma juntar_vazio (ws : list string) :
  Forall (fun w => w <> EmptyString) ws ->
  juntar ws = EmptyString -> ws = [].
Proof.
  intros H. destruct ws as [|w r]; [reflexivity|].
  inversion H as [|? ? Hw _]; subst.
  destruct w as [|c w]; [contradiction|].
  cbn. destruct r; discriminate.
Qed.

Lemma toLowerCase_em_branco (s : string) :
  em_branco (Str.toLowerCase s) <-> em_branco s.
Proof.
  unfold em_branco. induction s as [|a r IH]; [cbn; tauto|].
  cbn [Str.toLowerCase todos]. rewrite is_space_lower, IH. tauto.
Qed.

(** X1.  The key is empty exactly when the address is blank (empty, or
    white space only): all blank addresses share the key [""], and no other
    address has it. *)
Theorem getCacheKey_em_branco (endereco : string) :
  getCacheKey endereco = EmptyString <-> em_branco endereco.
Proof.
  rewrite getCacheKey_normalize. unfold normalize.
  rewrite <- toLowerCase_em_branco, <- palavras_vazio. split.
  - apply juntar_vazio.
    eapply Forall_impl; [apply (palavras_todos (fun _ => True))|].
    + clear. induction (Str.toLowerCase endereco); cbn; auto.
    + cbn. tauto.
  - intros ->. reflexivity.
Qed.

Lemma toLowerCase_fixo (s : string) :
  todos (fun c => Str.lower c = c) s -> Str.toLowerCase s = s.
Proof.
  induction s as [|a r IH]; [reflexivity|].
  intros [Ha Hr]. cbn [Str.toLowerCase]. now rewrite Ha, IH.
Qed.

Lemma todos_app (P : ascii -> Prop) (s t : string) :
  todos P s -> todos P t -> todos P (s +:+ t).
Proof.
  intros Hs Ht. induction s as [|a r IH]; [exact Ht|].
  destruct Hs as [Ha Hr]. rewrite append_cons. split; auto.
Qed.

Lemma juntar_todos (P : ascii -> Prop) (ws : list string) :
  P " "%char -> Forall (todos P) ws -> todos P (juntar ws).
Proof.
  intros Hsp H. induction H as [|w r Hw _ IH]; [exact I|].
  cbn [juntar]. destruct r as [|w' r']; [exact Hw|].
  apply todos_app; [exact Hw|]. split; [exact Hsp|exact IH].
Qed.

(** The words of a word followed by a SPACE and more text. *)
Lemma palavras_palavra_espaco (w resto : string) :
  w <> EmptyString ->
  todos (fun c => Str.is_space c = false) w ->
  palavras (w +:+ String " " resto) = w :: palavras resto.
Proof.
  induction w as [|a r IH]; [contradiction|].
  intros _ [Ha Hr]. rewrite append_cons, palavras_cons, Ha.
  destruct r as [|b r'].
  - rewrite append_nil_l. cbn [comeca_palavra].
    replace (Str.is_space " ") with true by reflexivity. cbn [negb].
    rewrite palavras_cons.
    replace (Str.is_space " ") with true by reflexivity. reflexivity.
  - rewrite IH by (discriminate || exact Hr).
    rewrite append_cons. cbn [comeca_palavra].
    destruct Hr as [Hb _]. rewrite Hb. reflexivity.
Qed.

Lemma palavras_uma (w : string) :
  w <> EmptyString ->
  todos (fun c => Str.is_space c = false) w ->
  palavras w = [w].
Proof.
  induction w as [|a r IH]; [contradiction|].
  intros _ [Ha Hr]. rewrite palavras_cons, Ha.
  destruct r as [|b r']; [reflexivity|].
  rewrite IH by (discriminate || exact Hr).
  cbn [comeca_palavra]. destruct Hr as [Hb _]. now rewrite Hb.
Qed.

Lemma palavras_juntar (ws : list string) :
  Forall (fun w => w <> EmptyString
                   /\ todos (fun c => Str.is_space c = false) w) ws ->
  palavras (juntar ws) = ws.
Proof.
  intros H. induction H as [|w r [Hw1 Hw2] _ IH]; [reflexivity|].
  cbn [juntar]. destruct r as [|w' r'].
  - now apply palavras_uma.
  - rewrite palavras_palavra_espaco by assumption. now rewrite IH.
Qed.

(** X2.  A key is its own key: [getCacheKey] is idempotent, so a key read
    back from the cache file can be used as an address without changing
    the entry it points to. *)
Theorem getCacheKey_idempotente (endereco : string) :
  getCacheKey (getCacheKey endereco) = getCacheKey endereco.
Proof.
  rewrite !getCacheKey_normalize. unfold normalize.
  set (ws := palavras (Str.toLowerCase endereco)).
  assert (H : Forall palavra_de_chave ws)
    by apply palavras_todos, toLowerCase_todos.
  rewrite toLowerCase_fixo.
  - rewrite palavras_juntar; [reflexivity|].
    eapply Forall_impl; [exact H|]. intros w [Hw1 Hw2]. split; [exact Hw1|].
    eapply todos_impl; [|exact Hw2]. cbn. tauto.
  - apply juntar_todos; [reflexivity|].
    eapply Forall_impl; [exact H|]. intros w [_ Hw2].
    eapply todos_impl; [|exact Hw2]. cbn. tauto.
Qed.

(** ** The lookup client under any provider *)

Section Cliente_geral.

Variable provedor : nat -> string -> resposta.

(** Whatever the provider answers, a lookup is a series of failed attempts
    followed by one last attempt: its events have the shape of
    [trace_de_falhas], and it leaves the configuration and the files
    alone. *)
Lemma buscarCoordenadas_forma (endereco : string) (n : nat) :
  forall (tentativa : Z) (s : estado),
    Z.to_nat (maxRetries s - tentativa) = n ->
    exists r s' k,
      buscarCoordenadas provedor endereco tentativa s = (r, s')
      /\ (k <= n)%nat
      /\ trace s' = trace_de_falhas endereco (retryDelay s) tentativa k ++ trace s
      /\ requests s' = (requests s + S k)%nat
      /\ clock s' = clock s + Z.of_nat k * retryDelay s
      /\ maxRetries s' = maxRetries s
      /\ retryDelay s' = retryDelay s
      /\ rateLimitDelay s' = rateLimitDelay s
      /\ batchSize s' = batchSize s
      /\ progressFile s' = progressFile s.
Proof.
  induction n as [n IH] using lt_wf_ind. intros tentativa s Hn.
  rewrite buscarCoordenadas_eq.
  assert (Hfim : forall (s1 : estado) (r : valor),
             s1 = tally_error (pedido endereco tentativa s)
             \/ s1 = tally_success (pedido endereco tentativa s) ->
             exists r' s' k,
               (r, s1) = (r', s') /\ (k <= n)%nat
               /\ trace s' = trace_de_falhas endereco (retryDelay s) tentativa k
                             ++ trace s
               /\ requests s' = (requests s + S k)%nat
               /\ clock s' = clock s + Z.of_nat k * retryDelay s
               /\ maxRetries s' = maxRetries s
               /\ retryDelay s' = retryDelay s
               /\ rateLimitDelay s' = rateLimitDelay s
               /\ batchSize s' = batchSize s
               /\ progressFile s' = progressFile s).
  { intros s1 r Hs1. exists r, s1, 0%nat. split; [reflexivity|].
    split; [lia|].
    destruct Hs1 as [-> | ->]; cbn;
      (split; [reflexivity|]); (split; [lia|]); (split; [lia|]);
      (split; [reflexivity|]); (split; [reflexivity|]);
      (split; [reflexivity|]); split; reflexivity. }
  destruct (resposta_de provedor endereco s) as [|[|c l]].
  - destruct (tentativa <? maxRetries s) eqn:Hlt; [|apply Hfim; now left].
    apply Z.ltb_lt in Hlt.
    destruct (IH (Z.to_nat (maxRetries s - (tentativa + 1))) ltac:(lia)
                (tentativa + 1)
                (sleep (retryDelay s) (pedido endereco tentativa s))
                eq_refl)
      as (r & s' & k & Hrun & Hk & Htr & Hreq & Hclk & Hmr & Hrd & Hrl & Hbs & Hpf).
    exists r, s', (S k). split; [exact Hrun|]. cbn in *.
    split; [lia|].
    split; [rewrite Htr, <- app_assoc; reflexivity|].
    split; [lia|]. split; [lia|].
    split; [exact Hmr|]. split; [exact Hrd|]. split; [exact Hrl|].
    split; [exact Hbs|exact Hpf].
  - apply Hfim; now left.
  - apply Hfim; now right.
Qed.


(** A lookup whose first [k] attempts fail in transport and whose next
    attempt finds candidates. *)
Lemma buscarCoordenadas_recupera (endereco : string) (c : candidato)
    (l : list candidato) (k : nat) :
  forall (tentativa : Z) (s : estado),
    (forall j, (j < k)%nat ->
               provedor (requests s + j)%nat (endereco +:+ ", Brasil")
               = ErroTransporte) ->
    provedor (requests s + k)%nat (endereco +:+ ", Brasil") = Dados (c :: l) ->
    tentativa + Z.of_nat k <= maxRetries s ->
    exists s',
      buscarCoordenadas provedor endereco tentativa s
      = (Some (resultado_de c), s')
      /\ trace s' = trace_de_falhas endereco (retryDelay s) tentativa k ++ trace s
      /\ requests s' = (requests s + S k)%nat
      /\ stats s' = inc_success (stats s)
      /\ memoryCache s' = memoryCache s.
Proof.
  induction k as [|k IH]; intros tentativa s Hfail Hok Hmax;
    rewrite buscarCoordenadas_eq; unfold resposta_de.
  - rewrite Nat.add_0_r in Hok. rewrite Hok.
    eexists. split; [reflexivity|]. cbn.
    split; [reflexivity|]. split; [lia|]. split; reflexivity.
  - pose proof (Hfail 0%nat ltac:(lia)) as H0. rewrite Nat.add_0_r in H0.
    rewrite H0.
    replace (tentativa <? maxRetries s) with true
      by (symmetry; apply Z.ltb_lt; lia).
    destruct (IH (tentativa + 1)
                (sleep (retryDelay s) (pedido endereco tentativa s)))
      as (s' & Hrun & Htr & Hreq & Hst & Hmc).
    + cbn. intros j Hj.
      replace (S (requests s + j))%nat with (requests s + S j)%nat by lia.
      apply Hfail. lia.
    + cbn. replace (S (requests s + k))%nat with (requests s + S k)%nat by lia.
      exact Hok.
    + cbn. lia.
    + exists s'. split; [exact Hrun|]. cbn in *.
      split; [rewrite Htr, <- app_assoc; reflexivity|].
      split; [lia|]. split; [exact Hst|exact Hmc].
Qed.

(** X4.  A lookup recovers from transient failures: when the first [k]
    requests fail in transport, with [k < maxRetries], and the next one
    finds candidates, [buscarCoordenadas] returns the object built from the
    best-ranked candidate after [k + 1] requests and [k] waits; it counts
    one success and no error for the failed attempts. *)
Theorem buscarCoordenadas_sucesso_apos_falhas
    (endereco : string) (c : candidato) (l : list candidato) (k : nat)
    (s : estado) :
  Z.of_nat k < maxRetries s ->
  (forall j, (j < k)%nat ->
             provedor (requests s + j)%nat (endereco +:+ ", Brasil")
             = ErroTransporte) ->
  provedor (requests s + k)%nat (endereco +:+ ", Brasil") = Dados (c :: l) ->
  exists s',
    buscarCoordenadas provedor endereco 1 s = (Some (resultado_de c), s')
    /\ trace s' = trace_de_falhas endereco (retryDelay s) 1 k ++ trace s
    /\ requests s' = (requests s + S k)%nat
    /\ success (stats s') = S (success (stats s))
    /\ errors (stats s') = errors (stats s).
Proof.
  intros Hk Hfail Hok.
  destruct (buscarCoordenadas_recupera endereco c l k 1 s Hfail Hok ltac:(lia))
    as (s' & Hrun & Htr & Hreq & Hst & _).
  exists s'. rewrite Hst. cbn.
  split; [exact Hrun|]. split; [exact Htr|]. split; [exact Hreq|].
  split; reflexivity.
Qed.

End Cliente_geral.

(** ** The cache in front of the lookup client *)

Section Cache_geral.

Variable provedor : nat -> string -> resposta.

(** A lookup through the cache is a hit, which touches the hit counter
    only, or a miss, which is a lookup as [buscarCoordenadas_forma] has
    it. *)
Lemma buscarCoordenadasComCache_forma (endereco : string) (s : estado) :
  exists r s',
    buscarCoordenadasComCache provedor endereco s = (r, s')
    /\ maxRetries s' = maxRetries s
    /\ cacheEnabled s' = cacheEnabled s
    /\ cacheFile s' = cacheFile s
    /\ ((memoryCache s !! getCacheKey endereco = Some r
         /\ trace s' = trace s
         /\ requests s' = requests s
         /\ stats s' = inc_cached (stats s)
         /\ memoryCache s' = memoryCache s)
        \/ (memoryCache s !! getCacheKey endereco = None
            /\ (exists k,
                   trace s' = trace_de_falhas endereco (retryDelay s) 1 k
                              ++ trace s
                   /\ requests s' = (requests s + S k)%nat
                   /\ (S k <= max_tentativas s)%nat)
            /\ (stats s' = inc_success (stats s)
                \/ stats s' = inc_errors (stats s))
            /\ (memoryCache s' = memoryCache s
                \/ (cacheEnabled s = true
                    /\ exists x, r = Some x
                                 /\ memoryCache s' =
                                    <[getCacheKey endereco := Some x]>
                                      (memoryCache s))))).
Proof.
  unfold buscarCoordenadasComCache.
  destruct (memoryCache s !! getCacheKey endereco) as [v|] eqn:Hk.
  - exists v, (set_stats (inc_cached (stats s)) s). cbn.
    split; [reflexivity|]. split; [reflexivity|]. split; [reflexivity|].
    split; [reflexivity|]. left.
    split; [reflexivity|]. split; [reflexivity|]. split; [reflexivity|].
    split; reflexivity.
  - destruct (buscarCoordenadas_forma provedor endereco _ 1 s eq_refl)
      as (r & s1 & k & Hrun & Hkn & Htr & Hreq & _ & Hmr & _).
    destruct (buscarCoordenadas_efeito provedor endereco _ 1 s eq_refl)
      as (r' & s1' & novos & Hrun' & _ & _ & Hmc & Hce & Hcf & Hst).
    rewrite Hrun in Hrun'. inversion Hrun'; subst r' s1'. clear Hrun'.
    rewrite Hrun.
    assert (Hlim : (S k <= max_tentativas s)%nat)
      by (unfold max_tentativas; lia).
    assert (Hstats : stats s1 = inc_success (stats s)
                     \/ stats s1 = inc_errors (stats s)).
    { destruct Hst as [(x & _ & _ & H)|[_ H]]; [left|right]; exact H. }
    destruct r as [x|].
    + rewrite Hce. destruct (cacheEnabled s) eqn:Hon.
      * eexists _, _. split; [reflexivity|]. cbn.
        split; [exact Hmr|]. split; [exact Hce|]. split; [exact Hcf|]. right.
        split; [reflexivity|]. split; [exists k; auto|].
        split; [exact Hstats|]. right. split; [reflexivity|].
        exists x. rewrite Hmc. split; reflexivity.
      * eexists _, _. split; [reflexivity|].
        split; [exact Hmr|]. split; [congruence|]. split; [exact Hcf|]. right.
        split; [reflexivity|]. split; [exists k; auto|].
        split; [exact Hstats|]. left. exact Hmc.
    + eexists _, _. split; [reflexivity|].
      split; [exact Hmr|]. split; [exact Hce|]. split; [exact Hcf|]. right.
      split; [reflexivity|]. split; [exists k; auto|].
      split; [exact Hstats|]. left. exact Hmc.
Qed.

(** X5.  Cache de-duplication: once a lookup through the cache has returned
    an object, with the cache enabled, the lookup of any address with the
    same key is a hit: it returns the same object, sends no request, adds
    no event and only counts one more hit. *)
Theorem buscarCoordenadasComCache_repete
    (e1 e2 : string) (s s1 : estado) (r : resultado) :
  cacheEnabled s = true ->
  buscarCoordenadasComCache provedor e1 s = (Some r, s1) ->
  getCacheKey e2 = getCacheKey e1 ->
  buscarCoordenadasComCache provedor e2 s1
  = (Some r, set_stats (inc_cached (stats s1)) s1).
Proof.
  intros Hon Hrun Hkey.
  destruct (buscarCoordenadasComCache_forma e1 s)
    as (r' & s1' & Hrun' & _ & _ & _ & Hcases).
  rewrite Hrun in Hrun'. inversion Hrun'; subst r' s1'. clear Hrun'.
  assert (Hin : memoryCache s1 !! getCacheKey e2 = Some (Some r)).
  { rewrite Hkey.
    destruct Hcases as [(Hk & _ & _ & _ & ->)
                       |(_ & _ & _ & [Hsame|(_ & x & Hx & ->)])].
    - exact Hk.
    - destruct (buscarCoordenadasComCache_efeito provedor e1 s)
        as (r2 & s2 & novos & Hrun2 & _ & _ & _ & _ & Hc2).
      rewrite Hrun in Hrun2. inversion Hrun2; subst r2 s2.
      destruct Hc2 as [(Hk & _)|[(_ & (y & Hy & _ & Hmc) & _)|(_ & Hn & _)]].
      + exact (eq_trans (f_equal (fun m => m !! getCacheKey e1) Hsame) Hk).
      + rewrite Hon in Hmc. rewrite Hmc, lookup_insert_eq. now rewrite Hy.
      + discriminate Hn.
    - inversion Hx; subst x. apply lookup_insert_eq. }
  unfold buscarCoordenadasComCache. rewrite Hin. reflexivity.
Qed.

(** X6.  A lookup that returns [null] leaves the map as it is, and what
    the next lookup of an address with the same key does depends on where
    the [null] came from.  When the key was not in the map, the lookup went
    to the provider and failed, the failure is not remembered, and the next
    lookup goes to the provider again, with at least one request and no
    hit counted.  When the map held [null] under the key (an entry of a
    cache file), the lookup was a hit without a request, and so is the
    next one: it returns [null] and only counts one more hit. *)
Theorem buscarCoordenadasComCache_falha_repete
    (e1 e2 : string) (s s1 : estado) :
  buscarCoordenadasComCache provedor e1 s = (None, s1) ->
  getCacheKey e2 = getCacheKey e1 ->
  memoryCache s1 = memoryCache s
  /\ ((memoryCache s !! getCacheKey e1 = None
       /\ (requests s < requests s1)%nat
       /\ exists r2 s2,
            buscarCoordenadasComCache provedor e2 s1 = (r2, s2)
            /\ (requests s1 < requests s2)%nat
            /\ cached (stats s2) = cached (stats s1))
      \/ (memoryCache s !! getCacheKey e1 = Some None
          /\ requests s1 = requests s
          /\ buscarCoordenadasComCache provedor e2 s1
             = (None, set_stats (inc_cached (stats s1)) s1))).
Proof.
  intros Hrun Hkey.
  assert (Hmc : memoryCache s1 = memoryCache s).
  { pose proof (buscarCoordenadasComCache_null provedor e1 s) as H.
    rewrite Hrun in H. exact (H eq_refl). }
  split; [exact Hmc|].
  destruct (buscarCoordenadasComCache_forma e1 s)
    as (r & s' & Hrun' & _ & _ & _ & Hcases).
  rewrite Hrun in Hrun'. inversion Hrun'; subst r s'. clear Hrun'.
  destruct Hcases as [(Hk & _ & Hreq & _)|(Hk & (k & _ & Hreq & _) & _)].
  - right. split; [exact Hk|]. split; [exact Hreq|].
    unfold buscarCoordenadasComCache. rewrite Hkey, Hmc, Hk. reflexivity.
  - left. split; [exact Hk|]. split; [lia|].
    destruct (buscarCoordenadasComCache_forma e2 s1)
      as (r2 & s2 & Hrun2 & _ & _ & _ & Hcases2).
    exists r2, s2. split; [exact Hrun2|].
    destruct Hcases2 as [(Hk2 & _)|(_ & (k2 & _ & Hreq2 & _) & Hst & _)].
    + rewrite Hkey, Hmc, Hk in Hk2. discriminate Hk2.
    + split; [lia|]. destruct Hst as [-> | ->]; reflexivity.
Qed.

End Cache_geral.

(** ** A whole run: spacing of requests, request budget, disabled cache *)

Lemma livre_espacado (l : list evento) : livre l -> espacado l.
Proof.
  unfold livre, espacado. induction l as [|e l IH]; [reflexivity|].
  destruct e; cbn; [discriminate|exact id|exact IH].
Qed.

Lemma varredura_falhas (endereco : string) (d : Z) (k : nat) :
  forall (tentativa : Z) (tr : list evento),
    varredura false (trace_de_falhas endereco d tentativa k ++ tr)
    = varredura true tr.
Proof.
  induction k as [|k IH]; intros tentativa tr; [reflexivity|].
  cbn [trace_de_falhas]. rewrite <- app_assoc. rewrite IH. reflexivity.
Qed.

Lemma dentro_do_limite_refl (s : estado) : dentro_do_limite s s.
Proof.
  split; [reflexivity|]. exists 0%nat, 0%nat. lia.
Qed.

Lemma dentro_do_limite_trans (s1 s2 s3 : estado) :
  dentro_do_limite s1 s2 -> dentro_do_limite s2 s3 -> dentro_do_limite s1 s3.
Proof.
  intros (Hm1 & a1 & b1 & Hr1 & Hc1 & Hb1) (Hm2 & a2 & b2 & Hr2 & Hc2 & Hb2).
  split; [congruence|].
  exists (a1 + a2)%nat, (b1 + b2)%nat.
  assert (HM : max_tentativas s2 = max_tentativas s1)
    by (unfold max_tentativas; now rewrite Hm1).
  rewrite HM in Hb2. rewrite Nat.mul_add_distr_l. lia.
Qed.

Lemma dentro_do_limite_neutro (s s' : estado) :
  maxRetries s' = maxRetries s ->
  requests s' = requests s ->
  consultados (stats s') = consultados (stats s) ->
  dentro_do_limite s s'.
Proof.
  intros Hm Hr Hc. split; [exact Hm|]. exists 0%nat, 0%nat. lia.
Qed.

Section Execucao_geral.

Variable provedor : nat -> string -> resposta.

Lemma processarCliente_livre (batchIndex totalBatches : nat)
    (e : execucao) (i : nat) :
  livre (trace (ex_estado e)) ->
  livre (trace (ex_estado (processarCliente provedor batchIndex totalBatches
                             e i))).
Proof.
  intros Hl. unfold processarCliente.
  destruct (ex_clientes e !! i) as [c|]; [|exact Hl].
  destruct (set_has (ex_processedIds e) (cli_id c)); [exact Hl|].
  destruct (buscarCoordenadasComCache_forma provedor (cli_endereco c)
              (ex_estado e))
    as (r & s' & Hrun & _ & _ & _ & Hcases).
  rewrite Hrun. unfold livre. cbn.
  destruct Hcases as [(_ & -> & _)|(_ & (k & -> & _) & _)].
  - apply livre_espacado, Hl.
  - rewrite varredura_falhas. exact Hl.
Qed.

Lemma processarLotes_livre (p : preparo) (indices : list nat) :
  livre (trace (ex_estado (pr_execucao p))) ->
  livre (trace (ex_estado (processarLotes provedor p indices))).
Proof.
  apply (processarLotes_R provedor
           (fun s s' => livre (trace s) -> livre (trace s'))).
  - auto.
  - auto.
  - apply processarCliente_livre.
  - intros ids n s H. exact H.
  - intros s H. unfold saveCache. destruct (_ || _); exact H.
  - intros ms s H. unfold livre. cbn. apply livre_espacado, H.
Qed.

(** X7.  A run never sends two requests in a row: started when the service
    has waited since its last request (as a new service has), it leaves a
    trace in which a wait separates any two requests, and it ends having
    waited since its last request, so the same holds for the next run. *)
Theorem processarClientesOtimizado_espacado
    (clientes : list cliente) (resume : bool) (s : estado) :
  livre (trace s) ->
  espacado (trace (snd (processarClientesOtimizado provedor clientes resume s)))
  /\ livre (trace (snd (processarClientesOtimizado provedor clientes resume s))).
Proof.
  intros Hl.
  assert (H : livre (trace (snd (processarClientesOtimizado provedor clientes
                                   resume s)))).
  { unfold processarClientesOtimizado. cbn [snd].
    set (p := preparar clientes resume s).
    assert (H0 : livre (trace (ex_estado (pr_execucao p)))).
    { destruct (preparar_stats clientes resume s) as [_ Htr].
      fold p in Htr. rewrite Htr. exact Hl. }
    pose proof (processarLotes_livre p (indices_de_lote p) H0) as H1.
    unfold saveCache. destruct (_ || _); exact H1. }
  split; [apply livre_espacado, H|exact H].
Qed.

Lemma processarCliente_limite (batchIndex totalBatches : nat)
    (e : execucao) (i : nat) :
  dentro_do_limite (ex_estado e)
    (ex_estado (processarCliente provedor batchIndex totalBatches e i)).
Proof.
  unfold processarCliente.
  destruct (ex_clientes e !! i) as [c|]; [|apply dentro_do_limite_refl].
  destruct (set_has (ex_processedIds e) (cli_id c));
    [apply dentro_do_limite_refl|].
  destruct (buscarCoordenadasComCache_forma provedor (cli_endereco c)
              (ex_estado e))
    as (r & s' & Hrun & Hmr & _ & _ & Hcases).
  rewrite Hrun. split; [exact Hmr|]. cbn.
  destruct Hcases as [(_ & _ & Hreq & Hst & _)
                     |(_ & (k & _ & Hreq & Hk) & Hst & _)].
  - exists 0%nat, 0%nat. rewrite Hreq, Hst. unfold consultados. cbn. lia.
  - exists (S k), 1%nat. rewrite Hreq.
    destruct Hst as [-> | ->]; unfold consultados; cbn; lia.
Qed.

Lemma processarLotes_limite (p : preparo) (indices : list nat) :
  dentro_do_limite (ex_estado (pr_execucao p))
    (ex_estado (processarLotes provedor p indices)).
Proof.
  apply (processarLotes_R provedor dentro_do_limite dentro_do_limite_refl
           dentro_do_limite_trans processarCliente_limite).
  - intros ids n s. now apply dentro_do_limite_neutro.
  - intros s. unfold saveCache.
    destruct (_ || _); now apply dentro_do_limite_neutro.
  - intros ms s. now apply dentro_do_limite_neutro.
Qed.

(** X8.  The request budget of a run: with [n] the number of records that
    went to the provider ([success + errors] of the final statistics), the
    run sends at least [n] and at most [max(1, maxRetries) * n] requests;
    records served from the cache cost none. *)
Theorem processarClientesOtimizado_pedidos
    (clientes : list cliente) (resume : bool) (s : estado) :
  let s' := snd (processarClientesOtimizado provedor clientes resume s) in
  (requests s + consultados (stats s') <= requests s')%nat
  /\ (requests s' <= requests s + max_tentativas s * consultados (stats s'))%nat.
Proof.
  intros s'. subst s'. unfold processarClientesOtimizado. cbn [snd].
  pose proof (processarLotes_limite (preparar clientes resume s)
                (indices_de_lote (preparar clientes resume s))) as H.
  rewrite (preparar_estado clientes resume s) in H.
  set (p := preparar clientes resume s) in *.
  destruct H as (Hm & a & b & Hreq & Hc & Hb).
  assert (Hreq0 : requests (loadCache (set_stats (reset_stats (stats s)
                                         (length clientes) (clock s)) s))
                  = requests s).
  { unfold loadCache. cbn. destruct (cacheEnabled s); [|reflexivity].
    destruct (cacheFile s); reflexivity. }
  assert (Hst0 : consultados (stats (loadCache (set_stats (reset_stats (stats s)
                                         (length clientes) (clock s)) s)))
                 = 0%nat).
  { unfold loadCache. cbn. destruct (cacheEnabled s); [|reflexivity].
    destruct (cacheFile s); reflexivity. }
  assert (HM : max_tentativas (loadCache (set_stats (reset_stats (stats s)
                                         (length clientes) (clock s)) s))
               = max_tentativas s).
  { unfold loadCache, max_tentativas. cbn. destruct (cacheEnabled s);
      [|reflexivity]. destruct (cacheFile s); reflexivity. }
  rewrite Hreq0 in Hreq. rewrite Hst0 in Hc. rewrite HM in Hb.
  set (s1 := ex_estado (processarLotes provedor p (indices_de_lote p))) in *.
  assert (Hfim : forall x, requests (saveCache x) = requests x
                           /\ stats (saveCache x) = stats x).
  { intros x. unfold saveCache. destruct (_ || _); split; reflexivity. }
  destruct (Hfim (set_stats (set_endTime (clock s1) (stats s1)) s1)) as [-> ->].
  cbn [requests stats set_stats].
  change (consultados (set_endTime (clock s1) (stats s1)))
    with (consultados (stats s1)).
  rewrite Hc, Hreq. cbn. lia.
Qed.

Lemma processarCliente_sem_cache (batchIndex totalBatches : nat)
    (e : execucao) (i : nat) :
  continua_sem_cache (ex_estado e)
    (ex_estado (processarCliente provedor batchIndex totalBatches e i)).
Proof.
  intros [Hoff Hvazio]. unfold processarCliente.
  destruct (ex_clientes e !! i) as [c|]; [|repeat split; assumption].
  destruct (set_has (ex_processedIds e) (cli_id c));
    [repeat split; assumption|].
  destruct (buscarCoordenadasComCache_forma provedor (cli_endereco c)
              (ex_estado e))
    as (r & s' & Hrun & _ & Hce & Hcf & Hcases).
  rewrite Hrun. unfold sem_cache. cbn. rewrite Hce, Hcf.
  destruct Hcases as [(Hk & _)|(_ & _ & Hst & Hmc)].
  - rewrite Hvazio, lookup_empty in Hk. discriminate Hk.
  - destruct Hmc as [-> |(Hon & _)]; [|congruence].
    split; [split; assumption|]. split; [reflexivity|].
    destruct Hst as [-> | ->]; reflexivity.
Qed.

Lemma processarLotes_sem_cache (p : preparo) (indices : list nat) :
  continua_sem_cache (ex_estado (pr_execucao p))
    (ex_estado (processarLotes provedor p indices)).
Proof.
  apply (processarLotes_R provedor continua_sem_cache).
  - intros s H. repeat split; apply H.
  - intros s1 s2 s3 H12 H23 H1.
    destruct (H12 H1) as (H2 & Hf2 & Hc2).
    destruct (H23 H2) as (H3 & Hf3 & Hc3).
    split; [exact H3|]. split; congruence.
  - apply processarCliente_sem_cache.
  - intros ids n s H. repeat split; apply H.
  - intros s [Hoff Hv]. unfold saveCache. rewrite Hoff. cbn.
    repeat split; assumption.
  - intros ms s H. repeat split; apply H.
Qed.

(** X9.  With the cache disabled and an empty map (a service constructed
    with [cacheEnabled: false]), a run never has a cache hit, stores
    nothing in the map and neither reads nor writes the cache file. *)
Theorem processarClientesOtimizado_sem_cache
    (clientes : list cliente) (resume : bool) (s : estado) :
  sem_cache s ->
  let s' := snd (processarClientesOtimizado provedor clientes resume s) in
  cached (stats s') = 0%nat
  /\ memoryCache s' = ∅
  /\ cacheFile s' = cacheFile s.
Proof.
  intros [Hoff Hv] s'. subst s'. unfold processarClientesOtimizado. cbn [snd].
  pose proof (processarLotes_sem_cache (preparar clientes resume s)
                (indices_de_lote (preparar clientes resume s))) as H.
  rewrite (preparar_estado clientes resume s) in H.
  set (p := preparar clientes resume s) in *.
  unfold loadCache in H. cbn [cacheEnabled set_stats] in H.
  rewrite Hoff in H.
  destruct (H ltac:(split; assumption)) as ([Hoff' Hv'] & Hf & Hc).
  set (s1 := ex_estado (processarLotes provedor p (indices_de_lote p))) in *.
  unfold saveCache. cbn [cacheEnabled set_stats]. rewrite Hoff'. cbn.
  split; [exact Hc|]. split; [exact Hv'|exact Hf].
Qed.

(** X10.  The cache survives a restart, as JSON keeps it: after a run with
    the cache enabled that ends with a non-empty map, the cache file holds
    the map with [null] for each NaN or infinity, and a new service that
    loads it (cache not disabled) starts with exactly that content; it
    starts with the map itself when the file gives back every value of the
    map as it is. *)
Theorem processarClientesOtimizado_persiste_cache
    (clientes : list cliente) (resume : bool) (s : estado)
    (o : options) (now : Z) (tz : Z -> Z) (pfile : option Progress) :
  cacheEnabled s = true ->
  memoryCache (snd (processarClientesOtimizado provedor clientes resume s))
    <> ∅ ->
  opt_cacheEnabled o <> Some false ->
  let s' := snd (processarClientesOtimizado provedor clientes resume s) in
  cacheFile s' = Some (json_valor <$> memoryCache s')
  /\ memoryCache (loadCache (constructor o now tz (cacheFile s') pfile))
     = json_valor <$> memoryCache s'
  /\ ((forall k v, memoryCache s' !! k = Some v -> json_valor v = v) ->
      memoryCache (loadCache (constructor o now tz (cacheFile s') pfile))
      = memoryCache s').
Proof.
  intros Hon Hne Ho s'.
  assert (Hfile : cacheFile s' = Some (json_valor <$> memoryCache s')).
  { subst s'. revert Hne. unfold processarClientesOtimizado. cbn [snd].
    pose proof (processarLotes_cache provedor (preparar clientes resume s)
                  (indices_de_lote (preparar clientes resume s))) as H.
    rewrite (preparar_estado clientes resume s) in H.
    set (p := preparar clientes resume s) in *.
    destruct H as (Hce & _).
    assert (Hce0 : cacheEnabled (loadCache (set_stats (reset_stats (stats s)
                                   (length clientes) (clock s)) s)) = true).
    { unfold loadCache. cbn. rewrite Hon. destruct (cacheFile s); exact Hon. }
    rewrite Hce0 in Hce.
    set (s1 := ex_estado (processarLotes provedor p (indices_de_lote p))) in *.
    unfold saveCache. cbn [cacheEnabled memoryCache set_stats]. rewrite Hce.
    cbn [negb orb].
    destruct (size (memoryCache s1) =? 0)%nat eqn:Hsz.
    - intros Hne. exfalso. apply Hne. cbn.
      apply Nat.eqb_eq in Hsz. now apply map_size_empty_iff.
    - intros _. reflexivity. }
  assert (Hload : memoryCache (loadCache (constructor o now tz (cacheFile s')
                                            pfile))
                  = json_valor <$> memoryCache s').
  { rewrite Hfile. unfold loadCache, constructor. cbn.
    destruct (opt_cacheEnabled o) as [[|]|]; cbn;
      try (apply (right_id_L ∅ (∪))); contradiction. }
  split; [exact Hfile|]. split; [exact Hload|].
  intros Hest. rewrite Hload. apply map_eq. intros k.
  rewrite lookup_fmap.
  destruct (memoryCache s' !! k) as [v|] eqn:E; [|reflexivity].
  cbn. now rewrite (Hest k v E).
Qed.

End Execucao_geral.

(** ** The set of processed ids and the batches *)

Lemma set_add_elem (ids : list Z) (x y : Z) :
  y ∈ set_add ids x <-> y = x \/ y ∈ ids.
Proof.
  unfold set_add, set_has. case_bool_decide as Hx.
  - split; [auto|]. intros [-> |H]; assumption.
  - rewrite elem_of_app, list_elem_of_singleton. tauto.
Qed.

Lemma set_add_NoDup (ids : list Z) (x : Z) :
  NoDup ids -> NoDup (set_add ids x).
Proof.
  intros H. unfold set_add, set_has. case_bool_decide as Hx; [exact H|].
  apply NoDup_app. split; [exact H|]. split.
  - intros y Hy Hy'. apply list_elem_of_singleton in Hy'. now subst.
  - apply NoDup_singleton.
Qed.

Lemma foldl_set_add (l : list Z) :
  forall acc : list Z,
    (NoDup acc -> NoDup (foldl set_add acc l))
    /\ (forall x, x ∈ foldl set_add acc l <-> x ∈ acc \/ x ∈ l)
    /\ (NoDup (acc ++ l) -> foldl set_add acc l = acc ++ l).
Proof.
  induction l as [|y l IH]; intros acc.
  - cbn. split; [auto|]. split.
    + intros x. rewrite elem_of_nil. tauto.
    + now rewrite app_nil_r.
  - cbn [foldl]. destruct (IH (set_add acc y)) as (IH1 & IH2 & IH3).
    split; [|split].
    + intros H. apply IH1, set_add_NoDup, H.
    + intros x. rewrite IH2, set_add_elem, elem_of_cons. tauto.
    + intros H.
      assert (Hy : y ∉ acc).
      { apply NoDup_app in H. destruct H as (_ & H & _).
        intros Hin. apply (H y Hin). left. }
      assert (Hadd : set_add acc y = acc ++ [y]).
      { unfold set_add, set_has. case_bool_decide; [contradiction|reflexivity]. }
      rewrite IH3; rewrite Hadd, <- app_assoc; [reflexivity|exact H].
Qed.

(** X11.  [new Set(array)] as the checkpoint needs it: the set has no
    duplicate, holds exactly the ids of the array, and is the array itself
    when the array has no duplicate, as the arrays that [saveProgress]
    writes. *)
Theorem new_Set_conjunto (l : list Z) :
  NoDup (new_Set l)
  /\ (forall x, x ∈ new_Set l <-> x ∈ l)
  /\ (NoDup l -> new_Set l = l).
Proof.
  unfold new_Set. destruct (foldl_set_add l []) as (H1 & H2 & H3).
  split; [apply H1, NoDup_nil_2|]. split.
  - intros x. rewrite H2, elem_of_nil. tauto.
  - exact H3.
Qed.

Lemma lote_de_S (pend : list nat) (n b : nat) :
  lote_de pend n (S b) = lote_de (drop n pend) n b.
Proof.
  unfold lote_de. rewrite drop_drop. reflexivity.
Qed.

Lemma lotes_concat (n k : nat) :
  forall pend : list nat,
    (length pend <= k * n)%nat ->
    concat (List.map (lote_de pend n) (seq 0 k)) = pend.
Proof.
  induction k as [|k IH]; intros pend Hlen.
  - cbn in *. destruct pend; [reflexivity|cbn in Hlen; lia].
  - cbn [seq List.map concat]. rewrite <- seq_shift, List.map_map.
    rewrite (List.map_ext _ (lote_de (drop n pend) n))
      by (intros b; apply lote_de_S).
    rewrite IH by (rewrite length_drop; lia).
    unfold lote_de. cbn [Nat.mul drop]. apply take_drop.
Qed.

Lemma ceil_div_limites (len n : nat) :
  (0 < n)%nat ->
  (len <= ceil_div len n * n)%nat
  /\ (forall b, (b < ceil_div len n)%nat -> (b * n < len)%nat).
Proof.
  intros Hn. unfold ceil_div.
  pose proof (Nat.Div0.mul_div_le (len + n - 1) n) as H1.
  pose proof (Nat.mul_succ_div_gt (len + n - 1) n ltac:(lia)) as H2.
  split; [nia|]. intros b Hb. nia.
Qed.

(** X12.  The batches partition the pending list: put end to end, in the
    order of their indices, they give the list back, and each of them holds
    at least one and at most [batchSize] records. *)
Theorem lotes_particionam (pendentes : list nat) (tam : positive) :
  let n := Pos.to_nat tam in
  let total := ceil_div (length pendentes) n in
  concat (List.map (lote_de pendentes n) (seq 0 total)) = pendentes
  /\ forall b, (b < total)%nat ->
               (1 <= length (lote_de pendentes n b) <= n)%nat.
Proof.
  intros n total.
  destruct (ceil_div_limites (length pendentes) n ltac:(lia)) as [Hup Hlow].
  split; [apply lotes_concat; exact Hup|].
  intros b Hb. specialize (Hlow b Hb).
  unfold lote_de. rewrite length_take, length_drop. lia.
Qed.

(** ** A whole run: the records and the checkpoint *)

Lemma ids_de_ext (cs cs' : list cliente) (pos : list nat) :
  ident <$> cs' = ident <$> cs -> ids_de cs' pos = ids_de cs pos.
Proof.
  intros H. unfold ids_de.
  assert (Hum : forall i, cli_id <$> cs' !! i = cli_id <$> cs !! i).
  { intros i.
    assert (Hi : (ident <$> cs') !! i = (ident <$> cs) !! i) by now rewrite H.
    rewrite !list_lookup_fmap in Hi.
    destruct (cs' !! i) as [c'|], (cs !! i) as [c|]; cbn in *;
      try discriminate; [|reflexivity].
    inversion Hi. reflexivity. }
  induction pos as [|i pos IH]; [reflexivity|].
  cbn [omap list_omap]. rewrite Hum. fold (omap (fun i => cli_id <$> cs' !! i) pos).
  fold (omap (fun i => cli_id <$> cs !! i) pos). now rewrite IH.
Qed.

Lemma avanca_nil (e : execucao) : avanca [] e e.
Proof. unfold avanca. cbn. auto. Qed.

Lemma avanca_app (p1 p2 : list nat) (e1 e2 e3 : execucao) :
  avanca p1 e1 e2 -> avanca p2 e2 e3 -> avanca (p1 ++ p2) e1 e3.
Proof.
  intros (Hi1 & Hk1 & Hs1 & Hp1 & Hb1) (Hi2 & Hk2 & Hs2 & Hp2 & Hb2).
  split; [congruence|]. split; [|split; [|split]].
  - intros i Hi. rewrite Hk2, Hk1; [reflexivity| |];
      intros H; apply Hi, elem_of_app; auto.
  - rewrite Hs2, Hs1, (ids_de_ext _ _ p2 Hi1). unfold ids_de.
    now rewrite omap_app, foldl_app.
  - lia.
  - congruence.
Qed.

Section Registros.

Variable provedor : nat -> string -> resposta.

Lemma buscarCoordenadasComCache_config (endereco : string) (s : estado) :
  batchSize (snd (buscarCoordenadasComCache provedor endereco s)) = batchSize s
  /\ progressFile (snd (buscarCoordenadasComCache provedor endereco s))
     = progressFile s
  /\ processed (stats (snd (buscarCoordenadasComCache provedor endereco s)))
     = processed (stats s).
Proof.
  destruct (buscarCoordenadasComCache_efeito provedor endereco s)
    as (r & s' & novos & Hrun & _ & _ & _ & _ & Hcases).
  assert (Hproc : processed (stats s') = processed (stats s)).
  { destruct Hcases as [(_ & -> & _)|[(_ & _ & ->)|(_ & _ & -> & _)]];
      reflexivity. }
  rewrite Hrun. cbn [snd]. split; [|split; [|exact Hproc]].
  - revert Hrun. unfold buscarCoordenadasComCache.
    destruct (memoryCache s !! getCacheKey endereco).
    + intros H. inversion H. reflexivity.
    + destruct (buscarCoordenadas_forma provedor endereco _ 1 s eq_refl)
        as (r1 & s1 & k & -> & _ & _ & _ & _ & _ & _ & _ & Hbs & _).
      destruct r1; [destruct (cacheEnabled s1)|]; intros H; inversion H;
        subst; cbn; exact Hbs.
  - revert Hrun. unfold buscarCoordenadasComCache.
    destruct (memoryCache s !! getCacheKey endereco).
    + intros H. inversion H. reflexivity.
    + destruct (buscarCoordenadas_forma provedor endereco _ 1 s eq_refl)
        as (r1 & s1 & k & -> & _ & _ & _ & _ & _ & _ & _ & _ & Hpf).
      destruct r1; [destruct (cacheEnabled s1)|]; intros H; inversion H;
        subst; cbn; exact Hpf.
Qed.

Lemma ids_de_um (cs : list cliente) (i : nat) :
  ids_de cs [i] = match cs !! i with Some c => [cli_id c] | None => [] end.
Proof. unfold ids_de. cbn. destruct (cs !! i); reflexivity. Qed.

Lemma processarCliente_avanca (batchIndex totalBatches : nat)
    (e : execucao) (i : nat) :
  avanca [i] e (processarCliente provedor batchIndex totalBatches e i).
Proof.
  unfold avanca. rewrite ids_de_um. unfold processarCliente.
  destruct (ex_clientes e !! i) as [c|] eqn:Hi; [|cbn; auto].
  cbn [foldl]. unfold set_add.
  destruct (set_has (ex_processedIds e) (cli_id c)) eqn:Hhas; [auto|].
  destruct (buscarCoordenadasComCache_config (cli_endereco c) (ex_estado e))
    as (Hbs & _ & Hproc).
  destruct (buscarCoordenadasComCache provedor (cli_endereco c) (ex_estado e))
    as [coords s1] eqn:Hrun.
  cbn [snd] in Hbs, Hproc. cbn.
  split; [|split; [|split; [|split]]].
  - rewrite list_fmap_insert. apply list_insert_id.
    rewrite list_lookup_fmap, Hi. cbn. destruct coords; reflexivity.
  - intros j Hj. apply list_lookup_insert_ne. intros ->. apply Hj. left.
  - reflexivity.
  - rewrite length_app, Hproc. cbn. lia.
  - exact Hbs.
Qed.

Lemma lote_avanca (batchIndex totalBatches : nat) (l : list nat) :
  forall e : execucao,
    avanca l e (foldl (processarCliente provedor batchIndex totalBatches) e l).
Proof.
  induction l as [|i l IH]; intros e; [apply avanca_nil|].
  cbn [foldl].
  apply (avanca_app [i] l _ _ _
           (processarCliente_avanca batchIndex totalBatches e i)).
  apply IH.
Qed.

Lemma processarLote_avanca (pendentes : list nat) (totalBatches : nat)
    (e : execucao) (batchIndex : nat) :
  avanca (lote_de pendentes (Pos.to_nat (batchSize (ex_estado e))) batchIndex)
    e (processarLote provedor pendentes totalBatches e batchIndex)
  /\ exists pr,
       progressFile
         (ex_estado (processarLote provedor pendentes totalBatches e batchIndex))
       = Some pr
       /\ prog_processedIds pr
          = ex_processedIds
              (processarLote provedor pendentes totalBatches e batchIndex)
       /\ prog_currentBatch pr = (batchIndex + 1)%nat.
Proof.
  unfold processarLote.
  pose proof (lote_avanca batchIndex totalBatches
                (lote_de pendentes (Pos.to_nat (batchSize (ex_estado e)))
                   batchIndex) e) as H.
  set (e1 := foldl _ e _) in *.
  destruct H as (Hi & Hk & Hs & Hp & Hb).
  set (s2 := saveCache (saveProgress (ex_processedIds e1) (batchIndex + 1)
                          (ex_estado e1))).
  assert (H2 : batchSize s2 = batchSize (ex_estado e1)
               /\ stats s2 = stats (ex_estado e1)
               /\ exists pr, progressFile s2 = Some pr
                             /\ prog_processedIds pr = ex_processedIds e1
                             /\ prog_currentBatch pr = (batchIndex + 1)%nat).
  { subst s2. unfold saveCache. destruct (_ || _); cbn;
      (split; [reflexivity|]); (split; [reflexivity|]);
      eexists; split; reflexivity || (split; reflexivity). }
  set (s3 := if (batchIndex <? totalBatches - 1)%nat then sleep 2000 s2 else s2).
  assert (H3 : batchSize s3 = batchSize s2 /\ stats s3 = stats s2
               /\ progressFile s3 = progressFile s2).
  { subst s3. destruct (batchIndex <? totalBatches - 1)%nat; cbn; auto. }
  destruct H2 as (H2b & H2s & pr & H2p & H2i & H2c).
  destruct H3 as (H3b & H3s & H3p).
  split.
  - unfold avanca. cbn [ex_clientes ex_processedIds ex_estado].
    split; [exact Hi|]. split; [exact Hk|]. split; [exact Hs|].
    rewrite H3s, H2s, H3b, H2b. split; assumption.
  - exists pr. cbn [ex_estado ex_processedIds].
    rewrite H3p. split; [exact H2p|]. split; assumption.
Qed.

Lemma lotes_avanca (pendentes : list nat) (totalBatches : nat)
    (indices : list nat) :
  forall e : execucao,
    avanca (concat (lote_de pendentes (Pos.to_nat (batchSize (ex_estado e)))
                      <$> indices))
      e (foldl (processarLote provedor pendentes totalBatches) e indices).
Proof.
  induction indices as [|b l IH]; intros e; [apply avanca_nil|].
  cbn [foldl fmap list_fmap concat].
  destruct (processarLote_avanca pendentes totalBatches e b) as [H1 _].
  eapply avanca_app; [exact H1|].
  specialize (IH (processarLote provedor pendentes totalBatches e b)).
  destruct H1 as (_ & _ & _ & _ & Hb). rewrite Hb in IH. exact IH.
Qed.

(** The checkpoint after a loop over batches: untouched when no batch ran,
    else the set of processed ids and the index after the last batch. *)
Lemma lotes_progresso (pendentes : list nat) (totalBatches : nat)
    (indices : list nat) (e : execucao) :
  match last indices with
  | None =>
      foldl (processarLote provedor pendentes totalBatches) e indices = e
  | Some b =>
      exists pr,
        progressFile
          (ex_estado (foldl (processarLote provedor pendentes totalBatches)
                        e indices)) = Some pr
        /\ prog_processedIds pr
           = ex_processedIds
               (foldl (processarLote provedor pendentes totalBatches) e indices)
        /\ prog_currentBatch pr = (b + 1)%nat
  end.
Proof.
  destruct indices as [|b l _] using rev_ind; [reflexivity|].
  rewrite last_snoc, foldl_app. cbn [foldl].
  apply processarLote_avanca.
Qed.

End Registros.

Lemma posicoes_ids (ids : list Z) (cs : list cliente) :
  forall pre : list cliente,
    ids_de (pre ++ cs) (posicoes_pendentes ids (length pre) cs)
    = cli_id <$> List.filter (pendente ids) cs.
Proof.
  induction cs as [|c r IH]; intros pre; [reflexivity|].
  cbn [posicoes_pendentes List.filter].
  assert (Hr : ids_de (pre ++ c :: r)
                 (posicoes_pendentes ids (S (length pre)) r)
               = cli_id <$> List.filter (pendente ids) r).
  { specialize (IH (pre ++ [c])).
    rewrite length_app, <- app_assoc in IH. cbn in IH.
    replace (length pre + 1)%nat with (S (length pre)) in IH by lia.
    exact IH. }
  destruct (pendente ids c); [|exact Hr].
  change (ids_de (pre ++ c :: r)
            (length pre :: posicoes_pendentes ids (S (length pre)) r))
    with (ids_de (pre ++ c :: r) ([length pre]
            ++ posicoes_pendentes ids (S (length pre)) r)).
  unfold ids_de at 1. rewrite omap_app. fold (ids_de (pre ++ c :: r) [length pre]).
  fold (ids_de (pre ++ c :: r) (posicoes_pendentes ids (S (length pre)) r)).
  rewrite Hr, ids_de_um, list_lookup_middle by reflexivity. reflexivity.
Qed.

Lemma posicoes_elem (ids : list Z) (cs : list cliente) :
  forall (k i : nat),
    i ∈ posicoes_pendentes ids k cs ->
    (k <= i)%nat
    /\ exists c, cs !! (i - k)%nat = Some c /\ pendente ids c = true.
Proof.
  induction cs as [|c r IH]; intros k i Hi; cbn in Hi.
  - apply elem_of_nil in Hi. contradiction.
  - assert (Hresto : i ∈ posicoes_pendentes ids (S k) r ->
                     (k <= i)%nat
                     /\ exists c0, (c :: r) !! (i - k)%nat = Some c0
                                   /\ pendente ids c0 = true).
    { intros H. destruct (IH _ _ H) as (Hle & c0 & Hc0 & Hp).
      split; [lia|]. exists c0. split; [|exact Hp].
      replace (i - k)%nat with (S (i - S k)) by lia. exact Hc0. }
    destruct (pendente ids c) eqn:Hp; [|auto].
    apply elem_of_cons in Hi. destruct Hi as [-> |Hi]; [|auto].
    split; [lia|]. exists c. rewrite Nat.sub_diag. auto.
Qed.

Lemma posicoes_length (ids : list Z) (cs : list cliente) :
  forall k : nat,
    length (posicoes_pendentes ids k cs)
    = length (List.filter (pendente ids) cs).
Proof.
  induction cs as [|c r IH]; intros k; [reflexivity|].
  cbn. destruct (pendente ids c); cbn; now rewrite IH.
Qed.

Lemma elem_of_lotes (pend : list nat) (n : nat) (indices : list nat) (i : nat) :
  i ∈ concat (lote_de pend n <$> indices) -> i ∈ pend.
Proof.
  induction indices as [|b l IH]; cbn.
  - intros H. apply elem_of_nil in H. contradiction.
  - rewrite elem_of_app. intros [H|H]; [|auto].
    unfold lote_de in H. apply subseteq_take in H. now apply subseteq_drop in H.
Qed.

Lemma ja_geocodificado_nao_pendente (ids : list Z) (c : cliente) :
  ja_geocodificado c -> pendente ids c = false.
Proof.
  intros (Hg & Hlat & Hlon). unfold pendente. rewrite Hg, Hlat, Hlon.
  apply andb_false_r.
Qed.

Lemma processado_nao_pendente (ids : list Z) (c : cliente) :
  cli_id c ∈ ids -> pendente ids c = false.
Proof.
  intros H. unfold pendente, set_has. now rewrite bool_decide_eq_true_2.
Qed.

Lemma ceil_div_0 (n : nat) : (0 < n)%nat -> ceil_div 0 n = 0%nat.
Proof. intros H. unfold ceil_div. apply Nat.div_small. lia. Qed.

Lemma ceil_div_le (len n k : nat) :
  (0 < n)%nat -> (len <= k * n)%nat -> (ceil_div len n <= k)%nat.
Proof.
  intros Hn H. unfold ceil_div.
  assert (((len + n - 1) / n < S k)%nat); [|lia].
  apply Nat.Div0.div_lt_upper_bound. lia.
Qed.

Section Execucao_registros.

Variable provedor : nat -> string -> resposta.

(** What [preparar] sets up. *)
Lemma preparar_campos (clientes : list cliente) (resume : bool) (s : estado) :
  let p := preparar clientes resume s in
  ex_clientes (pr_execucao p) = clientes
  /\ pr_pendentes p
     = posicoes_pendentes (ex_processedIds (pr_execucao p)) 0 clientes
  /\ pr_totalBatches p
     = ceil_div (length (pr_pendentes p)) (Pos.to_nat (batchSize s))
  /\ batchSize (ex_estado (pr_execucao p)) = batchSize s
  /\ (ex_processedIds (pr_execucao p), pr_startBatch p)
     = (if resume then
          match progressFile s with
          | Some pr => (new_Set (prog_processedIds pr), prog_currentBatch pr)
          | None => ([], 0%nat)
          end
        else ([], 0%nat)).
Proof.
  assert (Hload : batchSize (loadCache (set_stats (reset_stats (stats s)
                               (length clientes) (clock s)) s)) = batchSize s
                  /\ progressFile (loadCache (set_stats (reset_stats (stats s)
                               (length clientes) (clock s)) s))
                     = progressFile s).
  { unfold loadCache. cbn. destruct (cacheEnabled s); [|auto].
    destruct (cacheFile s); auto. }
  destruct Hload as [Hb Hpf].
  unfold preparar, loadProgress. rewrite Hpf, Hb.
  destruct resume; [destruct (progressFile s)|]; cbn; auto 10.
Qed.

(** The records of a run, in terms of the loop invariant. *)
Lemma execucao_avanca (clientes : list cliente) (resume : bool) (s : estado) :
  let p := preparar clientes resume s in
  avanca (concat (lote_de (pr_pendentes p) (Pos.to_nat (batchSize s))
                    <$> indices_de_lote p))
    (pr_execucao p) (processarLotes provedor p (indices_de_lote p)).
Proof.
  intros p.
  destruct (preparar_campos clientes resume s) as (_ & _ & _ & Hb & _).
  fold p in Hb. rewrite <- Hb. apply lotes_avanca.
Qed.

Lemma nao_pendente_intocado
    (clientes : list cliente) (resume : bool) (s : estado) (i : nat)
    (c : cliente) :
  clientes !! i = Some c ->
  pendente (ex_processedIds (pr_execucao (preparar clientes resume s))) c
  = false ->
  fst (processarClientesOtimizado provedor clientes resume s) !! i = Some c.
Proof.
  intros Hi Hp. unfold processarClientesOtimizado. cbn [fst].
  destruct (execucao_avanca clientes resume s) as (_ & Hk & _).
  destruct (preparar_campos clientes resume s) as (Hcs & Hpend & _).
  rewrite Hk, Hcs; [exact Hi|].
  intros Hin. apply elem_of_lotes in Hin. rewrite Hpend in Hin.
  destruct (posicoes_elem _ _ _ _ Hin) as (_ & c0 & Hc0 & Hp0).
  rewrite Nat.sub_0_r, Hi in Hc0. inversion Hc0; subst. congruence.
Qed.

(** X13.  The pipeline keeps the record store: the returned array has the
    records of the input, in the same order, with the same ids, names and
    addresses, and a record that already had [geocoded] and both
    coordinates is returned as it was, whatever the checkpoint says. *)
Theorem registros_conservados
    (clientes : list cliente) (resume : bool) (s : estado) :
  let cs := fst (processarClientesOtimizado provedor clientes resume s) in
  ident <$> cs = ident <$> clientes
  /\ length cs = length clientes
  /\ forall i c, clientes !! i = Some c -> ja_geocodificado c ->
                 cs !! i = Some c.
Proof.
  intros cs.
  assert (Hid : ident <$> cs = ident <$> clientes).
  { subst cs. unfold processarClientesOtimizado. cbn [fst].
    destruct (execucao_avanca clientes resume s) as (Hident & _).
    destruct (preparar_campos clientes resume s) as (Hcs & _).
    rewrite Hident, Hcs. reflexivity. }
  split; [exact Hid|]. split.
  - apply (f_equal length) in Hid. now rewrite !length_fmap in Hid.
  - intros i c Hi Hg. apply nao_pendente_intocado; [exact Hi|].
    apply ja_geocodificado_nao_pendente, Hg.
Qed.

(** X14.  A resumed run leaves alone every record whose id is in the
    checkpoint: the record is returned as it was (it is not looked up
    again). *)
Theorem registros_do_checkpoint_intocados
    (clientes : list cliente) (s : estado) (pr : Progress) (i : nat)
    (c : cliente) :
  progressFile s = Some pr ->
  clientes !! i = Some c ->
  cli_id c ∈ prog_processedIds pr ->
  fst (processarClientesOtimizado provedor clientes true s) !! i = Some c.
Proof.
  intros Hpf Hi Hin. apply nao_pendente_intocado; [exact Hi|].
  destruct (preparar_campos clientes true s) as (_ & _ & _ & _ & Hids).
  rewrite Hpf in Hids. injection Hids as Hids' _. rewrite Hids'.
  apply processado_nao_pendente.
  destruct (foldl_set_add (prog_processedIds pr) []) as (_ & H & _).
  apply H. now right.
Qed.

(** A run whose loop over batches has no index to go through. *)
Lemma execucao_sem_lotes (clientes : list cliente) (resume : bool) (s : estado) :
  (pr_totalBatches (preparar clientes resume s)
   <= pr_startBatch (preparar clientes resume s))%nat ->
  let run := processarClientesOtimizado provedor clientes resume s in
  fst run = clientes
  /\ requests (snd run) = requests s
  /\ trace (snd run) = trace s
  /\ progressFile (snd run) = progressFile s
  /\ processed (stats (snd run)) = 0%nat.
Proof.
  intros Hle run. subst run. unfold processarClientesOtimizado.
  assert (Hidx : indices_de_lote (preparar clientes resume s) = []).
  { unfold indices_de_lote.
    replace (_ - _)%nat with 0%nat by lia. reflexivity. }
  rewrite Hidx. unfold processarLotes. cbn [foldl fst snd].
  destruct (preparar_campos clientes resume s) as (Hcs & _).
  rewrite (preparar_estado clientes resume s).
  split; [exact Hcs|].
  set (s2 := loadCache _).
  assert (H2 : requests s2 = requests s /\ trace s2 = trace s
               /\ progressFile s2 = progressFile s
               /\ processed (stats s2) = 0%nat).
  { subst s2. unfold loadCache. cbn. destruct (cacheEnabled s); [|auto].
    destruct (cacheFile s); auto. }
  destruct H2 as (<- & <- & <- & <-).
  unfold saveCache. destruct (_ || _); auto.
Qed.

(** X15.  Nothing to do: on records that all have [geocoded] and both
    coordinates (and on the empty array), a run returns the array as it is,
    sends no request, adds no event to the trace, processes no record and
    leaves the checkpoint file alone. *)
Theorem execucao_sem_pendentes
    (clientes : list cliente) (resume : bool) (s : estado) :
  Forall ja_geocodificado clientes ->
  let run := processarClientesOtimizado provedor clientes resume s in
  fst run = clientes
  /\ requests (snd run) = requests s
  /\ trace (snd run) = trace s
  /\ progressFile (snd run) = progressFile s
  /\ processed (stats (snd run)) = 0%nat.
Proof.
  intros Hall. apply execucao_sem_lotes.
  destruct (preparar_campos clientes resume s) as (_ & Hpend & Htot & _).
  rewrite Htot, Hpend, posicoes_length.
  assert (Hnil : List.filter
                   (pendente (ex_processedIds
                                (pr_execucao (preparar clientes resume s))))
                   clientes = []).
  { generalize (ex_processedIds (pr_execucao (preparar clientes resume s))).
    intros ids. clear - Hall. induction Hall as [|c l Hc _ IH]; [reflexivity|].
    cbn [List.filter]. now rewrite (ja_geocodificado_nao_pendente ids c Hc). }
  rewrite Hnil. cbn [length]. rewrite ceil_div_0 by lia. lia.
Qed.

(** X16.  A run resumes at the batch index of the checkpoint, counted on
    the list of records still pending: when those records fill no more
    than [currentBatch] batches, the run processes none of them (it sends
    no request and returns the array as it is). *)
Theorem execucao_checkpoint_adiantado
    (clientes : list cliente) (s : estado) (pr : Progress) :
  progressFile s = Some pr ->
  (length (List.filter (pendente (new_Set (prog_processedIds pr))) clientes)
   <= prog_currentBatch pr * Pos.to_nat (batchSize s))%nat ->
  let run := processarClientesOtimizado provedor clientes true s in
  fst run = clientes
  /\ requests (snd run) = requests s
  /\ trace (snd run) = trace s
  /\ progressFile (snd run) = progressFile s
  /\ processed (stats (snd run)) = 0%nat.
Proof.
  intros Hpf Hlen. apply execucao_sem_lotes.
  destruct (preparar_campos clientes true s) as (_ & Hpend & Htot & _ & Hids).
  rewrite Hpf in Hids. injection Hids as Hids' Hstart.
  rewrite Htot, Hpend, posicoes_length, Hids', Hstart.
  apply ceil_div_le; [lia|exact Hlen].
Qed.

(** X17.  A run that starts without a checkpoint (resume off, or no
    progress file) processes every pending record once: [stats.processed]
    ends as the number of distinct ids of the records that were not
    geocoded, and, when there is such a record, the checkpoint left behind
    lists exactly those ids, in the order of the records, with
    [currentBatch] the number of batches. *)
Theorem execucao_completa
    (clientes : list cliente) (resume : bool) (s : estado) :
  resume = false \/ progressFile s = None ->
  let run := processarClientesOtimizado provedor clientes resume s in
  let pend := List.filter (pendente []) clientes in
  processed (stats (snd run)) = length (new_Set (cli_id <$> pend))
  /\ (pend <> [] ->
      exists pr,
        progressFile (snd run) = Some pr
        /\ prog_processedIds pr = new_Set (cli_id <$> pend)
        /\ prog_currentBatch pr
           = ceil_div (length pend) (Pos.to_nat (batchSize s)))
  /\ (pend = [] -> progressFile (snd run) = progressFile s).
Proof.
  intros Hsem run pend.
  destruct (preparar_campos clientes resume s)
    as (Hcs & Hpend & Htot & Hbs & Hids).
  assert (Hzero : ex_processedIds (pr_execucao (preparar clientes resume s)) = []
                  /\ pr_startBatch (preparar clientes resume s) = 0%nat).
  { destruct Hsem as [-> | Hnone]; [|rewrite Hnone in Hids; destruct resume];
      (split; [exact (f_equal fst Hids)|exact (f_equal snd Hids)]). }
  destruct Hzero as [Hids0 Hstart].
  rewrite Hids0 in Hpend.
  pose proof (execucao_avanca clientes resume s) as Hav. cbv zeta in Hav.
  pose proof (lotes_progresso provedor
                (pr_pendentes (preparar clientes resume s))
                (pr_totalBatches (preparar clientes resume s))
                (indices_de_lote (preparar clientes resume s))
                (pr_execucao (preparar clientes resume s))) as Hprog.
  assert (Hidx : indices_de_lote (preparar clientes resume s)
                 = seq 0 (ceil_div (length pend) (Pos.to_nat (batchSize s)))).
  { unfold indices_de_lote. rewrite Hstart, Nat.sub_0_r, Htot, Hpend.
    now rewrite posicoes_length. }
  rewrite Hidx in Hav, Hprog.
  assert (Hconcat : concat (lote_de (pr_pendentes (preparar clientes resume s))
                              (Pos.to_nat (batchSize s))
                            <$> seq 0 (ceil_div (length pend)
                                         (Pos.to_nat (batchSize s))))
                    = pr_pendentes (preparar clientes resume s)).
  { change (concat (List.map
                      (lote_de (pr_pendentes (preparar clientes resume s))
                         (Pos.to_nat (batchSize s)))
                      (seq 0 (ceil_div (length pend)
                                (Pos.to_nat (batchSize s)))))
            = pr_pendentes (preparar clientes resume s)).
    apply lotes_concat. rewrite Hpend, posicoes_length. fold pend.
    apply ceil_div_limites. lia. }
  rewrite Hconcat in Hav.
  destruct Hav as (_ & _ & Hset & Hproc & _).
  rewrite Hcs, Hids0, Hpend in Hset.
  pose proof (posicoes_ids [] clientes []) as Hpi. cbn [app length] in Hpi.
  rewrite Hpi in Hset. fold pend in Hset.
  fold (new_Set (cli_id <$> pend)) in Hset.
  rewrite Hids0 in Hproc.
  rewrite (preparar_estado clientes resume s) in Hproc.
  assert (Hp0 : processed (stats (loadCache (set_stats (reset_stats (stats s)
                                  (length clientes) (clock s)) s))) = 0%nat).
  { unfold loadCache. cbn. destruct (cacheEnabled s); [|reflexivity].
    destruct (cacheFile s); reflexivity. }
  rewrite Hp0 in Hproc. cbn [length] in Hproc.
  assert (Hfim : forall x t, processed (stats (saveCache (set_stats
                                 (set_endTime t (stats x)) x)))
                             = processed (stats x)
                             /\ progressFile (saveCache (set_stats
                                 (set_endTime t (stats x)) x))
                                = progressFile x).
  { intros x t. unfold saveCache. destruct (_ || _); auto. }
  subst run. unfold processarClientesOtimizado. cbn [snd]. rewrite Hidx.
  set (e1 := processarLotes provedor (preparar clientes resume s)
               (seq 0 (ceil_div (length pend) (Pos.to_nat (batchSize s))))) in *.
  destruct (Hfim (ex_estado e1) (clock (ex_estado e1))) as [-> ->].
  split; [rewrite <- Hset; lia|].
  split.
  - intros Hne.
    assert (Hlast : exists b,
               last (seq 0 (ceil_div (length pend) (Pos.to_nat (batchSize s))))
               = Some b
               /\ (b + 1)%nat
                  = ceil_div (length pend) (Pos.to_nat (batchSize s))).
    { destruct (ceil_div_limites (length pend) (Pos.to_nat (batchSize s))
                  ltac:(lia)) as [Hup _].
      destruct (ceil_div (length pend) (Pos.to_nat (batchSize s))) as [|t].
      - destruct pend; [contradiction|cbn in Hup; lia].
      - exists t. rewrite seq_S, last_snoc. split; [reflexivity|lia]. }
    destruct Hlast as (b & Hb & Hb1). rewrite Hb in Hprog.
    destruct Hprog as (pr & Hpr & Hpids & Hpc).
    exists pr. split; [exact Hpr|].
    split; [rewrite Hpids; exact Hset|rewrite Hpc; exact Hb1].
  - intros Hnil. rewrite Hnil in Hprog. cbn [length] in Hprog.
    rewrite ceil_div_0 in Hprog by lia. cbn in Hprog.
    subst e1. rewrite Hnil. cbn [length]. rewrite ceil_div_0 by lia.
    unfold processarLotes. cbn [seq foldl].
    rewrite (preparar_estado clientes resume s).
    unfold loadCache. cbn. destruct (cacheEnabled s); [|reflexivity].
    destruct (cacheFile s); reflexivity.
Qed.

End Execucao_registros.

(** ** Clearing the files *)

Lemma mesma_config_refl (s : estado) : mesma_config s s.
Proof. repeat split. Qed.

Lemma mesma_config_trans (s1 s2 s3 : estado) :
  mesma_config s1 s2 -> mesma_config s2 s3 -> mesma_config s1 s3.
Proof.
  intros (A1 & A2 & A3 & A4 & A5) (B1 & B2 & B3 & B4 & B5).
  repeat split; congruence.
Qed.

Section Limpeza.

Variable provedor : nat -> string -> resposta.

Lemma processarCliente_config (batchIndex totalBatches : nat)
    (e : execucao) (i : nat) :
  mesma_config (ex_estado e)
    (ex_estado (processarCliente provedor batchIndex totalBatches e i)).
Proof.
  unfold processarCliente.
  destruct (ex_clientes e !! i) as [c|]; [|apply mesma_config_refl].
  destruct (set_has (ex_processedIds e) (cli_id c));
    [apply mesma_config_refl|].
  assert (H : mesma_config (ex_estado e)
                (snd (buscarCoordenadasComCache provedor (cli_endereco c)
                        (ex_estado e)))).
  { unfold buscarCoordenadasComCache.
    destruct (memoryCache (ex_estado e) !! getCacheKey (cli_endereco c));
      [repeat split|].
    destruct (buscarCoordenadas_forma provedor (cli_endereco c) _ 1
                (ex_estado e) eq_refl)
      as (r1 & s1 & k & Hrun & _ & _ & _ & _ & Hmr & Hrd & Hrl & Hbs & _).
    destruct (buscarCoordenadas_efeito provedor (cli_endereco c) _ 1
                (ex_estado e) eq_refl)
      as (r' & s1' & novos & Hrun' & _ & _ & _ & Hce & _).
    rewrite Hrun in Hrun'. inversion Hrun'; subst r' s1'. clear Hrun'.
    rewrite Hrun.
    destruct r1; [destruct (cacheEnabled s1) eqn:E|];
      unfold mesma_config; cbn; repeat split; congruence. }
  destruct (buscarCoordenadasComCache provedor (cli_endereco c) (ex_estado e))
    as [coords s1].
  exact H.
Qed.

Lemma processarLotes_config (p : preparo) (indices : list nat) :
  mesma_config (ex_estado (pr_execucao p))
    (ex_estado (processarLotes provedor p indices)).
Proof.
  apply (processarLotes_R provedor mesma_config mesma_config_refl
           mesma_config_trans processarCliente_config).
  - intros ids n s. repeat split.
  - intros s. unfold saveCache. destruct (_ || _); repeat split.
  - intros ms s. repeat split.
Qed.

(** A run reads the configuration and leaves it as it is. *)
Lemma processarClientesOtimizado_config
    (clientes : list cliente) (resume : bool) (s : estado) :
  mesma_config s (snd (processarClientesOtimizado provedor clientes resume s)).
Proof.
  unfold processarClientesOtimizado. cbn [snd].
  pose proof (processarLotes_config (preparar clientes resume s)
                (indices_de_lote (preparar clientes resume s))) as H.
  rewrite (preparar_estado clientes resume s) in H.
  set (e1 := processarLotes provedor _ _) in *.
  eapply mesma_config_trans; [|eapply mesma_config_trans; [exact H|]].
  - unfold loadCache. cbn. destruct (cacheEnabled s) eqn:E;
      [destruct (cacheFile s)|]; unfold mesma_config; cbn; rewrite ?E;
      repeat split.
  - unfold saveCache. destruct (_ || _); repeat split.
Qed.

(** With the cache enabled, a run that ends with a non-empty map has
    written the map to the cache file. *)
Lemma execucao_grava_cache
    (clientes : list cliente) (resume : bool) (s : estado) :
  cacheEnabled s = true ->
  memoryCache (snd (processarClientesOtimizado provedor clientes resume s))
    <> ∅ ->
  cacheFile (snd (processarClientesOtimizado provedor clientes resume s))
  = Some (json_valor
            <$> memoryCache
                  (snd (processarClientesOtimizado provedor clientes resume s))).
Proof.
  intros Hon Hne.
  apply (execucao_gravada provedor clientes resume s); [|exact Hne].
  destruct (processarClientesOtimizado_config clientes resume s)
    as (_ & _ & _ & _ & Hce).
  rewrite Hce. exact Hon.
Qed.

(** Without a cache file to load, a run keeps every entry that was in the
    map. *)
Lemma execucao_mantem_entradas
    (clientes : list cliente) (resume : bool) (s : estado) (k : string)
    (v : valor) :
  cacheFile s = None ->
  memoryCache s !! k = Some v ->
  memoryCache (snd (processarClientesOtimizado provedor clientes resume s))
    !! k = Some v.
Proof.
  intros Hnone Hk. unfold processarClientesOtimizado. cbn [snd].
  pose proof (processarLotes_cache provedor (preparar clientes resume s)
                (indices_de_lote (preparar clientes resume s))) as H.
  rewrite (preparar_estado clientes resume s) in H.
  set (e1 := processarLotes provedor _ _) in *.
  destruct H as (_ & _ & Hkeep & _).
  assert (H0 : memoryCache (loadCache (set_stats (reset_stats (stats s)
                              (length clientes) (clock s)) s))
               = memoryCache s).
  { unfold loadCache. cbn. rewrite Hnone. now destruct (cacheEnabled s). }
  rewrite H0 in Hkeep. specialize (Hkeep k v Hk).
  unfold saveCache. destruct (_ || _); exact Hkeep.
Qed.


(** X19.  A clear that finds the cache file but no checkpoint removes the
    file and keeps the map: with the cache enabled, every entry that was in
    the map is back in the cache file after the next run, as JSON keeps it
    ([null] for each NaN or infinity; the entry itself when it holds
    neither). *)
Theorem limparCache_parcial_regrava
    (clientes : list cliente) (resume : bool) (s : estado) (k : string)
    (v : valor) :
  cacheEnabled s = true ->
  cacheFile s <> None ->
  progressFile s = None ->
  memoryCache s !! k = Some v ->
  cacheFile (limparCache s) = None
  /\ exists f,
       cacheFile (snd (processarClientesOtimizado provedor clientes resume
                         (limparCache s))) = Some f
       /\ f !! k = Some (json_valor v)
       /\ (json_valor v = v -> f !! k = Some v).
Proof.
  intros Hon Hc Hp Hk. unfold limparCache.
  destruct (cacheFile s) as [f0|]; [|contradiction]. cbn. rewrite Hp.
  split; [reflexivity|].
  pose proof (execucao_mantem_entradas clientes resume (set_cacheFile None s)
                k v eq_refl Hk) as Hent.
  assert (Hf : forall m : gmap string valor,
             m !! k = Some v -> (json_valor <$> m) !! k = Some (json_valor v)).
  { intros m Hm. rewrite lookup_fmap, Hm. reflexivity. }
  eexists. split; [|split; [exact (Hf _ Hent)|]].
  - apply execucao_grava_cache; [exact Hon|].
    intros Hvazio. rewrite Hvazio, lookup_empty in Hent. discriminate Hent.
  - intros Hest. rewrite (Hf _ Hent), Hest. reflexivity.
Qed.

(** X20.  A clear that finds no cache file does nothing at all: a service
    that runs with the cache disabled and has no cache file keeps its
    checkpoint through [limparCache]. *)
Theorem limparCache_sem_cache
    (clientes : list cliente) (resume : bool) (s : estado) :
  sem_cache s ->
  cacheFile s = None ->
  limparCache (snd (processarClientesOtimizado provedor clientes resume s))
  = snd (processarClientesOtimizado provedor clientes resume s).
Proof.
  intros [Hoff Hv] Hnone.
  assert (Hf : cacheFile (snd (processarClientesOtimizado provedor clientes
                                 resume s)) = None).
  { unfold processarClientesOtimizado. cbn [snd].
    pose proof (processarLotes_sem_cache provedor (preparar clientes resume s)
                  (indices_de_lote (preparar clientes resume s))) as H.
    rewrite (preparar_estado clientes resume s) in H.
    set (e1 := processarLotes provedor _ _) in *.
    unfold loadCache in H. cbn [cacheEnabled set_stats] in H.
    rewrite Hoff in H.
    destruct (H ltac:(split; assumption)) as ([Hoff' _] & Hf & _).
    unfold saveCache. cbn [cacheEnabled set_stats]. rewrite Hoff'. cbn.
    rewrite Hf. exact Hnone. }
  unfold limparCache. rewrite Hf. reflexivity.
Qed.

End Limpeza.

(** ** The rate adjustment under a sustained error rate *)

Lemma ajustes_snoc (obs : list Stats) (st : Stats) (s : estado) :
  ajustes (obs ++ [st]) s = ajustarRateLimit (set_stats st (ajustes obs s)).
Proof. unfold ajustes. now rewrite foldl_app. Qed.

(** X21.  Under an error rate that stays above 10%, each adjustment adds
    200 ms until the delay reaches 3000 ms: from a delay of at most
    3000 ms, [n] adjustments give [min(delay + 200 n, 3000)]. *)
Theorem ajustes_taxa_alta (observados : list Stats) (s : estado) :
  Forall taxa_alta observados ->
  rateLimitDelay s <= 3000 ->
  rateLimitDelay (ajustes observados s)
  = Z.min (rateLimitDelay s + 200 * Z.of_nat (length observados)) 3000.
Proof.
  intros Hall Hd.
  induction observados as [|st obs IH] using rev_ind.
  - cbn. lia.
  - apply Forall_app in Hall. destruct Hall as [Hobs Hst].
    apply Forall_inv in Hst. specialize (IH Hobs).
    rewrite ajustes_snoc, length_app. unfold ajustarRateLimit.
    cbn [stats set_stats]. unfold taxa_alta in Hst. rewrite Hst.
    cbn [rateLimitDelay set_rateLimitDelay set_stats]. rewrite IH.
    cbn [length]. lia.
Qed.

(** X22.  Under an error rate that stays below 2%, each adjustment takes
    100 ms off a delay above 800 ms, down to 800 ms, and leaves a delay of
    800 ms or less as it is: [n] adjustments give
    [max(delay - 100 n, min(delay, 800))]. *)
Theorem ajustes_taxa_baixa (observados : list Stats) (s : estado) :
  Forall taxa_baixa observados ->
  rateLimitDelay (ajustes observados s)
  = Z.max (rateLimitDelay s - 100 * Z.of_nat (length observados))
      (Z.min (rateLimitDelay s) 800).
Proof.
  intros Hall.
  induction observados as [|st obs IH] using rev_ind.
  - cbn. lia.
  - apply Forall_app in Hall. destruct Hall as [Hobs Hst].
    apply Forall_inv in Hst. specialize (IH Hobs).
    destruct Hst as [Hgt Hlt].
    rewrite ajustes_snoc, length_app. unfold ajustarRateLimit.
    cbn [stats set_stats]. rewrite Hgt, Hlt.
    cbn [rateLimitDelay set_rateLimitDelay set_stats andb].
    destruct (800 <? rateLimitDelay (ajustes obs s)) eqn:E;
      cbn [rateLimitDelay set_rateLimitDelay set_stats];
      [apply Z.ltb_lt in E|apply Z.ltb_ge in E];
      rewrite IH in *; cbn [length]; lia.
Qed.

(** ** The counts of the report *)

Lemma filter_length_le {A : Type} (f g : A -> bool) (l : list A) :
  (forall x, f x = true -> g x = true) ->
  (length (List.filter f l) <= length (List.filter g l))%nat.
Proof.
  intros H. induction l as [|x l IH]; [reflexivity|]. cbn.
  destruct (f x) eqn:E.
  - rewrite (H x E). cbn. lia.
  - destruct (g x); cbn; lia.
Qed.

Lemma filter_length_negb {A : Type} (f : A -> bool) (l : list A) :
  (length (List.filter f l) + length (List.filter (fun x => negb (f x)) l)
   = length l)%nat.
Proof.
  induction l as [|x l IH]; [reflexivity|]. cbn.
  destruct (f x); cbn; lia.
Qed.

(** X23.  The counts of a report add up: [geocodificados] and
    [naoGeocodificados] split [total], the two buckets by coordinates split
    the records, [geocodificados] never exceeds the bucket with
    coordinates, and [cacheHits] is the size of the cache bucket. *)
Theorem gerarRelatorioDetalhado_contagens (s : estado) (clientes : list cliente) :
  let r := gerarRelatorioDetalhado s clientes in
  (geocodificados (resumo r) + naoGeocodificados (resumo r)
   = rs_total (resumo r))%nat
  /\ rs_total (resumo r) = length clientes
  /\ (length (com_coordenadas (detalhes r))
      + length (sem_coordenadas (detalhes r)) = length clientes)%nat
  /\ (forall c, c ∈ clientes ->
                c ∈ com_coordenadas (detalhes r)
                <-> ~ c ∈ sem_coordenadas (detalhes r))
  /\ (geocodificados (resumo r) <= length (com_coordenadas (detalhes r)))%nat
  /\ cacheHits (resumo r) = length (com_cache (detalhes r)).
Proof.
  intros r. subst r. unfold gerarRelatorioDetalhado. cbn.
  assert (Hle : (length (List.filter
                           (fun c => cli_geocoded c && tem_coordenadas c)
                           clientes) <= length clientes)%nat).
  { rewrite <- (filter_length_negb
                  (fun c => cli_geocoded c && tem_coordenadas c) clientes).
    lia. }
  split; [lia|]. split; [reflexivity|].
  split; [apply filter_length_negb|].
  split.
  - intros c Hc. rewrite !list_elem_of_In, !filter_In, <- !list_elem_of_In.
    destruct (tem_coordenadas c); cbn; intuition congruence.
  - split; [|reflexivity].
    apply filter_length_le. intros x Hx.
    apply andb_true_iff in Hx. apply Hx.
Qed.

(** ** The configuration of the server *)

Lemma aceito_limites (x : option Z) (lo : Z) (hi : option Z) (v : Z) :
  aceito x lo hi = Some v ->
  lo <= v /\ match hi with Some h => v <= h | None => True end.
Proof.
  unfold aceito. destruct x as [w|]; [|discriminate].
  destruct (negb (w =? 0) && (lo <=? w)
            && match hi with Some h => w <=? h | None => true end) eqn:E;
    [|discriminate].
  intros H. inversion H; subst.
  apply andb_true_iff in E. destruct E as [E1 E2].
  apply andb_true_iff in E1. destruct E1 as [_ E1].
  apply Z.leb_le in E1. split; [exact E1|].
  destruct hi; [now apply Z.leb_le|exact I].
Qed.

Lemma put_configuracao_valida (b : corpo) (s : estado) :
  config_valida s -> config_valida (put_configuracao b s).
Proof.
  intros (Hd & Hb & Hm). unfold put_configuracao, config_valida.
  destruct (aceito (body_rateLimitDelay b) 500 None) as [d|] eqn:Ed;
    [apply aceito_limites in Ed|];
    (destruct (aceito (body_batchSize b) 10 (Some 1000)) as [n|] eqn:En;
       [apply aceito_limites in En|]);
    (destruct (aceito (body_maxRetries b) 1 (Some 10)) as [m|] eqn:Em;
       [apply aceito_limites in Em|]);
    cbn; lia.
Qed.

Lemma ajustarRateLimit_valida (s : estado) :
  config_valida s -> config_valida (ajustarRateLimit s).
Proof.
  intros (Hd & Hb & Hm). unfold config_valida.
  pose proof (ajustarRateLimit_range s) as Hr.
  assert (Hcfg : batchSize (ajustarRateLimit s) = batchSize s
                 /\ maxRetries (ajustarRateLimit s) = maxRetries s).
  { unfold ajustarRateLimit. destruct (taxaErro_gt_10pct (stats s));
      [auto|]. destruct (_ && _); auto. }
  destruct Hcfg as [-> ->]. lia.
Qed.

(** X24.  The limits of the configuration endpoint hold on the server at
    all times: after any sequence of configuration updates (integer
    fields), rate adjustments and runs, the service has a delay of at
    least 500 ms, a batch size between 10 and 1000 and between 1 and 10
    attempts per address. *)
Theorem servidor_config_valida
    (provedor : nat -> string -> resposta) (now : Z) (tz : Z -> Z)
    (cfile : option (gmap string valor)) (pfile : option Progress)
    (ops : list operacao) :
  config_valida (servidor provedor now tz cfile pfile ops).
Proof.
  unfold servidor.
  assert (H0 : config_valida (constructor geocodingConfig now tz cfile pfile))
    by (unfold config_valida; cbn; lia).
  revert H0. generalize (constructor geocodingConfig now tz cfile pfile).
  induction ops as [|op ops IH]; intros s Hs; [exact Hs|].
  cbn [foldl]. apply IH. destruct op as [b| |clientes resumir]; cbn [aplicar].
  - now apply put_configuracao_valida.
  - now apply ajustarRateLimit_valida.
  - destruct (processarClientesOtimizado_config provedor clientes resumir s)
      as (H1 & H2 & H3 & _).
    destruct Hs as (Hd & Hb & Hm). unfold config_valida.
    rewrite H1, H2, H3. auto.
Qed.

(** ** The further properties at concrete services *)

Lemma buscarCoordenadas_sucesso_apos_falhas_witness :
  Z.of_nat 2 < maxRetries servico_novo
  /\ exists s',
       buscarCoordenadas (provedor_instavel 2) "Rua A" 1 servico_novo
       = (Some (resultado_de (cand_sp 2 ("Rua A" +:+ ", Brasil"))), s')
       /\ requests s' = 3%nat
       /\ success (stats s') = 1%nat
       /\ errors (stats s') = 0%nat.
Proof.
  assert (H1 : Z.of_nat 2 < maxRetries servico_novo) by (cbn; lia).
  assert (H2 : forall j, (j < 2)%nat ->
                         provedor_instavel 2 (requests servico_novo + j)%nat
                           ("Rua A" +:+ ", Brasil") = ErroTransporte).
  { intros j Hj. destruct j as [|[|j]]; [reflexivity|reflexivity|lia]. }
  split; [exact H1|].
  destruct (buscarCoordenadas_sucesso_apos_falhas (provedor_instavel 2)
              "Rua A" (cand_sp 2 ("Rua A" +:+ ", Brasil")) [] 2 servico_novo
              H1 H2 eq_refl)
    as (s' & Hrun & _ & Hreq & Hs & He).
  exists s'. split; [exact Hrun|]. split; [exact Hreq|].
  split; [exact Hs|exact He].
Defined.

Lemma buscarCoordenadasComCache_repete_witness :
  getCacheKey "main   st, city" = getCacheKey "Main St, City"
  /\ fst (buscarCoordenadasComCache provedor_sp "main   st, city"
            (snd (buscarCoordenadasComCache provedor_sp "Main St, City"
                    servico_novo)))
     = Some (resultado_sp "Main St, City").
Proof.
  assert (Hkey : getCacheKey "main   st, city" = getCacheKey "Main St, City")
    by (vm_compute; reflexivity).
  assert (Hrun : buscarCoordenadasComCache provedor_sp "Main St, City"
                   servico_novo
                 = (Some (resultado_sp "Main St, City"),
                    snd (buscarCoordenadasComCache provedor_sp "Main St, City"
                           servico_novo)))
    by (vm_compute; reflexivity).
  split; [exact Hkey|].
  rewrite (buscarCoordenadasComCache_repete provedor_sp "Main St, City"
             "main   st, city" servico_novo _ _ eq_refl Hrun Hkey).
  reflexivity.
Defined.

Lemma buscarCoordenadasComCache_falha_repete_witness :
  (exists r2 s2,
     buscarCoordenadasComCache provedor_sem_resultados "rua inexistente, 0"
       (snd (buscarCoordenadasComCache provedor_sem_resultados
               "Rua Inexistente, 0" servico_novo)) = (r2, s2)
     /\ (1 < requests s2)%nat)
  /\ buscarCoordenadasComCache provedor_sp "rua  x" servico_com_nulo
     = (None, set_stats (inc_cached (stats servico_com_nulo)) servico_com_nulo)
  /\ buscarCoordenadasComCache provedor_sp "Rua X"
       (snd (buscarCoordenadasComCache provedor_sp "rua  x" servico_com_nulo))
     = (None,
        set_stats
          (inc_cached
             (stats (snd (buscarCoordenadasComCache provedor_sp "rua  x"
                            servico_com_nulo))))
          (snd (buscarCoordenadasComCache provedor_sp "rua  x"
                  servico_com_nulo))).
Proof.
  assert (Hrun : buscarCoordenadasComCache provedor_sem_resultados
                   "Rua Inexistente, 0" servico_novo
                 = (None,
                    snd (buscarCoordenadasComCache provedor_sem_resultados
                           "Rua Inexistente, 0" servico_novo)))
    by (vm_compute; reflexivity).
  assert (Hkey : getCacheKey "rua inexistente, 0"
                 = getCacheKey "Rua Inexistente, 0")
    by (vm_compute; reflexivity).
  assert (Hnulo : buscarCoordenadasComCache provedor_sp "rua  x"
                    servico_com_nulo
                  = (None,
                     snd (buscarCoordenadasComCache provedor_sp "rua  x"
                            servico_com_nulo)))
    by (vm_compute; reflexivity).
  assert (Hkey2 : getCacheKey "Rua X" = getCacheKey "rua  x")
    by (vm_compute; reflexivity).
  split; [|split].
  - destruct (buscarCoordenadasComCache_falha_repete provedor_sem_resultados
                "Rua Inexistente, 0" "rua inexistente, 0" servico_novo _
                Hrun Hkey)
      as (_ & [(_ & Hreq1 & r2 & s2 & Hrun2 & Hreq & _)|(Hk & _)]).
    + exists r2, s2. split; [exact Hrun2|]. lia.
    + vm_compute in Hk. discriminate Hk.
  - vm_compute. reflexivity.
  - destruct (buscarCoordenadasComCache_falha_repete provedor_sp
                "rua  x" "Rua X" servico_com_nulo _ Hnulo Hkey2)
      as (_ & [(Hk & _)|(_ & _ & Hhit)]).
    + vm_compute in Hk. discriminate Hk.
    + exact Hhit.
Defined.

Lemma processarClientesOtimizado_espacado_witness :
  livre (trace servico_novo)
  /\ espacado (trace (snd execucao_cinco)).
Proof.
  assert (H : livre (trace servico_novo)) by reflexivity.
  split; [exact H|].
  exact (proj1 (processarClientesOtimizado_espacado provedor_sp cinco_clientes
                  true servico_novo H)).
Defined.

Lemma processarClientesOtimizado_sem_cache_witness :
  sem_cache servico_sem_cache
  /\ cached (stats (snd (processarClientesOtimizado provedor_sp cinco_clientes
                           true servico_sem_cache))) = 0%nat
  /\ memoryCache (snd (processarClientesOtimizado provedor_sp cinco_clientes
                         true servico_sem_cache)) = ∅.
Proof.
  assert (H : sem_cache servico_sem_cache) by (split; reflexivity).
  split; [exact H|].
  destruct (processarClientesOtimizado_sem_cache provedor_sp cinco_clientes
              true servico_sem_cache H) as (H1 & H2 & _).
  split; [exact H1|exact H2].
Defined.

Lemma processarClientesOtimizado_persiste_cache_witness :
  cacheEnabled servico_novo = true
  /\ memoryCache (snd execucao_cinco) <> ∅
  /\ cacheFile (snd execucao_cinco)
     = Some (json_valor <$> memoryCache (snd execucao_cinco))
  /\ memoryCache (loadCache (constructor opcoes_padrao 0 hora_de_brasilia
                               (cacheFile (snd execucao_cinco)) None))
     = json_valor <$> memoryCache (snd execucao_cinco).
Proof.
  assert (Hne : memoryCache (snd execucao_cinco) <> ∅).
  { intros H.
    assert (H0 : memoryCache (snd execucao_cinco) !! "main st, city"%string
                 = None) by (rewrite H; apply lookup_empty).
    vm_compute in H0. discriminate H0. }
  assert (Ho : opt_cacheEnabled opcoes_padrao <> Some false)
    by discriminate.
  split; [reflexivity|]. split; [exact Hne|].
  destruct (processarClientesOtimizado_persiste_cache provedor_sp
              cinco_clientes true servico_novo opcoes_padrao 0
              hora_de_brasilia None eq_refl Hne Ho) as (H1 & H2 & _).
  split; [exact H1|exact H2].
Defined.

Lemma new_Set_conjunto_witness :
  NoDup [1; 2; 3] /\ new_Set [1; 2; 3] = [1; 2; 3].
Proof.
  assert (H : NoDup [1; 2; 3])
    by (apply (bool_decide_unpack (NoDup [1; 2; 3])); vm_compute; exact I).
  split; [exact H|].
  exact (proj2 (proj2 (new_Set_conjunto [1; 2; 3])) H).
Defined.

Lemma lotes_particionam_witness :
  (2 < ceil_div (length [0; 1; 2; 3; 4]%nat) (Pos.to_nat 2))%nat
  /\ (1 <= length (lote_de [0; 1; 2; 3; 4]%nat (Pos.to_nat 2) 2) <= Pos.to_nat 2)%nat.
Proof.
  assert (H : (2 < ceil_div (length [0; 1; 2; 3; 4]%nat) (Pos.to_nat 2))%nat)
    by (vm_compute; lia).
  split; [exact H|].
  exact (proj2 (lotes_particionam [0; 1; 2; 3; 4]%nat 2) 2%nat H).
Defined.

Lemma registros_conservados_witness :
  ja_geocodificado cliente_resolvido
  /\ fst (processarClientesOtimizado provedor_sp
            (cliente_resolvido :: cinco_clientes) true servico_novo) !! 0%nat
     = Some cliente_resolvido.
Proof.
  assert (H : ja_geocodificado cliente_resolvido)
    by (repeat split; reflexivity).
  split; [exact H|].
  exact (proj2 (proj2 (registros_conservados provedor_sp
                         (cliente_resolvido :: cinco_clientes) true
                         servico_novo))
           0%nat cliente_resolvido eq_refl H).
Defined.

Lemma registros_do_checkpoint_intocados_witness :
  progressFile (servico_com_checkpoint [1; 2] 1) = Some (checkpoint [1; 2] 1)
  /\ fst (processarClientesOtimizado provedor_sp cinco_clientes true
            (servico_com_checkpoint [1; 2] 1)) !! 1%nat
     = Some (cliente_novo 2 "Main St, City").
Proof.
  split; [reflexivity|].
  apply (registros_do_checkpoint_intocados provedor_sp cinco_clientes
           (servico_com_checkpoint [1; 2] 1) (checkpoint [1; 2] 1) 1
           (cliente_novo 2 "Main St, City") eq_refl eq_refl).
  apply (bool_decide_unpack (2 ∈ [1; 2])). vm_compute. exact I.
Defined.

Lemma execucao_sem_pendentes_witness :
  Forall ja_geocodificado [cliente_resolvido]
  /\ requests (snd (processarClientesOtimizado provedor_sp [cliente_resolvido]
                      true servico_novo)) = requests servico_novo
  /\ fst (processarClientesOtimizado provedor_sp [cliente_resolvido] true
            servico_novo) = [cliente_resolvido].
Proof.
  assert (H : Forall ja_geocodificado [cliente_resolvido]).
  { constructor; [repeat split; reflexivity|constructor]. }
  split; [exact H|].
  destruct (execucao_sem_pendentes provedor_sp [cliente_resolvido] true
              servico_novo H) as (H1 & H2 & _).
  split; [exact H2|exact H1].
Defined.

Lemma execucao_checkpoint_adiantado_witness :
  (length (List.filter (pendente (new_Set [1; 2; 3; 4]%Z)) cinco_clientes)
   <= 2 * Pos.to_nat (batchSize (servico_com_checkpoint [1; 2; 3; 4]%Z 2)))%nat
  /\ fst (processarClientesOtimizado provedor_sp cinco_clientes true
            (servico_com_checkpoint [1; 2; 3; 4] 2)) = cinco_clientes
  /\ requests (snd (processarClientesOtimizado provedor_sp cinco_clientes true
                      (servico_com_checkpoint [1; 2; 3; 4] 2))) = 0%nat.
Proof.
  assert (H : (length (List.filter (pendente (new_Set [1; 2; 3; 4]%Z))
                         cinco_clientes)
               <= 2 * Pos.to_nat (batchSize
                                    (servico_com_checkpoint [1; 2; 3; 4]%Z 2)))%nat)
    by (vm_compute; lia).
  split; [exact H|].
  destruct (execucao_checkpoint_adiantado provedor_sp cinco_clientes
              (servico_com_checkpoint [1; 2; 3; 4] 2)
              (checkpoint [1; 2; 3; 4] 2) eq_refl H) as (H1 & H2 & _).
  split; [exact H1|exact H2].
Defined.

Lemma execucao_completa_witness :
  progressFile servico_novo = None
  /\ processed (stats (snd execucao_cinco)) = 5%nat
  /\ exists pr,
       progressFile (snd execucao_cinco) = Some pr
       /\ prog_processedIds pr = [1; 2; 3; 4; 5]
       /\ prog_currentBatch pr = 1%nat.
Proof.
  split; [reflexivity|].
  destruct (execucao_completa provedor_sp cinco_clientes true servico_novo
              (or_intror eq_refl)) as (H1 & H2 & _).
  split; [exact H1|].
  destruct (H2 ltac:(discriminate)) as (pr & Hpr & Hids & Hb).
  exists pr. split; [exact Hpr|]. split; [exact Hids|exact Hb].
Defined.


Lemma limparCache_parcial_regrava_witness :
  memoryCache (servico_com_cache None) !! "rua a"%string
  = Some (Some (resultado_sp "Rua A"))
  /\ cacheFile (limparCache (servico_com_cache None)) = None
  /\ exists f,
       cacheFile (snd (processarClientesOtimizado provedor_sp cinco_clientes
                         true (limparCache (servico_com_cache None))))
       = Some f
       /\ f !! "rua a"%string = Some (Some (resultado_sp "Rua A")).
Proof.
  assert (Hk : memoryCache (servico_com_cache None) !! "rua a"%string
               = Some (Some (resultado_sp "Rua A")))
    by (vm_compute; reflexivity).
  assert (Hc : cacheFile (servico_com_cache None) <> None) by discriminate.
  split; [exact Hk|].
  destruct (limparCache_parcial_regrava provedor_sp cinco_clientes true
              (servico_com_cache None) "rua a" (Some (resultado_sp "Rua A"))
              eq_refl Hc eq_refl Hk) as (Hnone & f & Hf & _ & Hest).
  split; [exact Hnone|]. exists f. split; [exact Hf|].
  exact (Hest eq_refl).
Defined.

Lemma limparCache_sem_cache_witness :
  sem_cache servico_sem_cache
  /\ cacheFile servico_sem_cache = None
  /\ limparCache (snd (processarClientesOtimizado provedor_sp cinco_clientes
                         true servico_sem_cache))
     = snd (processarClientesOtimizado provedor_sp cinco_clientes true
              servico_sem_cache).
Proof.
  assert (H : sem_cache servico_sem_cache) by (split; reflexivity).
  split; [exact H|]. split; [reflexivity|].
  exact (limparCache_sem_cache provedor_sp cinco_clientes true
           servico_sem_cache H eq_refl).
Defined.

Lemma ajustes_taxa_alta_witness :
  Forall taxa_alta [stats_com_erros; stats_com_erros; stats_com_erros]
  /\ rateLimitDelay servico_novo <= 3000
  /\ rateLimitDelay
       (ajustes [stats_com_erros; stats_com_erros; stats_com_erros]
          servico_novo) = 1600.
Proof.
  assert (H1 : Forall taxa_alta
                 [stats_com_erros; stats_com_erros; stats_com_erros])
    by (repeat constructor).
  assert (H2 : rateLimitDelay servico_novo <= 3000) by (cbn; lia).
  split; [exact H1|]. split; [exact H2|].
  exact (ajustes_taxa_alta [stats_com_erros; stats_com_erros; stats_com_erros]
           servico_novo H1 H2).
Defined.

Lemma ajustes_taxa_baixa_witness :
  Forall taxa_baixa [stats0; stats0; stats0]
  /\ rateLimitDelay (ajustes [stats0; stats0; stats0] servico_novo) = 800.
Proof.
  assert (H : Forall taxa_baixa [stats0; stats0; stats0])
    by (repeat constructor).
  split; [exact H|].
  exact (ajustes_taxa_baixa [stats0; stats0; stats0] servico_novo H).
Defined.

Lemma gerarRelatorioDetalhado_contagens_witness :
  cliente_resolvido ∈ cliente_resolvido :: cinco_clientes
  /\ (cliente_resolvido
        ∈ com_coordenadas
            (detalhes (gerarRelatorioDetalhado servico_novo
                         (cliente_resolvido :: cinco_clientes)))
      <-> ~ cliente_resolvido
            ∈ sem_coordenadas
                (detalhes (gerarRelatorioDetalhado servico_novo
                             (cliente_resolvido :: cinco_clientes)))).
Proof.
  assert (H : cliente_resolvido ∈ cliente_resolvido :: cinco_clientes)
    by (left).
  split; [exact H|].
  destruct (gerarRelatorioDetalhado_contagens servico_novo
              (cliente_resolvido :: cinco_clientes)) as (_ & _ & _ & Hp & _).
  exact (Hp cliente_resolvido H).
Defined.
